(** * The prompt sequencing and validation engine of django-cloud-deploy

    A shallow embedding of [django_cloud_deploy/cli/prompt_manager.py] and
    of the flag loop of [django_cloud_deploy/cli/update.py].

    Python strings are modelled by [string]; the character predicates
    ([str.lower], [str.isnumeric], [str.isidentifier], [str.isalnum], the
    regular expressions) are those of the 7-bit ASCII repertoire.
    Dictionaries are [gmap string Value] cells of a store of objects, so
    that [copy.deepcopy] and item assignment keep their aliasing.  The
    console, the billing service, the browser and the clock are threaded
    through a state-and-exception monad. *)

From Stdlib Require Import ZArith String Ascii List Lia Bool.
From Stdlib Require Import DecimalString DecimalFacts DecimalPos.
From stdpp Require Import base gmap list strings.

Open Scope string_scope.
Open Scope list_scope.

(** ** Python strings *)

Module PyStr.

Definition dquote : string := String "034"%char EmptyString.

Definition in_range (lo hi c : ascii) : bool :=
  (lo <=? c)%char && (c <=? hi)%char.

Definition is_lower (c : ascii) : bool := in_range "a" "z" c.
Definition is_upper (c : ascii) : bool := in_range "A" "Z" c.
Definition is_digit (c : ascii) : bool := in_range "0" "9" c.
Definition is_alpha (c : ascii) : bool := is_lower c || is_upper c.
Definition is_alnum (c : ascii) : bool := is_alpha c || is_digit c.

Fixpoint map_chars (f : ascii -> ascii) (s : string) : string :=
  match s with
  | EmptyString => EmptyString
  | String c s' => String (f c) (map_chars f s')
  end.

Fixpoint filter_chars (p : ascii -> bool) (s : string) : string :=
  match s with
  | EmptyString => EmptyString
  | String c s' =>
      if p c then String c (filter_chars p s') else filter_chars p s'
  end.

Fixpoint all_chars (p : ascii -> bool) (s : string) : bool :=
  match s with
  | EmptyString => true
  | String c s' => p c && all_chars p s'
  end.

Definition nonempty (s : string) : bool :=
  match s with EmptyString => false | String _ _ => true end.

(** Truth value of a list *)
Definition nonempty_list {A} (l : list A) : bool :=
  match l with [] => false | _ :: _ => true end.

(** [s.lower()] *)
Definition lower_char (c : ascii) : ascii :=
  if is_upper c then ascii_of_nat (nat_of_ascii c + 32) else c.
Definition lower (s : string) : string := map_chars lower_char s.

(** [s.replace(a, b)] for one-character [a] and [b] *)
Definition replace_char (a b : ascii) (s : string) : string :=
  map_chars (fun c => if Ascii.eqb c a then b else c) s.

(** [s[0:n]] *)
Definition slice_to (n : nat) (s : string) : string := substring 0 n s.

(** [str.isnumeric(s)], [s.isalnum()], [s.isidentifier()] *)
Definition isnumeric (s : string) : bool := nonempty s && all_chars is_digit s.
Definition isalnum (s : string) : bool := nonempty s && all_chars is_alnum s.
Definition is_id_start (c : ascii) : bool := is_alpha c || Ascii.eqb c "_".
Definition is_id_continue (c : ascii) : bool := is_alnum c || Ascii.eqb c "_".
Definition isidentifier (s : string) : bool :=
  match s with
  | EmptyString => false
  | String c s' => is_id_start c && all_chars is_id_continue s'
  end.

(** [int(s)] on a string of decimal digits, the only strings on which
    the program calls it (always behind [str.isnumeric]). *)
Definition digit_value (c : ascii) : Z :=
  Z.of_nat (nat_of_ascii c - nat_of_ascii "0").
Fixpoint int_acc (acc : Z) (s : string) : Z :=
  match s with
  | EmptyString => acc
  | String c s' => int_acc (10 * acc + digit_value c) s'
  end.
Definition int (s : string) : Z := int_acc 0 s.

(** [str(n)] for an integer *)
Definition str_of_Z (n : Z) : string := NilZero.string_of_int (Z.to_int n).
Definition str_of_nat (n : nat) : string := NilZero.string_of_uint (Nat.to_uint n).

(** [sep.join(l)] *)
Fixpoint join (sep : string) (l : list string) : string :=
  match l with
  | [] => ""
  | [x] => x
  | x :: l' => x +:+ sep +:+ join sep l'
  end.

Definition newline : string := String "010"%char EmptyString.

(** The constants of the [string] module. *)
Definition ascii_lowercase : string := "abcdefghijklmnopqrstuvwxyz".
Definition ascii_uppercase : string := "ABCDEFGHIJKLMNOPQRSTUVWXYZ".
Definition ascii_letters : string := ascii_lowercase +:+ ascii_uppercase.
Definition digits : string := "0123456789".
Definition punctuation : string :=
  "!" +:+ dquote +:+ "#$%&'()*+,-./:;<=>?@[\]^_`{|}~".

(** [c in s] for a one-character [c] *)
Definition char_in (c : ascii) (s : string) : bool :=
  existsb (Ascii.eqb c) (list_ascii_of_string s).

(** [frozenset(s)] *)
Definition frozenset (s : string) : gset ascii :=
  list_to_set (list_ascii_of_string s).

(** [os.path.join(a, b)] on a POSIX system *)
Definition endswith_sep (s : string) : bool :=
  match rev (list_ascii_of_string s) with
  | c :: _ => Ascii.eqb c "/"
  | [] => false
  end.
Definition path_join (a b : string) : string :=
  if String.prefix "/" b then b
  else if negb (nonempty a) || endswith_sep a then a +:+ b
  else a +:+ "/" +:+ b.

End PyStr.

(** ** Exceptions and results *)

Inductive Exn : Type :=
| ValueError (msg : string)
| EOFError
| IndexError
| KeyError (key : string)
| AssertionError (msg : string)
| TypeError
| AttributeError
| HttpError
| SystemExit (code : Z).

(** The outcome of a call: a value, a raised exception, or no outcome at
    all because the call loops forever. *)
Inductive Result (A : Type) : Type :=
| Ok (a : A)
| Raise (e : Exn)
| Diverge.
Arguments Ok {A} a.
Arguments Raise {A} e.
Arguments Diverge {A}.

(** [str(e)] of an exception, as [console.error(e)] and [print(e)] show it. *)
Definition str_of_exn (e : Exn) : string :=
  match e with
  | ValueError msg => msg
  | AssertionError msg => msg
  | KeyError k => "'" +:+ k +:+ "'"
  | _ => ""
  end.

(** ** Validators on strings *)

(** [_multiple_choice_validate(s, default, len_options)] *)
Definition _multiple_choice_validate
    (s : string) (default : option string) (len_options : Z) : Result unit :=
  if bool_decide (default <> None) && bool_decide (s = "") then Ok tt
  else if negb (PyStr.isnumeric s) then
    Raise (ValueError "Please enter a numeric value")
  else if (1 <=? PyStr.int s)%Z && (PyStr.int s <=? len_options + 1)%Z then Ok tt
  else Raise (ValueError "Value is not in range").

(** [_binary_validate(s)] *)
Definition _binary_validate (s : string) : Result unit :=
  if bool_decide (PyStr.lower s ∈ ["y"; "n"]) then Ok tt
  else Raise (ValueError ("Please respond using " +:+ PyStr.dquote +:+ "y"
                          +:+ PyStr.dquote +:+ " or " +:+ PyStr.dquote +:+ "n"
                          +:+ PyStr.dquote)).

(** [_password_validate(s)] *)
Definition allowed_characters : gset ascii :=
  PyStr.frozenset (PyStr.ascii_letters +:+ PyStr.digits +:+ PyStr.punctuation).

Definition _password_validate (s : string) : Result unit :=
  if (String.length s <? 5)%nat then
    Raise (ValueError "Passwords must be at least 6 characters long")
  else if bool_decide (allowed_characters ⊆ PyStr.frozenset s) then
    Raise (ValueError ("Invalid character in password: "
                       +:+ "use letters, numbers and punctuation"))
  else Ok tt.

(** [re.match(r'[a-z][a-z0-9\-]{5,29}', s)]: a match at the start of [s],
    with nothing required of what follows it. *)
Definition is_id_char (c : ascii) : bool :=
  PyStr.is_lower c || PyStr.is_digit c || Ascii.eqb c "-".

Definition match_project_id (s : string) : bool :=
  match s with
  | EmptyString => false
  | String c s' =>
      PyStr.is_lower c
      && (5 <=? String.length (PyStr.slice_to 5 s'))%nat
      && PyStr.all_chars is_id_char (PyStr.slice_to 5 s')
  end.

Definition invalid_project_id_msg (s : string) : string :=
  "Invalid Google Cloud Platform Project ID " +:+ PyStr.dquote +:+ s
  +:+ PyStr.dquote +:+ ": must be between 6 and 30 characters and contain "
  +:+ "lowercase letters, digits or hyphens".

(** [random.randint(lo, hi)] draws from [lo] to [hi], both included. *)
Definition randint_range (lo hi r : Z) : Prop := (lo <= r <= hi)%Z.

(** [GoogleNewProjectId._validate] *)
Definition GoogleNewProjectId_validate (s : string) : Result unit :=
  if negb (match_project_id s) then Raise (ValueError (invalid_project_id_msg s))
  else Ok tt.

(** [re.match(r'[^@]+@[^@]+\.[^@]+', s)].  The first group can only be the
    whole run before the first [@]; in the run after it there must be a
    dot with a character before it and a character after it. *)
Definition not_at (c : ascii) : bool := negb (Ascii.eqb c "@").

Fixpoint span_not_at (s : string) : string * string :=
  match s with
  | EmptyString => (EmptyString, EmptyString)
  | String c s' =>
      if not_at c then let (a, b) := span_not_at s' in (String c a, b)
      else (EmptyString, s)
  end.

Fixpoint has_inner_dot (seen : bool) (s : string) : bool :=
  match s with
  | EmptyString => false
  | String c s' =>
      (seen && Ascii.eqb c "." && PyStr.nonempty s') || has_inner_dot true s'
  end.

Definition match_email (s : string) : bool :=
  let (local_part, rest) := span_not_at s in
  PyStr.nonempty local_part
  && match rest with
     | String _ after_at => has_inner_dot false (fst (span_not_at after_at))
     | EmptyString => false
     end.

(** ** Values held by the answer mapping *)

(** Modelled from the spec: the enumeration [workflow.ProjectCreationMode],
    declared outside the files at hand; the spec names its members
    [MUST_EXIST] and [CREATE_NEW]. *)
Inductive ProjectCreationMode : Type := MUST_EXIST | CREATE_NEW.

(** An opaque credential handle handed out by the auth service. *)
Inductive Credentials : Type := CredentialHandle (n : nat).

Inductive Value : Type :=
| VNone
| VBool (b : bool)
| VStr (s : string)
| VMode (m : ProjectCreationMode)
| VCreds (c : Credentials).

#[global] Instance ProjectCreationMode_eq_dec : EqDecision ProjectCreationMode.
Proof. solve_decision. Defined.
#[global] Instance Credentials_eq_dec : EqDecision Credentials.
Proof. solve_decision. Defined.
#[global] Instance Value_eq_dec : EqDecision Value.
Proof. solve_decision. Defined.

(** Truth value of an object, as [if x:] and [x or y] take it. *)
Definition truthy (v : Value) : bool :=
  match v with
  | VNone => false
  | VBool b => b
  | VStr s => PyStr.nonempty s
  | VMode _ => true
  | VCreds _ => true
  end.

(** A string operation applied to an object that may not be a string: the
    exception [e] is what Python raises for the other types. *)
Definition on_str {A} (e : Exn) (f : string -> Result A) (v : Value) : Result A :=
  match v with
  | VStr s => f s
  | _ => Raise e
  end.

(** ** The outside world *)

(** A billing account as [list_billing_accounts] returns it, and the billing
    information of a project as [get_billing_account] returns it (either
    key may be missing from the reply). *)
Record Account : Type := { name : string; displayName : string }.

Record ProjectBillingInfo : Type :=
  { billingEnabled : option bool; billingAccountName : option string }.

(** The service clients, the file system and the random generator, as far
    as the prompters consult them.  [get_project id] is the ['name'] of the
    project, [None] when the service refuses the request.  [set_order] is
    the order in which Python enumerates a set of strings. *)
Record Services : Type := {
  get_project : string -> option string;
  project_exists : string -> bool;
  get_billing_account : string -> ProjectBillingInfo;
  get_active_account : option string;
  create_default_credentials : Credentials;
  get_default_credentials : Credentials;
  str_of_credentials : Credentials -> string;
  path_exists : string -> bool;
  expanduser_home : string;
  randint_100000_1000000 : Z;
  set_order : gset string -> list string
}.

(** What the program does to its surroundings, in order of occurrence. *)
Inductive Event : Type :=
| Ask (question : string)
| Tell (message : string)
| Error (message : string)
| GetPass (question : string)
| OpenBrowser (url : string)
| Sleep (seconds : Z)
| Stderr (message : string).

#[global] Instance Event_eq_dec : EqDecision Event.
Proof. solve_decision. Defined.

(** The state threaded through a run: the lines the user is still going to
    type, the events so far, what the billing service lists now and after
    each further call (its last listing stays for ever), and the store of
    dictionaries. *)
Record World : Type := {
  stdin : list string;
  trace : list Event;
  billing_now : list Account;
  billing_later : list (list Account);
  heap : list (gmap string Value)
}.

Definition set_console (ins : list string) (tr : list Event) (w : World) : World :=
  {| stdin := ins; trace := tr; billing_now := billing_now w;
     billing_later := billing_later w; heap := heap w |}.

Definition set_billing (now : list Account) (later : list (list Account))
    (w : World) : World :=
  {| stdin := stdin w; trace := trace w; billing_now := now;
     billing_later := later; heap := heap w |}.

Definition set_heap (h : list (gmap string Value)) (w : World) : World :=
  {| stdin := stdin w; trace := trace w; billing_now := billing_now w;
     billing_later := billing_later w; heap := h |}.

Definition log (e : Event) (w : World) : World :=
  set_console (stdin w) (trace w ++ [e]) w.

(** ** The monad of effectful calls *)

Definition M (A : Type) : Type := World -> Result A * World.

Definition ret {A} (a : A) : M A := fun w => (Ok a, w).
Definition raise {A} (e : Exn) : M A := fun w => (Raise e, w).
Definition lift {A} (r : Result A) : M A := fun w => (r, w).
Definition diverge {A} : M A := fun w => (Diverge, w).

Definition bind {A B} (m : M A) (f : A -> M B) : M B :=
  fun w =>
    match m w with
    | (Ok a, w') => f a w'
    | (Raise e, w') => (Raise e, w')
    | (Diverge, w') => (Diverge, w')
    end.

Declare Scope prompt_scope.
Delimit Scope prompt_scope with prompt.
Notation "'let*' x ':=' c 'in' k" := (bind c (fun x => k))
  (at level 10, x name, c at level 100, k at level 200) : prompt_scope.
Notation "c '>>' k" := (bind c (fun _ => k))
  (at level 100, k at level 200, right associativity) : prompt_scope.
Open Scope prompt_scope.

(** ** The console *)

Definition emit (e : Event) : M unit := fun w => (Ok tt, log e w).

Definition console_tell (message : string) : M unit := emit (Tell message).
Definition console_error (message : string) : M unit := emit (Error message).

(** Reading a line: the next line of [stdin], [EOFError] when there is none. *)
Definition read_line (e : Event) : M string :=
  fun w =>
    match stdin w with
    | [] => (Raise EOFError, log e w)
    | answer :: rest => (Ok answer, set_console rest (trace w ++ [e]) w)
    end.

Definition console_ask (question : string) : M string := read_line (Ask question).
Definition console_getpass (question : string) : M string := read_line (GetPass question).

(** A loop that only talks to the console works on its two components. *)
Definition Console : Type := (list string * list Event)%type.

Definition on_console {A} (f : list string -> list Event -> Result A * Console) : M A :=
  fun w =>
    let '(r, (ins, tr)) := f (stdin w) (trace w) in
    (r, set_console ins tr w).

(** ** The prompt primitives *)

(** [default and answer is ''] *)
Definition or_default (default : option string) (answer : string) : string :=
  match default with
  | Some d => if PyStr.nonempty d && bool_decide (answer = "") then d else answer
  | None => answer
  end.

(** [_ask_prompt(question, console, validate, default)]: one turn of the
    [while True] loop per line read. *)
Fixpoint _ask_prompt_loop (question : string) (validate : Value -> Result unit)
    (default : option string) (lines : list string) (tr : list Event)
    : Result string * Console :=
  match lines with
  | [] => (Raise EOFError, ([], tr ++ [Ask question]))
  | answer :: lines' =>
      let tr := tr ++ [Ask question] in
      let answer := or_default default answer in
      match validate (VStr answer) with
      | Ok _ => (Ok answer, (lines', tr))
      | Raise (ValueError msg) =>
          _ask_prompt_loop question validate default lines' (tr ++ [Error msg])
      | Raise e => (Raise e, (lines', tr))
      | Diverge => (Diverge, (lines', tr))
      end
  end.

Definition no_validate : Value -> Result unit := fun _ => Ok tt.

Definition _ask_prompt (question : string) (validate : option (Value -> Result unit))
    (default : option string) : M string :=
  let validate := from_option id no_validate validate in
  on_console (_ask_prompt_loop question validate default).

(** A question with one [{}] placeholder: the text before it and after it. *)
Record Template : Type := { before : string; after : string }.

Definition format1 (q : Template) (x : string) : string :=
  before q +:+ x +:+ after q.
Definition unformatted (q : Template) : string :=
  before q +:+ "{}" +:+ after q.

(** ['{}. {}'.format(str(i), opt) for i, opt in enumerate(options, 1)] *)
Definition options_formatted (options : list string) : list string :=
  imap (fun i opt => PyStr.str_of_nat (i + 1) +:+ ". " +:+ opt) options.

(** The [while True] loop of [_multiple_choice_prompt]; [answer] is the
    line read last. *)
Fixpoint _multiple_choice_loop (question : string) (default : option string)
    (len_options : Z) (answer : string) (lines : list string) (tr : list Event)
    : Result string * Console :=
  match _multiple_choice_validate answer default len_options with
  | Ok _ => (Ok answer, (lines, tr))
  | Raise (ValueError msg) =>
      let tr := tr ++ [Error msg] in
      match lines with
      | [] => (Raise EOFError, ([], tr ++ [Ask question]))
      | answer' :: lines' =>
          _multiple_choice_loop question default len_options answer' lines'
            (tr ++ [Ask question])
      end
  | Raise e => (Raise e, (lines, tr))
  | Diverge => (Diverge, (lines, tr))
  end.

(** [_multiple_choice_prompt(question, options, console, default)].  The
    source rebinds [options] to the joined text before it takes
    [len(options)]. *)
Definition _multiple_choice_prompt (question : Template) (options : list string)
    (default : option string) : M string :=
  let options_formatted := options_formatted options in
  let options := PyStr.join PyStr.newline options_formatted in
  let* answer := console_ask (format1 question options) in
  on_console (_multiple_choice_loop (unformatted question) default
                (Z.of_nat (String.length options)) answer).

(** [_binary_prompt(question, console, default)] *)
Fixpoint _binary_prompt_loop (question : string) (default : option string)
    (lines : list string) (tr : list Event) : Result string * Console :=
  match lines with
  | [] => (Raise EOFError, ([], tr ++ [Ask question]))
  | answer :: lines' =>
      let tr := tr ++ [Ask question] in
      match default with
      | Some d =>
          if PyStr.nonempty d && bool_decide (answer = "") then
            match _binary_validate d with
            | Ok _ => (Ok d, (lines', tr))
            | Raise (ValueError msg) =>
                _binary_prompt_loop question default lines' (tr ++ [Error msg])
            | Raise e => (Raise e, (lines', tr))
            | Diverge => (Diverge, (lines', tr))
            end
          else (Ok answer, (lines', tr))
      | None => (Ok answer, (lines', tr))
      end
  end.

Definition _binary_prompt (question : string) (default : option string) : M string :=
  on_console (_binary_prompt_loop question default).

(** [_password_prompt(question, console)] *)
Fixpoint _password_prompt_loop (lines : list string) (tr : list Event)
    : Result string * Console :=
  match lines with
  | [] => (Raise EOFError, ([], tr ++ [GetPass "Password: "]))
  | password1 :: lines1 =>
      let tr := tr ++ [GetPass "Password: "] in
      match _password_validate password1 with
      | Raise (ValueError msg) => _password_prompt_loop lines1 (tr ++ [Error msg])
      | Raise e => (Raise e, (lines1, tr))
      | Diverge => (Diverge, (lines1, tr))
      | Ok _ =>
          match lines1 with
          | [] => (Raise EOFError, ([], tr ++ [GetPass "Password (again): "]))
          | password2 :: lines2 =>
              let tr := tr ++ [GetPass "Password (again): "] in
              if bool_decide (password1 <> password2) then
                _password_prompt_loop lines2
                  (tr ++ [Error "Passwords do not match, please try again"])
              else (Ok password1, (lines2, tr))
          end
      end
  end.

Definition _password_prompt (question : string) : M string :=
  console_tell question >> on_console _password_prompt_loop.

(** ** Dictionaries in the store *)

(** A reference is an index into [heap].  References come from [deepcopy]
    and [dict_new] only, so they are always in range; one that is not
    reads as the empty dictionary. *)
Definition heap_read (d : nat) (w : World) : gmap string Value :=
  default ∅ (heap w !! d).

(** [copy.deepcopy(d)]: a new dictionary with the same items. *)
Definition deepcopy (d : nat) : M nat :=
  fun w => (Ok (length (heap w)), set_heap (heap w ++ [heap_read d w]) w).

(** [{}] *)
Definition dict_new : M nat :=
  fun w => (Ok (length (heap w)), set_heap (heap w ++ [∅]) w).

(** [d.get(key, dflt)] *)
Definition dict_get (d : nat) (key : string) (dflt : Value) : M Value :=
  fun w => (Ok (default dflt (heap_read d w !! key)), w).

(** [key in d] *)
Definition dict_contains (d : nat) (key : string) : M bool :=
  fun w => (Ok (bool_decide (is_Some (heap_read d w !! key))), w).

(** [d[key]] *)
Definition dict_getitem (d : nat) (key : string) : M Value :=
  fun w =>
    match heap_read d w !! key with
    | Some v => (Ok v, w)
    | None => (Raise (KeyError key), w)
    end.

(** [d[key] = v] *)
Definition dict_setitem (d : nat) (key : string) (v : Value) : M unit :=
  fun w => (Ok tt, set_heap (<[d := <[key := v]> (heap_read d w)]> (heap w)) w).

(** [l[i]] for a Python list and an integer index *)
Definition list_getitem {A} (l : list A) (i : Z) : Result A :=
  let i := if (i <? 0)%Z then (Z.of_nat (length l) + i)%Z else i in
  if (i <? 0)%Z then Raise IndexError
  else match l !! Z.to_nat i with
       | Some a => Ok a
       | None => Raise IndexError
       end.

(** ** The billing service *)

(** [billing_client.list_billing_accounts(only_open_accounts=True)]: the
    present listing; the service then moves on to its next one. *)
Definition advance_billing (now : list Account) (later : list (list Account))
    : list Account * list (list Account) :=
  match later with
  | [] => (now, [])
  | next :: later' => (next, later')
  end.

Definition list_billing_accounts : M (list Account) :=
  fun w =>
    let (now, later) := advance_billing (billing_now w) (billing_later w) in
    (Ok (billing_now w), set_billing now later w).

(** A loop that only polls the billing service works on the listings and
    on the events. *)
Definition on_billing {A}
    (f : list Account -> list (list Account) -> list Event
         -> Result A * (list Account * list (list Account) * list Event))
    : M A :=
  fun w =>
    let '(r, (now, later, tr)) := f (billing_now w) (billing_later w) (trace w) in
    (r, set_billing now later (set_console (stdin w) tr w)).

(** [time.sleep(seconds)] *)
Definition sleep (seconds : Z) : M unit := emit (Sleep seconds).

(** The loop control of a [while True] whose body ends in [break] or runs
    to its end. *)
Inductive Ctl (A : Type) : Type :=
| Break (a : A)
| Continue.
Arguments Break {A} a.
Arguments Continue {A}.

Fixpoint while_true {A} (fuel : nat) (body : M (Ctl A)) : M A :=
  match fuel with
  | O => diverge
  | S fuel' =>
      let* c := body in
      match c with
      | Break a => ret a
      | Continue => while_true fuel' body
      end
  end.

Section Prompters.

Variable svc : Services.

(** [str(v)], as [str.format] renders an argument *)
Definition str_of_value (v : Value) : string :=
  match v with
  | VNone => "None"
  | VBool true => "True"
  | VBool false => "False"
  | VStr s => s
  | VMode MUST_EXIST => "ProjectCreationMode.MUST_EXIST"
  | VMode CREATE_NEW => "ProjectCreationMode.CREATE_NEW"
  | VCreds c => str_of_credentials svc c
  end.

(** The prompter classes. *)
Inductive Prompter : Type :=
| GoogleProjectName
| GoogleNewProjectId
| GoogleProjectId
| GoogleExistingProjectId
| CredentialsPrompt
| BillingPrompt
| PostgresPasswordPrompt
| DjangoFilesystemPath
| DjangoProjectNamePrompt
| DjangoAppNamePrompt
| DjangoSuperuserLoginPrompt
| DjangoSuperuserPasswordPrompt
| DjangoSuperuserEmailPrompt.

Definition PARAMETER (p : Prompter) : string :=
  match p with
  | GoogleProjectName => "project_name"
  | GoogleNewProjectId => "project_id"
  | GoogleProjectId => "project_id"
  | GoogleExistingProjectId => "project_id"
  | CredentialsPrompt => "credentials"
  | BillingPrompt => "billing_account_name"
  | PostgresPasswordPrompt => "database_password"
  | DjangoFilesystemPath => "django_directory_path"
  | DjangoProjectNamePrompt => "django_project_name"
  | DjangoAppNamePrompt => "django_app_name"
  | DjangoSuperuserLoginPrompt => "django_superuser_login"
  | DjangoSuperuserPasswordPrompt => "django_superuser_password"
  | DjangoSuperuserEmailPrompt => "django_superuser_email"
  end.

Definition PARAMETER_PRETTY (p : Prompter) : string :=
  match p with
  | DjangoProjectNamePrompt => "Django project name"
  | DjangoAppNamePrompt => "Django app name"
  | DjangoSuperuserLoginPrompt => "Django superuser login name"
  | DjangoSuperuserEmailPrompt => "Django superuser email"
  | _ => ""
  end.

Definition DEFAULT_VALUE (p : Prompter) : string :=
  match p with
  | DjangoProjectNamePrompt => "mysite"
  | DjangoAppNamePrompt => "home"
  | DjangoSuperuserLoginPrompt => "admin"
  | DjangoSuperuserEmailPrompt => "test@example.com"
  | _ => ""
  end.

Definition quoted (s : string) : string := PyStr.dquote +:+ s +:+ PyStr.dquote.

(** [GoogleExistingProjectId._validate] *)
Definition GoogleExistingProjectId_validate (s : string) : Result unit :=
  if negb (match_project_id s) then Raise (ValueError (invalid_project_id_msg s))
  else if negb (project_exists svc s) then
    Raise (ValueError ("Project " +:+ s +:+ " does not exist"))
  else Ok tt.

Definition invalid_identifier (s : string) : Result unit :=
  if negb (PyStr.isidentifier s) then
    Raise (ValueError ("Invalid Django project name " +:+ quoted s
                       +:+ ": must be a valid Python identifier"))
  else Ok tt.

(** [self._validate] of each class with a one-argument [_validate]; a
    class that does not define one inherits [TemplatePrompt._validate],
    whose body is [pass].  ([BillingPrompt] and [DjangoFilesystemPath]
    define a method named [validate], which nothing here calls;
    [GoogleProjectName._validate] takes the project id and the creation
    mode and comes below.) *)
Definition _validate (p : Prompter) (v : Value) : Result unit :=
  match p with
  | GoogleNewProjectId => on_str TypeError GoogleNewProjectId_validate v
  | GoogleExistingProjectId => on_str TypeError GoogleExistingProjectId_validate v
  | PostgresPasswordPrompt => on_str TypeError _password_validate v
  | DjangoSuperuserPasswordPrompt => on_str TypeError _password_validate v
  | DjangoProjectNamePrompt => on_str AttributeError invalid_identifier v
  | DjangoAppNamePrompt => on_str AttributeError invalid_identifier v
  | DjangoSuperuserLoginPrompt =>
      on_str AttributeError (fun s =>
        if negb (PyStr.isalnum s) then
          Raise (ValueError ("Invalid Django superuser login " +:+ quoted s
                             +:+ ": must be a alpha numeric"))
        else Ok tt) v
  | DjangoSuperuserEmailPrompt =>
      on_str TypeError (fun s =>
        if negb (match_email s) then
          Raise (ValueError ("Invalid Django superuser email address "
                             +:+ quoted s +:+ ": the format should be like "
                             +:+ quoted "test@example.com"))
        else Ok tt) v
  | _ => Ok tt
  end.

(** [TemplatePrompt._is_valid_passed_arg(console, step, value, validate)]
    of the prompter [p] *)
Definition _is_valid_passed_arg (p : Prompter) (step : string) (value : Value)
    (validate : Value -> Result unit) : M bool :=
  if bool_decide (value = VNone) then ret false
  else
    match validate value with
    | Raise (ValueError msg) => console_error msg >> ret false
    | Raise e => raise e
    | Diverge => diverge
    | Ok _ =>
        let msg := step +:+ " " +:+ PARAMETER p +:+ ": " +:+ str_of_value value in
        console_tell msg >> ret true
    end.

(** [StringTemplatePrompt.prompt] *)
Definition StringTemplatePrompt_prompt (p : Prompter) (step : string) (args : nat)
    : M nat :=
  let* new_args := deepcopy args in
  let* passed := dict_get args (PARAMETER p) VNone in
  let* valid := _is_valid_passed_arg p step passed (_validate p) in
  if valid then ret new_args
  else
    let base_message :=
      step +:+ " Enter a value for " +:+ PARAMETER_PRETTY p
      +:+ " or leave blank to use" in
    let default_message := "[" +:+ DEFAULT_VALUE p +:+ "]: " in
    let msg := PyStr.join PyStr.newline [base_message; default_message] in
    let* answer := _ask_prompt msg (Some (_validate p)) (Some (DEFAULT_VALUE p)) in
    dict_setitem new_args (PARAMETER p) (VStr answer) >>
    ret new_args.

(** *** [GoogleProjectName] *)

Definition _is_new_project (project_creation_mode : Value) : bool :=
  bool_decide (project_creation_mode <> VMode MUST_EXIST).

(** [project_client.get_project(project_id)['name']] *)
Definition get_project_name (project_id : Value) : Result string :=
  on_str TypeError (fun pid =>
    match get_project svc pid with
    | Some project_name => Ok project_name
    | None => Raise HttpError
    end) project_id.

(** [GoogleProjectName._validate(project_id, project_creation_mode)]: the
    inner function [helper] *)
Definition GoogleProjectName_validate (project_id project_creation_mode : Value)
    : Value -> Result unit :=
  on_str TypeError (fun s =>
    if negb ((4 <=? String.length s)%nat && (String.length s <=? 30)%nat) then
      Raise (ValueError ("Invalid Google Cloud Platform project name "
                         +:+ quoted s
                         +:+ ": must be between 4 and 30 characters"))
    else if _is_new_project project_creation_mode then Ok tt
    else if bool_decide (project_id = VNone) then
      Raise (ValueError "Project Id must be set")
    else
      match get_project_name project_id with
      | Ok project_name =>
          if bool_decide (project_name <> s) then
            Raise (ValueError "Wrong project name given for project id.")
          else Ok tt
      | Raise e => Raise e
      | Diverge => Diverge
      end).

Definition GoogleProjectName_handle_new_project (step : string) (args : nat)
    : M string :=
  let default_answer := "Django Project" in
  let msg_base :=
    step +:+ " Enter a Google Cloud Platform project name, or leave "
    +:+ "blank to use" in
  let msg_default := "[" +:+ default_answer +:+ "]: " in
  let msg := PyStr.join PyStr.newline [msg_base; msg_default] in
  let* project_id := dict_get args "project_id" VNone in
  let* project_creation_mode := dict_get args "project_creation_mode" VNone in
  _ask_prompt msg
    (Some (GoogleProjectName_validate project_id project_creation_mode))
    (Some default_answer).

Definition GoogleProjectName_handle_existing_project (step : string) (args : nat)
    : M string :=
  let* has_id := dict_contains args "project_id" in
  if negb has_id then raise (AssertionError "project_id must be set")
  else
    let* project_id := dict_getitem args "project_id" in
    let* project_name := lift (get_project_name project_id) in
    let message :=
      step +:+ " " +:+ PARAMETER GoogleProjectName +:+ ": " +:+ project_name in
    console_tell message >>
    ret project_name.

Definition GoogleProjectName_prompt (step : string) (args : nat) : M nat :=
  let* new_args := deepcopy args in
  let* project_id := dict_get args "project_id" VNone in
  let* project_creation_mode := dict_get args "project_creation_mode" VNone in
  let* passed := dict_get args (PARAMETER GoogleProjectName) VNone in
  let* valid :=
    _is_valid_passed_arg GoogleProjectName step passed
      (GoogleProjectName_validate project_id project_creation_mode) in
  if valid then ret new_args
  else
    let* project_creation_mode := dict_get args "project_creation_mode" VNone in
    let* project_name :=
      if _is_new_project project_creation_mode
      then GoogleProjectName_handle_new_project step args
      else GoogleProjectName_handle_existing_project step args in
    dict_setitem new_args (PARAMETER GoogleProjectName) (VStr project_name) >>
    ret new_args.

(** *** [GoogleNewProjectId] *)

(** [_generate_default_project_id(project_name)], on the number [r] that
    [random.randint(100000, 1000000)] draws; [randint] includes both of
    its bounds. *)
Definition _generate_default_project_id (project_name : Value) (r : Z)
    : Result string :=
  let name_or_django := if truthy project_name then project_name else VStr "django" in
  on_str AttributeError (fun s =>
    let default_project_id := PyStr.lower s in
    let default_project_id := PyStr.replace_char " " "-" default_project_id in
    match default_project_id with
    | EmptyString => Raise IndexError
    | String c _ =>
        let default_project_id :=
          if negb (PyStr.char_in c PyStr.ascii_lowercase)
          then "django-" +:+ default_project_id else default_project_id in
        let default_project_id :=
          PyStr.filter_chars is_id_char default_project_id in
        Ok (PyStr.slice_to (30 - 6 - 1) default_project_id
            +:+ "-" +:+ PyStr.str_of_Z r)
    end) name_or_django.

Definition GoogleNewProjectId_prompt (step : string) (args : nat) : M nat :=
  let* new_args := deepcopy args in
  let* passed := dict_get args (PARAMETER GoogleNewProjectId) VNone in
  let* valid :=
    _is_valid_passed_arg GoogleNewProjectId step passed
      (_validate GoogleNewProjectId) in
  if valid then ret new_args
  else
    let* project_name := dict_get args "project_name" VNone in
    let* default_answer :=
      lift (_generate_default_project_id project_name
              (randint_100000_1000000 svc)) in
    let msg_base :=
      step +:+ " Enter a Google Cloud Platform Project ID, "
      +:+ "or leave blank to use" in
    let msg_default := "[" +:+ default_answer +:+ "]: " in
    let msg := PyStr.join PyStr.newline [msg_base; msg_default] in
    let* answer :=
      _ask_prompt msg (Some (_validate GoogleNewProjectId)) (Some default_answer) in
    dict_setitem new_args (PARAMETER GoogleNewProjectId) (VStr answer) >>
    ret new_args.

(** *** [GoogleExistingProjectId] *)

Definition GoogleExistingProjectId_prompt (step : string) (args : nat) : M nat :=
  let* new_args := deepcopy args in
  let* passed := dict_get args (PARAMETER GoogleExistingProjectId) VNone in
  let* valid :=
    _is_valid_passed_arg GoogleExistingProjectId step passed
      (_validate GoogleExistingProjectId) in
  if valid then ret new_args
  else
    let msg :=
      step +:+ " Enter the <b>existing<b> Google Cloud Platform Project ID "
      +:+ "to use." in
    let* answer := _ask_prompt msg (Some (_validate GoogleExistingProjectId)) None in
    dict_setitem new_args (PARAMETER GoogleExistingProjectId) (VStr answer) >>
    ret new_args.

(** *** [GoogleProjectId] *)

Definition GoogleProjectId_prompt (step : string) (args : nat) : M nat :=
  let* use_existing := dict_get args "use_existing_project" (VBool false) in
  if truthy use_existing
  then GoogleExistingProjectId_prompt step args
  else GoogleNewProjectId_prompt step args.

(** *** [CredentialsPrompt] *)

Definition str_of_optional (a : option string) : string :=
  match a with Some s => s | None => "None" end.

Definition CredentialsPrompt_prompt (step : string) (args : nat) : M nat :=
  let* new_args := deepcopy args in
  let* passed := dict_get args (PARAMETER CredentialsPrompt) VNone in
  let* valid :=
    _is_valid_passed_arg CredentialsPrompt step passed
      (_validate CredentialsPrompt) in
  if valid then ret new_args
  else
    console_tell
      (step +:+ " In order to deploy your application, you must allow Django "
       +:+ "Deploy to access your Google account.") >>
    let active_account := get_active_account svc in
    let msg :=
      "You have logged in with account [" +:+ str_of_optional active_account
      +:+ "]. Do you want to " +:+ "use it? [Y/n]: " in
    let* use_active_credentials := _binary_prompt msg (Some "Y") in
    let create_new_credentials :=
      if from_option PyStr.nonempty false active_account
      then bool_decide (PyStr.lower use_active_credentials = "n")
      else true in
    let creds :=
      if create_new_credentials
      then create_default_credentials svc
      else get_default_credentials svc in
    dict_setitem new_args (PARAMETER CredentialsPrompt) (VCreds creds) >>
    ret new_args.

(** *** [BillingPrompt] *)

(** The [while True] loop of [_get_new_billing_account]: [now] is what
    the next call of [list_billing_accounts] returns.  When the service
    has reached its last listing and that listing is as long as the
    first one, the loop never ends. *)
Fixpoint _poll_new_billing_account (existing_billing_accounts : list Account)
    (now : list Account) (later : list (list Account)) (tr : list Event)
    : Result string * (list Account * list (list Account) * list Event) :=
  let existing_billing_account_names := map name existing_billing_accounts in
  let billing_accounts := now in
  if bool_decide (length existing_billing_accounts <> length billing_accounts) then
    let billing_account_names := map name billing_accounts in
    let diff :=
      set_order svc (list_to_set billing_account_names
                     ∖ list_to_set existing_billing_account_names) in
    (list_getitem diff 0, (advance_billing now later, tr))
  else
    match later with
    | [] => (Diverge, (now, [], tr ++ [Sleep 2]))
    | next :: later' =>
        _poll_new_billing_account existing_billing_accounts next later'
          (tr ++ [Sleep 2])
    end.

Definition BillingPrompt_get_new_billing_account
    (existing_billing_accounts : list Account) : M string :=
  emit (OpenBrowser "https://console.cloud.google.com/billing/create") >>
  console_tell "Waiting for billing account to be created." >>
  on_billing (_poll_new_billing_account existing_billing_accounts).

Definition _does_project_exist (project_creation_mode : Value) : bool :=
  bool_decide (project_creation_mode = VMode MUST_EXIST).

Definition BillingPrompt_has_existing_billing_account (step : string) (args : nat)
    : M (option string) :=
  let* has_id := dict_contains args "project_id" in
  if negb has_id then raise (AssertionError "project_id must be set")
  else
    let* project_id := dict_getitem args "project_id" in
    let* billing_account :=
      lift (on_str TypeError (fun pid => Ok (get_billing_account svc pid))
              project_id) in
    if negb (default false (billingEnabled billing_account)) then ret None
    else
      let msg := step +:+ " Billing is already enabled on this project." in
      console_tell msg >>
      ret (billingAccountName billing_account).

Definition existing_accounts_question : Template :=
  {| before := "You have the following existing billing accounts:"
               +:+ PyStr.newline;
     after := PyStr.newline
              +:+ "Please enter your numeric choice or press [Enter] to "
              +:+ "create a new billing account: " |}.

Definition BillingPrompt_handle_existing_billing_accounts
    (billing_accounts : list Account) : M string :=
  let question := existing_accounts_question in
  let options := map displayName billing_accounts in
  let new_billing_account := "" in
  let* answer :=
    _multiple_choice_prompt question options (Some new_billing_account) in
  if bool_decide (answer = new_billing_account) then
    BillingPrompt_get_new_billing_account billing_accounts
  else
    let* account := lift (list_getitem billing_accounts (PyStr.int answer - 1)) in
    ret (name account).

Definition BillingPrompt_prompt (step : string) (args : nat) : M nat :=
  let* new_args := deepcopy args in
  let* passed := dict_get args (PARAMETER BillingPrompt) VNone in
  let* valid :=
    _is_valid_passed_arg BillingPrompt step passed (_validate BillingPrompt) in
  if valid then ret new_args
  else
    let* project_creation_mode := dict_get args "project_creation_mode" VNone in
    let* existing :=
      if _does_project_exist project_creation_mode
      then BillingPrompt_has_existing_billing_account step args
      else ret None in
    match existing with
    | Some billing_account =>
        dict_setitem new_args (PARAMETER BillingPrompt) (VStr billing_account) >>
        ret new_args
    | None =>
        let* billing_accounts := list_billing_accounts in
        console_tell
          (step +:+ " In order to deploy your application, you must enable "
           +:+ "billing for your Google Cloud Project.") >>
        if PyStr.nonempty_list billing_accounts then
          let* val := BillingPrompt_handle_existing_billing_accounts billing_accounts in
          dict_setitem new_args (PARAMETER BillingPrompt) (VStr val) >>
          ret new_args
        else
          console_tell "You do not have existing billing accounts." >>
          console_ask "Press [Enter] to create a new billing account." >>
          let* val := BillingPrompt_get_new_billing_account billing_accounts in
          dict_setitem new_args (PARAMETER BillingPrompt) (VStr val) >>
          ret new_args
    end.

(** *** [PostgresPasswordPrompt] *)

Definition PostgresPasswordPrompt_prompt (step : string) (args : nat) : M nat :=
  let* new_args := deepcopy args in
  let* passed := dict_get args (PARAMETER PostgresPasswordPrompt) VNone in
  let* valid :=
    _is_valid_passed_arg PostgresPasswordPrompt step passed
      (_validate PostgresPasswordPrompt) in
  if valid then ret new_args
  else
    let msg :=
      "Enter a password for the default database user " +:+ quoted "postgres" in
    let question := step +:+ " " +:+ msg in
    let* password := _password_prompt question in
    dict_setitem new_args (PARAMETER PostgresPasswordPrompt) (VStr password) >>
    ret new_args.

(** *** [DjangoFilesystemPath] *)

Definition DjangoFilesystemPath_ask_to_replace (directory : string) : M string :=
  let msg :=
    "The directory '" +:+ directory +:+ "' already exists, "
    +:+ "replace it's contents [y/N]: " in
  _ask_prompt msg None (Some "n").

Definition DjangoFilesystemPath_ask_for_directory (step : string) (args : nat)
    : M string :=
  let base_msg :=
    step +:+ " Enter a new directory path to store project source, "
    +:+ "or leave blank to use" in
  let home_dir := expanduser_home svc in
  let* project_name := dict_get args "project_name" (VStr "django-project") in
  let* slug :=
    lift (on_str AttributeError
            (fun s => Ok (PyStr.replace_char " " "-" (PyStr.lower s)))
            project_name) in
  let default_dir := PyStr.path_join home_dir slug in
  let default_msg := "[" +:+ default_dir +:+ "]: " in
  let msg := PyStr.join PyStr.newline [base_msg; default_msg] in
  _ask_prompt msg None (Some default_dir).

(** One turn of the [while True] loop of [DjangoFilesystemPath.prompt]. *)
Definition DjangoFilesystemPath_turn (step : string) (args : nat)
    : M (Ctl string) :=
  let* directory := DjangoFilesystemPath_ask_for_directory step args in
  if path_exists svc directory then
    let* replace := DjangoFilesystemPath_ask_to_replace directory in
    if bool_decide (replace = "y") then ret (Break directory)
    else ret (Break directory)
  else ret (Break directory).

(** Every turn reads a line, so the lines left bound the turns. *)
Definition DjangoFilesystemPath_prompt (step : string) (args : nat) : M nat :=
  let* new_args := deepcopy args in
  let* directory :=
    (fun w => while_true (S (length (stdin w)))
                (DjangoFilesystemPath_turn step args) w) in
  dict_setitem new_args (PARAMETER DjangoFilesystemPath) (VStr directory) >>
  ret new_args.

(** *** [DjangoSuperuserPasswordPrompt] *)

Definition DjangoSuperuserPasswordPrompt_prompt (step : string) (args : nat)
    : M nat :=
  let* new_args := deepcopy args in
  let* passed := dict_get args (PARAMETER DjangoSuperuserPasswordPrompt) VNone in
  let* valid :=
    _is_valid_passed_arg DjangoSuperuserPasswordPrompt step passed
      (_validate DjangoSuperuserPasswordPrompt) in
  if valid then ret new_args
  else
    let* login := dict_getitem args "django_superuser_login" in
    let msg :=
      "Enter a password for the Django superuser " +:+ quoted (str_of_value login) in
    let question := step +:+ " " +:+ msg in
    let* answer := _password_prompt question in
    dict_setitem new_args (PARAMETER DjangoSuperuserPasswordPrompt) (VStr answer) >>
    ret new_args.

(** ** Dispatch on the class: [p.prompt(console, step, args)] *)

Definition prompt (p : Prompter) (step : string) (args : nat) : M nat :=
  match p with
  | GoogleProjectName => GoogleProjectName_prompt step args
  | GoogleNewProjectId => GoogleNewProjectId_prompt step args
  | GoogleProjectId => GoogleProjectId_prompt step args
  | GoogleExistingProjectId => GoogleExistingProjectId_prompt step args
  | CredentialsPrompt => CredentialsPrompt_prompt step args
  | BillingPrompt => BillingPrompt_prompt step args
  | PostgresPasswordPrompt => PostgresPasswordPrompt_prompt step args
  | DjangoFilesystemPath => DjangoFilesystemPath_prompt step args
  | DjangoSuperuserPasswordPrompt => DjangoSuperuserPasswordPrompt_prompt step args
  | DjangoProjectNamePrompt
  | DjangoAppNamePrompt
  | DjangoSuperuserLoginPrompt
  | DjangoSuperuserEmailPrompt => StringTemplatePrompt_prompt p step args
  end.

(** ** [RootPrompt] *)

Definition PROMPT_ORDER : list string :=
  [ "project_id";
    "project_name";
    "billing_account_name";
    "database_password";
    "django_directory_path";
    "django_project_name";
    "django_app_name";
    "django_superuser_login";
    "django_superuser_password";
    "django_superuser_email" ].

Definition RootPrompt_get_creds (first_step : string) (args : nat) : M Value :=
  let* answered := prompt CredentialsPrompt first_step args in
  dict_getitem answered "credentials".

(** [_setup_prompts(creds)]; the clients it builds from [creds] are the
    services at hand. *)
Definition _setup_prompts (creds : Value) : gmap string Prompter :=
  list_to_map
    [ ("project_id", GoogleProjectId);
      ("project_name", GoogleProjectName);
      ("billing_account_name", BillingPrompt);
      ("database_password", PostgresPasswordPrompt);
      ("django_directory_path", DjangoFilesystemPath);
      ("django_project_name", DjangoProjectNamePrompt);
      ("django_app_name", DjangoAppNamePrompt);
      ("django_superuser_login", DjangoSuperuserLoginPrompt);
      ("django_superuser_password", DjangoSuperuserPasswordPrompt);
      ("django_superuser_email", DjangoSuperuserEmailPrompt) ].

(** ['<b>[{}/{}]</b>'.format(i, total_steps)] *)
Definition step_template (i total_steps : nat) : string :=
  "<b>[" +:+ PyStr.str_of_nat i +:+ "/" +:+ PyStr.str_of_nat total_steps
  +:+ "]</b>".

(** [for i, prompt in enumerate(order, i): ...] *)
Fixpoint RootPrompt_for_each (required : gmap string Prompter) (total_steps : nat)
    (i : nat) (order : list string) (new_args : nat) : M nat :=
  match order with
  | [] => ret new_args
  | key :: order' =>
      let step := step_template i total_steps in
      match required !! key with
      | None => raise (KeyError key)
      | Some prompter =>
          let* new_args := prompt prompter step new_args in
          RootPrompt_for_each required total_steps (S i) order' new_args
      end
  end.

Definition RootPrompt_prompt (args : nat) : M nat :=
  let* new_args := deepcopy args in
  let* use_existing := dict_get new_args "use_existing_project" (VBool false) in
  (if truthy use_existing
   then dict_setitem new_args "project_creation_mode" (VMode MUST_EXIST)
   else ret tt) >>
  let total_steps := length PROMPT_ORDER + 1 in
  let first_step := step_template 1 total_steps in
  let* creds := RootPrompt_get_creds first_step args in
  dict_setitem new_args "credentials" creds >>
  let required_parameters_to_prompt := _setup_prompts creds in
  RootPrompt_for_each required_parameters_to_prompt total_steps 2
    PROMPT_ORDER new_args.

End Prompters.

(** [BillingPrompt.validate(s)].  [BillingPrompt.prompt] does not call
    it: the method that [_is_valid_passed_arg] receives is [_validate].
    [list_all] is [billing_client.list_billing_accounts()], the call
    without [only_open_accounts]. *)
Definition BillingPrompt_validate (list_all : M (list Account)) (s : Value)
    : M unit :=
  let* billing_accounts := list_all in
  let billing_account_names :=
    map (fun account => VStr (name account)) billing_accounts in
  if bool_decide (s ∉ billing_account_names) then
    raise (ValueError "The provided billing account does not exist.")
  else ret tt.

(** ** The update entry point: [update.main] *)

Module Update.
Section Main.

(** The three prompter classes [main] registers live in a module that is
    not at hand.  [validate name] is [validate] of the class registered
    under [name], [class_prompt name] its [prompt], and [deploy] what
    [main] does with the collected parameters once the prompts are over
    (reading the configuration and running the update workflow). *)
Variable validate : string -> Value -> Result unit.
Variable class_prompt : string -> string -> gmap string Value -> M Value.
Variable deploy : gmap string Value -> M unit.

Definition prompt_order : list string :=
  [ "credentials"; "database_password"; "django_directory_path" ].

(** The keys of [required_parameters_to_prompt], in the order in which
    the dictionary literal lists them. *)
Definition required_parameters_to_prompt : list string :=
  [ "credentials"; "database_password"; "django_directory_path" ].

(** [sys.exit(1)] after [print(e, file=sys.stderr)] *)
Definition print_and_exit {A} (msg : string) : M A :=
  emit (Stderr msg) >> raise (SystemExit 1).

(** The first [for] loop: the flags.  [getattr(args, name, None)] reads
    the namespace [args]. *)
Fixpoint check_flags (parameters : list string) (args : gmap string Value)
    (remaining_parameters_to_prompt : list string)
    (actual_parameters : gmap string Value)
    : M (list string * gmap string Value) :=
  match parameters with
  | [] => ret (remaining_parameters_to_prompt, actual_parameters)
  | parameter_name :: parameters' =>
      let value := default VNone (args !! parameter_name) in
      if bool_decide (value <> VNone) then
        match validate parameter_name value with
        | Raise (ValueError msg) => print_and_exit msg
        | Raise e => raise e
        | Diverge => diverge
        | Ok _ =>
            check_flags parameters' args remaining_parameters_to_prompt
              (<[parameter_name := value]> actual_parameters)
        end
      else
        check_flags parameters' args
          (remaining_parameters_to_prompt ++ [parameter_name]) actual_parameters
  end.

(** [prompt_order.index(name)] and [sorted(..., key=...)] *)
Definition index_of (name : string) (l : list string) : nat :=
  from_option fst (length l) (list_find (fun x => x = name) l).

Fixpoint insert_by_index (name : string) (sorted : list string) : list string :=
  match sorted with
  | [] => [name]
  | x :: sorted' =>
      if (index_of x prompt_order <=? index_of name prompt_order)%nat
      then x :: insert_by_index name sorted'
      else name :: sorted
  end.

Definition sorted_by_index (l : list string) : list string :=
  foldl (fun acc name => insert_by_index name acc) [] l.

(** The second [for] loop: the prompts for what no flag supplied. *)
Fixpoint prompt_remaining (num_steps : nat) (step : nat) (names : list string)
    (actual_parameters : gmap string Value) : M (gmap string Value) :=
  match names with
  | [] => ret actual_parameters
  | parameter_name :: names' =>
      let label :=
        "<b>[" +:+ PyStr.str_of_nat (step + 1) +:+ "/"
        +:+ PyStr.str_of_nat num_steps +:+ "]</b>" in
      let* value := class_prompt parameter_name label actual_parameters in
      prompt_remaining num_steps (S step) names'
        (<[parameter_name := value]> actual_parameters)
  end.

Definition main (args : gmap string Value) : M unit :=
  let* flags := check_flags required_parameters_to_prompt args [] ∅ in
  let '(remaining_parameters_to_prompt, actual_parameters) := flags in
  let* actual_parameters :=
    if PyStr.nonempty_list remaining_parameters_to_prompt then
      let num_steps := length remaining_parameters_to_prompt in
      console_tell ("<b>" +:+ PyStr.str_of_nat num_steps
                    +:+ " steps to update your project</b>") >>
      console_tell "" >>
      let parameter_and_prompt := sorted_by_index remaining_parameters_to_prompt in
      prompt_remaining num_steps 0 parameter_and_prompt actual_parameters
    else ret actual_parameters in
  deploy actual_parameters.

End Main.
End Update.

(** * Vocabulary of the statements *)

(** The text that [_multiple_choice_prompt] measures with [len]. *)
Definition rendered_options (options : list string) : string :=
  PyStr.join PyStr.newline (options_formatted options).

(** Listings as long as the first one, and the names a listing adds. *)
Definition same_length (existing : list Account) (listing : list Account) : Prop :=
  length listing = length existing.

Definition new_names (existing polled : list Account) : gset string :=
  list_to_set (map name polled) ∖ list_to_set (map name existing).

(** A validator that raises nothing but the validation error. *)
Definition raises_only_ValueError {A} (validate : A -> Result unit) : Prop :=
  forall x, validate x = Ok tt \/ exists msg, validate x = Raise (ValueError msg).

(** The step label that an event shows to the user. *)
Definition step_shown (step : string) (e : Event) : bool :=
  match e with
  | Ask q | Tell q => String.prefix step q
  | _ => false
  end.

(** An event that shows some step label. *)
Definition labelled (e : Event) : bool := step_shown "<b>[" e.

(** No event of [evs] shows a step label other than [step]. *)
Definition no_other_step (step : string) (evs : list Event) : Prop :=
  Forall (fun e => labelled e = true -> step_shown step e = true) evs.

(** The events of one step: [step] is shown, and no other step is. *)
Definition shows_only (step : string) (evs : list Event) : Prop :=
  Exists (fun e => step_shown step e = true) evs /\ no_other_step step evs.

(** The mapping holds a value other than [None] under [key]. *)
Definition populated (m : gmap string Value) (key : string) : Prop :=
  exists v, m !! key = Some v /\ v <> VNone.

(** What a prompter that owns [key] leaves behind when it returns [l]: a
    new dictionary at the end of the store, equal to the caller's [m]
    outside [key] and populated at [key], and the events of its step. *)
Definition prompt_post (key step : string) (m : gmap string Value)
    (w : World) (l : nat) (w' : World) : Prop :=
  l = length (heap w)
  /\ exists m',
       heap w' = heap w ++ [m']
       /\ (forall k, k <> key -> m' !! k = m !! k)
       /\ populated m' key
       /\ exists evs, trace w' = trace w ++ evs /\ shows_only step evs.

(** A stretch of a run that leaves the store alone. *)
Definition run_of (step : string) (w w' : World) (evs : list Event) : Prop :=
  heap w' = heap w /\ trace w' = trace w ++ evs /\ no_other_step step evs.

(** An event that shows [step] if it shows a step at all. *)
Definition fits (step : string) (e : Event) : Prop :=
  labelled e = true -> step_shown step e = true.

(** The events of a loop around one question, and of the password loop. *)
Definition asks_or_errors (q : string) (e : Event) : Prop :=
  e = Ask q \/ exists msg, e = Error msg.

Definition hidden_or_errors (e : Event) : Prop :=
  (exists q, e = GetPass q) \/ exists msg, e = Error msg.

(** The events of consecutive steps: the events split into one run per
    step, in the order of [steps], each run showing its step only. *)
Fixpoint in_step_order (steps : list string) (evs : list Event) : Prop :=
  match steps with
  | [] => evs = []
  | step :: steps' =>
      exists evs1 evs2,
        evs = evs1 ++ evs2 /\ shows_only step evs1 /\ in_step_order steps' evs2
  end.

(** Prompter calls that follow one another, each on the mapping that the
    call before it returned: [(p, step)] stands for [p.prompt(console,
    step, ...)]. *)
Inductive prompt_chain (svc : Services)
    : list (Prompter * string) -> nat -> World -> nat -> World -> Prop :=
| prompt_chain_nil l w : prompt_chain svc [] l w l w
| prompt_chain_cons p step schedule l w l1 w1 l' w' :
    prompt svc p step l w = (Ok l1, w1) ->
    prompt_chain svc schedule l1 w1 l' w' ->
    prompt_chain svc ((p, step) :: schedule) l w l' w'.

(** The validator that a prompter applies to a value passed for its key
    in the mapping [m]. *)
Definition passed_validator (svc : Services) (p : Prompter)
    (m : gmap string Value) : Value -> Result unit :=
  match p with
  | GoogleProjectName =>
      GoogleProjectName_validate svc (default VNone (m !! "project_id"))
        (default VNone (m !! "project_creation_mode"))
  | GoogleProjectId =>
      if truthy (default (VBool false) (m !! "use_existing_project"))
      then _validate svc GoogleExistingProjectId
      else _validate svc GoogleNewProjectId
  | _ => _validate svc p
  end.

(** ** Scenarios *)

Definition demo_services : Services :=
  {| get_project := fun _ => None;
     project_exists := fun _ => false;
     get_billing_account := fun pid =>
       if bool_decide (pid = "my-project")
       then {| billingEnabled := Some true;
               billingAccountName := Some "billingAccounts/NEW" |}
       else {| billingEnabled := None; billingAccountName := None |};
     get_active_account := Some "user@example.com";
     create_default_credentials := CredentialHandle 1;
     get_default_credentials := CredentialHandle 0;
     str_of_credentials := fun _ => "<credentials>";
     path_exists := fun path => bool_decide (path = "/srv/site");
     expanduser_home := "/home/user";
     randint_100000_1000000 := 123456;
     set_order := elements |}.

Definition account_a : Account :=
  {| name := "billingAccounts/A"; displayName := "Account A" |}.
Definition account_b : Account :=
  {| name := "billingAccounts/B"; displayName := "Account B" |}.

(** A world whose user types [lines], with the single dictionary [d] in
    the store and a billing service that lists [now], then [later]. *)
Definition demo_world (lines : list string) (d : gmap string Value)
    (now : list Account) (later : list (list Account)) : World :=
  {| stdin := lines; trace := []; billing_now := now; billing_later := later;
     heap := [d] |}.

(** The update command with a four-character password on the command
    line, and a user who first answers a name prompt with an invalid
    identifier. *)
Definition demo_update_validate (parameter : string) (v : Value) : Result unit :=
  if bool_decide (parameter = "database_password")
  then on_str (ValueError "a password must be a string") _password_validate v
  else Ok tt.

Definition demo_interactive_validate (v : Value) : Result unit :=
  on_str (ValueError "a name must be a string")
    (fun s => if PyStr.isidentifier s then Ok tt
              else Raise (ValueError "must be a valid Python identifier")) v.


(** ** Vocabulary of the further properties *)

(** The text of the error that a validator raises on [a], as
    [console.error(e)] shows it. *)
Definition error_of {A} (validate : A -> Result unit) (a : A) : string :=
  match validate a with
  | Raise e => str_of_exn e
  | _ => ""
  end.

(** An answer that a validator turns down with the validation error. *)
Definition turned_down {A} (validate : A -> Result unit) (a : A) : Prop :=
  exists msg, validate a = Raise (ValueError msg).

(** The lines that [_password_prompt] reads and throws away: a password
    turned down by the validator, or a valid one and a second line that
    differs from it, any number of times. *)
Inductive failed_attempts : list string -> Prop :=
| no_attempt : failed_attempts []
| invalid_password password1 lines :
    turned_down _password_validate password1 ->
    failed_attempts lines ->
    failed_attempts (password1 :: lines)
| mismatch password1 password2 lines :
    _password_validate password1 = Ok tt ->
    password1 <> password2 ->
    failed_attempts lines ->
    failed_attempts (password1 :: password2 :: lines).

(** The classes derived from [StringTemplatePrompt]. *)
Definition string_template_classes : list Prompter :=
  [ DjangoProjectNamePrompt; DjangoAppNamePrompt; DjangoSuperuserLoginPrompt;
    DjangoSuperuserEmailPrompt ].

(** What a prompter shows for the value passed for its key before it asks:
    nothing when there is none, the error when the value is turned down. *)
Definition passed_value_report (validate : Value -> Result unit) (passed : Value)
    : list Event :=
  if bool_decide (passed = VNone) then []
  else [Error (error_of validate passed)].

(** The classes whose [prompt] validates both the value passed and every
    answer with the one-argument [_validate] of the class. *)
Definition validating_classes : list Prompter :=
  [ GoogleNewProjectId; GoogleExistingProjectId; GoogleProjectId;
    PostgresPasswordPrompt; DjangoProjectNamePrompt; DjangoAppNamePrompt;
    DjangoSuperuserLoginPrompt; DjangoSuperuserPasswordPrompt;
    DjangoSuperuserEmailPrompt ].

(** The mapping that [l] refers to holds under [key] a value that
    [validate] accepts. *)
Definition records_valid (validate : Value -> Result unit) (key : string)
    (l : nat) (w' : World) : Prop :=
  exists m' v, heap w' !! l = Some m' /\ m' !! key = Some v /\ validate v = Ok tt.

(** The required parameters for which the command line gives no value,
    in the order of [required_parameters_to_prompt], and the values it
    gives for the others. *)
Definition missing_flags (args : gmap string Value) : list string :=
  filter (fun name => default VNone (args !! name) = VNone)
    Update.required_parameters_to_prompt.

Definition supplied_flags (args : gmap string Value) : gmap string Value :=
  filter (fun entry => entry.1 ∈ Update.required_parameters_to_prompt
                       /\ entry.2 <> VNone) args.


(** What the flag loop of [main] does to the mapping for one parameter. *)
Definition take_flag (args actual : gmap string Value) (name : string)
    : gmap string Value :=
  if decide (default VNone (args !! name) = VNone) then actual
  else <[name := default VNone (args !! name)]> actual.

(** ** Further scenarios *)

(** A stand-in for what [main] does once the parameters are collected:
    it reads [actual_parameters['django_directory_path']] first. *)
Definition demo_deploy (actual : gmap string Value) : M unit :=
  match actual !! "django_directory_path" with
  | Some _ => ret tt
  | None => raise (KeyError "django_directory_path")
  end.

(** Services that know one project, [my-project], under the name
    [My Project]. *)
Definition demo_project_services : Services :=
  {| get_project := fun id =>
       if bool_decide (id = "my-project") then Some "My Project" else None;
     project_exists := fun id => bool_decide (id = "my-project");
     get_billing_account := get_billing_account demo_services;
     get_active_account := get_active_account demo_services;
     create_default_credentials := create_default_credentials demo_services;
     get_default_credentials := get_default_credentials demo_services;
     str_of_credentials := str_of_credentials demo_services;
     path_exists := path_exists demo_services;
     expanduser_home := expanduser_home demo_services;
     randint_100000_1000000 := randint_100000_1000000 demo_services;
     set_order := set_order demo_services |}.

(** * Properties *)

(** ** Running the monad *)

Lemma bind_Ok_inv {A B} (m : M A) (f : A -> M B) w b w' :
  bind m f w = (Ok b, w') ->
  exists a w1, m w = (Ok a, w1) /\ f a w1 = (Ok b, w').
Proof.
  unfold bind. destruct (m w) as [[a|e|] w1]; intros H; try discriminate H.
  eauto.
Qed.

Lemma bind_Ok {A B} (m : M A) (f : A -> M B) w a w1 :
  m w = (Ok a, w1) -> bind m f w = f a w1.
Proof. unfold bind. now intros ->. Qed.

Lemma ret_Ok_inv {A} (a b : A) w w' : ret a w = (Ok b, w') -> b = a /\ w' = w.
Proof. unfold ret. intros H. inversion H. auto. Qed.

Lemma lift_Ok_inv {A} (r : Result A) a w w' :
  lift r w = (Ok a, w') -> r = Ok a /\ w' = w.
Proof. unfold lift. intros H. inversion H. auto. Qed.

Lemma on_console_inv {A} (f : list string -> list Event -> Result A * Console) r w w' :
  on_console f w = (r, w') ->
  exists ins tr, f (stdin w) (trace w) = (r, (ins, tr)) /\ w' = set_console ins tr w.
Proof.
  unfold on_console. destruct (f (stdin w) (trace w)) as [r' [ins tr]].
  intros H. inversion H. subst. eauto.
Qed.

(** ** The store *)

Lemma heap_read_lookup d w m : heap w !! d = Some m -> heap_read d w = m.
Proof. unfold heap_read. now intros ->. Qed.

Lemma heap_read_set_heap d h w : heap_read d (set_heap h w) = default ∅ (h !! d).
Proof. reflexivity. Qed.

Lemma heap_read_set_console d ins tr w : heap_read d (set_console ins tr w) = heap_read d w.
Proof. reflexivity. Qed.

Lemma heap_read_set_billing d now later w :
  heap_read d (set_billing now later w) = heap_read d w.
Proof. reflexivity. Qed.

(** Reading through a reference after [deepcopy] of the same reference. *)
Lemma heap_read_after_copy d w :
  default ∅ ((heap w ++ [heap_read d w]) !! d) = heap_read d w.
Proof.
  unfold heap_read. destruct (heap w !! d) as [m|] eqn:Hd.
  - rewrite lookup_app_l by (now apply lookup_lt_Some in Hd). now rewrite Hd.
  - apply lookup_ge_None in Hd. simpl.
    destruct (decide (d = length (heap w))) as [->|Hne].
    + rewrite lookup_app_r by lia. now rewrite Nat.sub_diag.
    + rewrite lookup_ge_None_2; [reflexivity|]. rewrite length_app. simpl. lia.
Qed.

Lemma heap_read_old_cell (h : list (gmap string Value)) d m m' :
  h !! d = Some m -> default ∅ ((h ++ [m']) !! d) = m.
Proof.
  intros Hd. rewrite lookup_app_l by (now apply lookup_lt_Some in Hd).
  now rewrite Hd.
Qed.

Lemma heap_read_new_cell (h : list (gmap string Value)) m :
  default ∅ ((h ++ [m]) !! length h) = m.
Proof. rewrite lookup_app_r by lia. now rewrite Nat.sub_diag. Qed.

Lemma insert_new_cell (h : list (gmap string Value)) m m' :
  <[length h := m']> (h ++ [m]) = h ++ [m'].
Proof.
  rewrite insert_app_r_alt by lia. now rewrite Nat.sub_diag.
Qed.


(** ** The loops, one turn at a time *)

(** Each loop function is the [while True] of its source: one turn of the
    body, then the loop again where the source lets the turn end or says
    [continue]. *)

Lemma ask_prompt_turn question validate default w :
  _ask_prompt question validate default w
  = (let* answer := console_ask question in
     let answer := or_default default answer in
     match from_option id no_validate validate (VStr answer) with
     | Ok _ => ret answer
     | Raise (ValueError msg) =>
         console_error msg >> _ask_prompt question validate default
     | Raise e => raise e
     | Diverge => diverge
     end) w.
Proof.
  unfold _ask_prompt, on_console, bind, console_ask, read_line, console_error,
    emit, ret, raise, diverge.
  destruct (stdin w) as [|answer lines] eqn:Hin; cbn [_ask_prompt_loop].
  - unfold log. now rewrite Hin.
  - destruct (from_option id no_validate validate (VStr (or_default default answer)))
      as [[]|e|]; try reflexivity.
    destruct e; reflexivity.
Qed.

Lemma binary_prompt_turn question default w :
  _binary_prompt question default w
  = (let* answer := console_ask question in
     match default with
     | Some d =>
         if PyStr.nonempty d && bool_decide (answer = "") then
           match _binary_validate d with
           | Ok _ => ret d
           | Raise (ValueError msg) =>
               console_error msg >> _binary_prompt question default
           | Raise e => raise e
           | Diverge => diverge
           end
         else ret answer
     | None => ret answer
     end) w.
Proof.
  unfold _binary_prompt, on_console, bind, console_ask, read_line, console_error,
    emit, ret, raise, diverge.
  destruct (stdin w) as [|answer lines] eqn:Hin; cbn [_binary_prompt_loop].
  - unfold log. now rewrite Hin.
  - destruct default as [d|]; [|reflexivity].
    destruct (PyStr.nonempty d && bool_decide (answer = "")); [|reflexivity].
    destruct (_binary_validate d) as [[]|e|]; try reflexivity.
    destruct e; reflexivity.
Qed.

Lemma password_prompt_turn w :
  on_console _password_prompt_loop w
  = (let* password1 := console_getpass "Password: " in
     match _password_validate password1 with
     | Raise (ValueError msg) =>
         console_error msg >> on_console _password_prompt_loop
     | Raise e => raise e
     | Diverge => diverge
     | Ok _ =>
         let* password2 := console_getpass "Password (again): " in
         if bool_decide (password1 <> password2) then
           console_error "Passwords do not match, please try again" >>
           on_console _password_prompt_loop
         else ret password1
     end) w.
Proof.
  unfold on_console, bind, console_getpass, read_line, console_error,
    emit, ret, raise, diverge.
  destruct (stdin w) as [|password1 lines1] eqn:Hin; cbn [_password_prompt_loop].
  - unfold log. now rewrite Hin.
  - destruct (_password_validate password1) as [[]|e|]; try reflexivity.
    + cbn [stdin trace log set_console].
      destruct lines1 as [|password2 lines2]; [reflexivity|].
      cbn [stdin trace log set_console].
      destruct (bool_decide (password1 <> password2)); reflexivity.
    + destruct e; reflexivity.
Qed.

Lemma multiple_choice_turn question default len_options answer w :
  on_console (_multiple_choice_loop question default len_options answer) w
  = match _multiple_choice_validate answer default len_options with
    | Ok _ => ret answer w
    | Raise (ValueError msg) =>
        (console_error msg >>
         let* answer' := console_ask question in
         on_console (_multiple_choice_loop question default len_options answer')) w
    | Raise e => raise e w
    | Diverge => diverge w
    end.
Proof.
  assert (Hid : set_console (stdin w) (trace w) w = w) by (destruct w; reflexivity).
  unfold on_console, bind, console_ask, read_line, console_error,
    emit, ret, raise, diverge.
  destruct (stdin w) as [|answer' lines] eqn:Hin; cbn [_multiple_choice_loop];
    (destruct (_multiple_choice_validate answer default len_options) as [[]|e|];
     [ now rewrite Hid
     | destruct e; try (now rewrite Hid)
     | now rewrite Hid ]);
    cbn [stdin trace log set_console]; rewrite Hin;
    unfold log; cbn [stdin trace set_console]; rewrite ?Hin; [reflexivity|].
  destruct (_multiple_choice_loop _ _ _ _ _ _) as [r [ins tr]]. reflexivity.
Qed.

(** One turn of the wait for a new billing account, as long as the
    billing service has a further listing to give or the listing at hand
    ends the wait. *)
Lemma poll_new_billing_account_turn svc existing w :
  billing_later w <> [] \/ length existing <> length (billing_now w) ->
  on_billing (_poll_new_billing_account svc existing) w
  = (let* billing_accounts := list_billing_accounts in
     if bool_decide (length existing <> length billing_accounts) then
       lift (list_getitem
               (set_order svc (list_to_set (map name billing_accounts)
                               ∖ list_to_set (map name existing))) 0)
     else sleep 2 >> on_billing (_poll_new_billing_account svc existing)) w.
Proof.
  intros Hmore.
  unfold on_billing, bind, list_billing_accounts, lift, sleep, emit.
  destruct (billing_later w) as [|next later] eqn:Hlater;
    cbn [_poll_new_billing_account advance_billing];
    destruct (bool_decide (length existing <> length (billing_now w))) eqn:Hlen.
  - destruct w; reflexivity.
  - apply bool_decide_eq_false in Hlen.
    destruct Hmore as [Hmore|Hmore]; contradiction.
  - destruct w; reflexivity.
  - cbn [billing_now billing_later trace log set_billing set_console stdin].
    destruct (_poll_new_billing_account _ _ _ _ _) as [r [[now later'] tr]].
    reflexivity.
Qed.

(** ** Sanity checks of the string model *)

Example password_validate_short : _password_validate "abcd" <> Ok tt.
Proof. vm_compute. discriminate. Qed.

Example password_validate_ok : _password_validate "abcde" = Ok tt.
Proof. vm_compute. reflexivity. Qed.

Example match_email_ok : match_email "test@example.com" = true.
Proof. reflexivity. Qed.

Example match_email_bad : match_email "test@.com" = false.
Proof. reflexivity. Qed.

Example match_project_id_unanchored :
  match_project_id "abcdefghijklmnopqrstuvwxyz-0123456789" = true.
Proof. reflexivity. Qed.

Example path_join_relative : PyStr.path_join "/home/user" "my-site" = "/home/user/my-site".
Proof. reflexivity. Qed.

Example path_join_absolute : PyStr.path_join "/home/user" "/srv/site" = "/srv/site".
Proof. reflexivity. Qed.

(** ** Password validation *)

(** C4.  [_password_validate] accepts a string exactly when it has at least
    five characters and its set of characters does not include the whole
    allowed set (letters, digits, punctuation); every other string is
    rejected with the validation error, Python's [ValueError]. *)
Theorem password_validate_accepts_iff (p : string) :
  (_password_validate p = Ok tt
   <-> (5 <= String.length p)%nat
       /\ ~ (allowed_characters ⊆ PyStr.frozenset p))
  /\ (_password_validate p = Ok tt
      \/ exists msg, _password_validate p = Raise (ValueError msg)).
Proof.
  unfold _password_validate.
  destruct (String.length p <? 5)%nat eqn:Hlen.
  - apply Nat.ltb_lt in Hlen. split; [|right; eauto].
    split; [discriminate | intros [Hge _]; lia].
  - apply Nat.ltb_ge in Hlen. case_bool_decide as Hsup.
    + split; [|right; eauto].
      split; [discriminate | intros [_ Hn]; contradiction].
    + split; [|now left]. split; [now split | reflexivity].
Qed.

(** The rejection for the character set can only hit a string that holds
    every allowed character. *)
Lemma password_superset_needs_every_character (p : string) (c : ascii) :
  allowed_characters ⊆ PyStr.frozenset p ->
  c ∈ allowed_characters -> In c (list_ascii_of_string p).
Proof.
  intros Hsub Hc. apply Hsub in Hc. unfold PyStr.frozenset in Hc.
  apply elem_of_list_to_set in Hc. now apply list_elem_of_In.
Qed.

(** ** The numeric choice *)

Lemma multiple_choice_validate_blank (default : option string) (n : Z) :
  _multiple_choice_validate "" default n = Ok tt <-> default <> None.
Proof.
  unfold _multiple_choice_validate.
  case_bool_decide as Hd; simpl.
  - split; [intros _; exact Hd | reflexivity].
  - split; [discriminate | intros H; contradiction].
Qed.

(** The validator itself bounds the answer by its argument [len_options]. *)
Lemma multiple_choice_validate_nonblank (s : string) (default : option string) (n : Z) :
  s <> "" ->
  (_multiple_choice_validate s default n = Ok tt
   <-> PyStr.isnumeric s = true /\ (1 <= PyStr.int s <= n + 1)%Z).
Proof.
  intros Hs. unfold _multiple_choice_validate.
  rewrite (bool_decide_eq_false_2 (s = "")) by assumption.
  rewrite andb_false_r.
  destruct (PyStr.isnumeric s); simpl.
  - destruct (1 <=? PyStr.int s)%Z eqn:H1; destruct (PyStr.int s <=? n + 1)%Z eqn:H2;
      simpl; (split; [intros H; try discriminate H | intros [_ H]]); try lia;
      try (split; [reflexivity | lia]); try reflexivity.
  - split; [discriminate | intros [H _]; discriminate].
Qed.

(** C5, at a failing input.  With the single option ["My Billing Account"]
    the prompt accepts the answer ["3"], although only [1] and [2] lie in
    the range that one option allows: the bound it checks is the length of
    the rendered text, one more than its 21 characters. *)
Theorem multiple_choice_prompt_accepts_beyond_options :
  let options := ["My Billing Account"] in
  fst (_multiple_choice_prompt existing_accounts_question options (Some "")
         (demo_world ["3"] ∅ [] [])) = Ok "3"
  /\ ~ (1 <= PyStr.int "3" <= Z.of_nat (length options) + 1)%Z
  /\ String.length (rendered_options options) = 21%nat.
Proof.
  split; [vm_compute; reflexivity|]. split; [|reflexivity].
  vm_compute. intros [_ H]. now apply H.
Qed.

(** The first answer is accepted as soon as it passes the validator for
    the length of the rendered text. *)
Lemma multiple_choice_prompt_first_answer question options default s rest w :
  stdin w = s :: rest ->
  _multiple_choice_validate s default
    (Z.of_nat (String.length (rendered_options options))) = Ok tt ->
  fst (_multiple_choice_prompt question options default w) = Ok s.
Proof.
  intros Hin Hok.
  unfold _multiple_choice_prompt, bind, console_ask, read_line, on_console.
  rewrite Hin. cbn [stdin trace set_console].
  destruct rest; cbn [_multiple_choice_loop];
    unfold rendered_options in Hok; rewrite Hok; reflexivity.
Qed.

(** The choice that the prompt lets through then indexes the accounts out
    of range. *)
Example billing_prompt_choice_out_of_range :
  fst (BillingPrompt_prompt demo_services "<b>[4/11]</b>" 0
         (demo_world ["3"] ∅ [account_a] []))
  = Raise IndexError.
Proof. vm_compute. reflexivity. Qed.

(** ** The default project id *)

Example generate_default_project_id_my_app :
  _generate_default_project_id (VStr "My App!") 123456 = Ok "my-app-123456".
Proof. reflexivity. Qed.

Example generate_default_project_id_none :
  _generate_default_project_id VNone 123456 = Ok "django-123456".
Proof. reflexivity. Qed.

Example generate_default_project_id_digit_first :
  _generate_default_project_id (VStr "2 Fast") 999999 = Ok "django-2-fast-999999".
Proof. reflexivity. Qed.

(** C7, at a failing input.  [random.randint(100000, 1000000)] can draw
    its upper bound, a number of seven digits; after the 23 characters kept
    of a long name and the hyphen, the default id then has 31 characters. *)
Theorem generate_default_project_id_overlong :
  randint_range 100000 1000000 1000000
  /\ _generate_default_project_id (VStr "abcdefghijklmnopqrstuvwxyz") 1000000
     = Ok "abcdefghijklmnopqrstuvw-1000000"
  /\ String.length "abcdefghijklmnopqrstuvw-1000000" = 31%nat.
Proof.
  split; [unfold randint_range; lia|]. split; reflexivity.
Qed.

(** Draws of six digits keep a long name within thirty characters. *)
Example generate_default_project_id_lowest_draw :
  _generate_default_project_id (VStr "abcdefghijklmnopqrstuvwxyz") 100000
  = Ok "abcdefghijklmnopqrstuvw-100000".
Proof. reflexivity. Qed.

Example generate_default_project_id_six_digits :
  _generate_default_project_id (VStr "abcdefghijklmnopqrstuvwxyz") 999999
  = Ok "abcdefghijklmnopqrstuvw-999999"
  /\ String.length "abcdefghijklmnopqrstuvw-999999" = 30%nat.
Proof. split; reflexivity. Qed.


(** ** The length of a printed number *)

Lemma string_of_uint_length (d : Decimal.uint) :
  String.length (NilEmpty.string_of_uint d) = Decimal.nb_digits d.
Proof. induction d; simpl; congruence. Qed.

(** The number read from the digits [d] after the number [acc]. *)
Lemma of_uint_acc_bounds (d : Decimal.uint) :
  forall acc : positive,
    (Z.pos acc * 10 ^ Z.of_nat (Decimal.nb_digits d)
     <= Z.pos (Pos.of_uint_acc d acc)
     < (Z.pos acc + 1) * 10 ^ Z.of_nat (Decimal.nb_digits d))%Z.
Proof.
  induction d; intros acc; cbn [Pos.of_uint_acc Decimal.nb_digits];
    [rewrite Z.pow_0_r; lia| ..];
    rewrite Nat2Z.inj_succ, Z.pow_succ_r by lia;
    match goal with
    | |- context [Pos.of_uint_acc d ?a] => specialize (IHd a)
    end;
    assert (0 < 10 ^ Z.of_nat (Decimal.nb_digits d))%Z by (apply Z.pow_pos_nonneg; lia);
    nia.
Qed.

Lemma pos_to_uint_digits (p : positive) (k : nat) :
  (10 ^ Z.of_nat k <= Z.pos p < 10 ^ Z.of_nat (S k))%Z ->
  Decimal.nb_digits (Pos.to_uint p) = S k.
Proof.
  intros Hp.
  pose proof (DecimalPos.Unsigned.of_to p) as Hof.
  pose proof (DecimalPos.Unsigned.to_uint_nonzero p) as Hnz.
  pose proof (DecimalPos.Unsigned.to_of (Pos.to_uint p)) as Hnorm.
  rewrite Hof in Hnorm. cbn [N.to_uint] in Hnorm.
  destruct (Pos.to_uint p) as [|d|d|d|d|d|d|d|d|d|d] eqn:Hd;
    cbn [Pos.of_uint] in Hof; try discriminate Hof.
  1: { (* a leading zero *)
    exfalso. unfold Decimal.unorm in Hnorm. cbn [Decimal.nzhead] in Hnorm.
    destruct (Decimal.nzhead d) eqn:Hz; try discriminate Hnorm.
    - inversion Hnorm. subst d. now apply Hnz.
    - pose proof (DecimalFacts.nb_digits_nzhead d) as Hle.
      rewrite Hz, <- Hnorm in Hle. cbn [Decimal.nb_digits] in Hle. lia. }
  all: injection Hof as Hof; cbn [Decimal.nb_digits]; f_equal;
    match goal with
    | H : Pos.of_uint_acc ?d ?a = _ |- _ =>
        pose proof (of_uint_acc_bounds d a) as Hb; rewrite H in Hb;
        destruct (Nat.lt_trichotomy (Decimal.nb_digits d) k) as [Hlt|[Heq|Hgt]];
        [ exfalso;
          assert (10 * 10 ^ Z.of_nat (Decimal.nb_digits d) <= 10 ^ Z.of_nat k)%Z
            by (rewrite <- Z.pow_succ_r, <- Nat2Z.inj_succ by lia;
                apply Z.pow_le_mono_r; lia);
          lia
        | exact Heq
        | exfalso;
          assert (10 ^ Z.of_nat (S k) <= 10 ^ Z.of_nat (Decimal.nb_digits d))%Z
            by (apply Z.pow_le_mono_r; lia);
          lia ]
    end.
Qed.

Lemma str_of_Z_length (r : Z) (k : nat) :
  (10 ^ Z.of_nat k <= r < 10 ^ Z.of_nat (S k))%Z ->
  String.length (PyStr.str_of_Z r) = S k.
Proof.
  intros Hr. assert (0 < 10 ^ Z.of_nat k)%Z by (apply Z.pow_pos_nonneg; lia).
  destruct r as [|p|p]; try lia.
  unfold PyStr.str_of_Z. cbn [Z.to_int NilZero.string_of_int].
  unfold Pos.to_int. 
  pose proof (pos_to_uint_digits p k Hr) as Hd.
  unfold NilZero.string_of_uint.
  destruct (Pos.to_uint p) eqn:Hu; try discriminate Hd;
    rewrite string_of_uint_length; exact Hd.
Qed.

Lemma string_length_app (s t : string) :
  String.length (s +:+ t) = String.length s + String.length t.
Proof.
  induction s as [|c s IH]; [reflexivity|].
  simpl. now rewrite IH.
Qed.

Lemma slice_to_length (n : nat) (s : string) :
  String.length (PyStr.slice_to n s) <= n.
Proof.
  unfold PyStr.slice_to. revert s. induction n as [|n IH]; intros [|c s]; simpl; try lia.
  specialize (IH s). lia.
Qed.

Lemma all_chars_filter (p : ascii -> bool) (s : string) :
  PyStr.all_chars p (PyStr.filter_chars p s) = true.
Proof.
  induction s as [|c s IH]; simpl; [reflexivity|].
  destruct (p c) eqn:Hp; simpl; [now rewrite Hp|exact IH].
Qed.

Lemma all_chars_slice_to (p : ascii -> bool) (n : nat) (s : string) :
  PyStr.all_chars p s = true -> PyStr.all_chars p (PyStr.slice_to n s) = true.
Proof.
  unfold PyStr.slice_to. revert s. induction n as [|n IH]; intros [|c s]; simpl; auto.
  intros H. apply andb_true_iff in H as [Hc Hs]. rewrite Hc. now apply IH.
Qed.

(** X6.  With a draw of six digits the default id is a stem of at most 23
    characters of lowercase letters, digits and hyphens, a hyphen and the
    six digits: 30 characters at most. *)
Lemma generate_default_project_id_six_digit_draw
    (project_name : Value) (r : Z) (s : string) :
  (100000 <= r <= 999999)%Z ->
  _generate_default_project_id project_name r = Ok s ->
  exists stem,
    s = stem +:+ "-" +:+ PyStr.str_of_Z r
    /\ String.length stem <= 23
    /\ PyStr.all_chars is_id_char stem = true
    /\ String.length (PyStr.str_of_Z r) = 6
    /\ String.length s <= 30.
Proof.
  intros Hr. unfold _generate_default_project_id.
  destruct (if truthy project_name then project_name else VStr "django")
    as [| |name| |]; cbn [on_str]; try discriminate.
  destruct (PyStr.replace_char " " "-" (PyStr.lower name)) as [|c rest];
    [discriminate|].
  intros H. injection H as <-.
  eexists. split; [reflexivity|].
  assert (Hdigits : String.length (PyStr.str_of_Z r) = 6)
    by (apply (str_of_Z_length r 5); simpl; lia).
  pose proof (slice_to_length (30 - 6 - 1)
    (PyStr.filter_chars is_id_char
       (if negb (PyStr.char_in c PyStr.ascii_lowercase)
        then "django-" +:+ String c rest else String c rest))) as Hstem.
  split; [exact Hstem|]. split; [apply all_chars_slice_to, all_chars_filter|].
  split; [exact Hdigits|].
  rewrite !string_length_app, Hdigits. simpl String.length. simpl in Hstem. lia.
Qed.

(** The name [My Site] and the draw 123456. *)
Lemma generate_default_project_id_six_digit_draw_witness :
  exists stem,
    "my-site-123456" = stem +:+ "-" +:+ PyStr.str_of_Z 123456
    /\ String.length stem <= 23
    /\ PyStr.all_chars is_id_char stem = true
    /\ String.length (PyStr.str_of_Z 123456) = 6
    /\ String.length "my-site-123456" <= 30.
Proof.
  apply (generate_default_project_id_six_digit_draw (VStr "My Site") 123456).
  - lia.
  - reflexivity.
Defined.

(** ** Step labels in the events *)

Lemma prefix_app_same (s t : string) : String.prefix s (s +:+ t) = true.
Proof.
  induction s as [|c s IH]; simpl; [now destruct t|].
  destruct (ascii_dec c c) as [_|Hne]; [exact IH | now contradiction Hne].
Qed.

Lemma prefix_app_more (s t u : string) :
  String.prefix s t = true -> String.prefix s (t +:+ u) = true.
Proof.
  revert t. induction s as [|c s IH]; intros t; simpl; [now destruct (t +:+ u)|].
  destruct t as [|d t]; simpl; [discriminate|].
  destruct (ascii_dec c d); [apply IH | discriminate].
Qed.

Lemma no_other_step_nil step : no_other_step step [].
Proof. constructor. Qed.

Lemma no_other_step_app step evs1 evs2 :
  no_other_step step evs1 -> no_other_step step evs2 ->
  no_other_step step (evs1 ++ evs2).
Proof. unfold no_other_step. intros. now apply Forall_app. Qed.

Lemma no_other_step_unlabelled step evs :
  Forall (fun e => labelled e = false) evs -> no_other_step step evs.
Proof.
  unfold no_other_step. intros H. eapply Forall_impl; [exact H|].
  intros e He Hl. congruence.
Qed.

Lemma run_of_refl step w : run_of step w w [].
Proof.
  unfold run_of. rewrite app_nil_r. auto using no_other_step_nil.
Qed.

Lemma run_of_trans step w0 w1 w2 evs1 evs2 :
  run_of step w0 w1 evs1 -> run_of step w1 w2 evs2 ->
  run_of step w0 w2 (evs1 ++ evs2).
Proof.
  intros (Hh1 & Ht1 & Ho1) (Hh2 & Ht2 & Ho2). unfold run_of.
  rewrite Hh2, Hh1, Ht2, Ht1, app_assoc.
  auto using no_other_step_app.
Qed.

(** One event. *)
Lemma run_of_log step e w :
  (labelled e = true -> step_shown step e = true) ->
  run_of step w (log e w) [e].
Proof.
  intros He. unfold run_of. cbn. repeat split. constructor; [exact He | constructor].
Qed.

(** ** The events of the prompt loops *)

Lemma asks_or_errors_no_other_step step q evs :
  (labelled (Ask q) = true -> step_shown step (Ask q) = true) ->
  Forall (asks_or_errors q) evs -> no_other_step step evs.
Proof.
  intros Hq H. unfold no_other_step. eapply Forall_impl; [exact H|].
  intros e [->|[msg ->]]; [exact Hq | discriminate].
Qed.

Lemma hidden_or_errors_no_other_step step evs :
  Forall hidden_or_errors evs -> no_other_step step evs.
Proof.
  intros H. unfold no_other_step. eapply Forall_impl; [exact H|].
  intros e [[q ->]|[msg ->]]; discriminate.
Qed.

Lemma ask_prompt_loop_trace q validate default lines tr r ins tr' :
  _ask_prompt_loop q validate default lines tr = (r, (ins, tr')) ->
  exists evs, tr' = tr ++ Ask q :: evs /\ Forall (asks_or_errors q) evs.
Proof.
  revert tr. induction lines as [|answer lines IH]; intros tr; cbn [_ask_prompt_loop].
  - intros H. inversion H. subst. exists []. split; [reflexivity | constructor].
  - destruct (validate (VStr (or_default default answer))) as [[]|e|] eqn:Hv;
      try (intros H; inversion H; subst; exists []; split; [reflexivity | constructor]).
    destruct e;
      try (intros H; inversion H; subst; exists []; split; [reflexivity | constructor]).
    intros H. apply IH in H as (evs & -> & Hall).
    exists (Error msg :: Ask q :: evs). split.
    + rewrite <- !app_assoc. reflexivity.
    + constructor; [right; eauto|]. constructor; [now left | assumption].
Qed.

Lemma binary_prompt_loop_trace q default lines tr r ins tr' :
  _binary_prompt_loop q default lines tr = (r, (ins, tr')) ->
  exists evs, tr' = tr ++ Ask q :: evs /\ Forall (asks_or_errors q) evs.
Proof.
  revert tr. induction lines as [|answer lines IH]; intros tr; cbn [_binary_prompt_loop].
  - intros H. inversion H. subst. exists []. split; [reflexivity | constructor].
  - destruct default as [d|];
      [|intros H; inversion H; subst; exists []; split; [reflexivity | constructor]].
    destruct (PyStr.nonempty d && bool_decide (answer = ""));
      [|intros H; inversion H; subst; exists []; split; [reflexivity | constructor]].
    destruct (_binary_validate d) as [[]|e|] eqn:Hv;
      try (intros H; inversion H; subst; exists []; split; [reflexivity | constructor]).
    destruct e;
      try (intros H; inversion H; subst; exists []; split; [reflexivity | constructor]).
    intros H. apply IH in H as (evs & -> & Hall).
    exists (Error msg :: Ask q :: evs). split.
    + rewrite <- !app_assoc. reflexivity.
    + constructor; [right; eauto|]. constructor; [now left | assumption].
Qed.

Lemma multiple_choice_loop_trace q default n answer lines tr r ins tr' :
  _multiple_choice_loop q default n answer lines tr = (r, (ins, tr')) ->
  exists evs, tr' = tr ++ evs /\ Forall (asks_or_errors q) evs.
Proof.
  revert answer tr. induction lines as [|next lines IH]; intros answer tr;
    cbn [_multiple_choice_loop];
    (destruct (_multiple_choice_validate answer default n) as [[]|e|] eqn:Hv;
     try (intros H; inversion H; subst; exists []; split;
          [now rewrite app_nil_r | constructor]);
     destruct e;
     try (intros H; inversion H; subst; exists []; split;
          [now rewrite app_nil_r | constructor])).
  - intros H. inversion H. subst. exists [Error msg; Ask q]. split.
    + rewrite <- !app_assoc. reflexivity.
    + constructor; [right; eauto|]. constructor; [now left | constructor].
  - intros H. apply IH in H as (evs & -> & Hall).
    exists (Error msg :: Ask q :: evs). split.
    + rewrite <- !app_assoc. reflexivity.
    + constructor; [right; eauto|]. constructor; [now left | assumption].
Qed.

Lemma password_prompt_loop_trace lines :
  forall tr r ins tr',
    _password_prompt_loop lines tr = (r, (ins, tr')) ->
    exists evs, tr' = tr ++ evs /\ Forall hidden_or_errors evs.
Proof.
  induction lines as [lines IH] using (induction_ltof1 _ (@length string)).
  unfold ltof in IH.
  intros tr r ins tr'. destruct lines as [|password1 lines1];
    cbn [_password_prompt_loop].
  - intros H. inversion H. subst. exists [GetPass "Password: "].
    split; [reflexivity|]. constructor; [left; eauto | constructor].
  - destruct (_password_validate password1) as [[]|e|] eqn:Hv.
    + destruct lines1 as [|password2 lines2].
      * intros H. inversion H. subst.
        exists [GetPass "Password: "; GetPass "Password (again): "]. split.
        { rewrite <- !app_assoc. reflexivity. }
        constructor; [left; eauto|]. constructor; [left; eauto | constructor].
      * case_bool_decide as Hneq.
        { intros H. apply IH in H as (evs & -> & Hall); [|simpl; lia].
          exists (GetPass "Password: " :: GetPass "Password (again): "
                  :: Error "Passwords do not match, please try again" :: evs).
          split; [rewrite <- !app_assoc; reflexivity|].
          constructor; [left; eauto|]. constructor; [left; eauto|].
          constructor; [right; eauto | assumption]. }
        { intros H. inversion H. subst.
          exists [GetPass "Password: "; GetPass "Password (again): "]. split.
          { rewrite <- !app_assoc. reflexivity. }
          constructor; [left; eauto|]. constructor; [left; eauto | constructor]. }
    + destruct e;
        try (intros H; inversion H; subst; exists [GetPass "Password: "];
             split; [reflexivity|]; constructor; [left; eauto | constructor]).
      intros H. apply IH in H as (evs & -> & Hall); [|simpl; lia].
      exists (GetPass "Password: " :: Error msg :: evs).
      split; [rewrite <- !app_assoc; reflexivity|].
      constructor; [left; eauto|]. constructor; [right; eauto | assumption].
    + intros H. inversion H. subst. exists [GetPass "Password: "].
      split; [reflexivity|]. constructor; [left; eauto | constructor].
Qed.

Lemma poll_new_billing_account_trace svc existing later :
  forall now tr r state tr',
    _poll_new_billing_account svc existing now later tr = (r, (state, tr')) ->
    exists k, tr' = tr ++ repeat (Sleep 2) k.
Proof.
  induction later as [|next later IH]; intros now tr r state tr';
    cbn [_poll_new_billing_account]; case_bool_decide as Hlen.
  - intros H. inversion H. exists 0. simpl. now rewrite app_nil_r.
  - intros H. inversion H. now exists 1.
  - intros H. inversion H. exists 0. simpl. now rewrite app_nil_r.
  - intros H. apply IH in H as [k ->]. exists (S k).
    rewrite <- app_assoc. reflexivity.
Qed.

(** ** What each operation does to the store and to the events *)

Lemma fits_shown step e : step_shown step e = true -> fits step e.
Proof. intros H _. exact H. Qed.

Lemma fits_unlabelled step e : labelled e = false -> fits step e.
Proof. intros H H'. congruence. Qed.

Lemma deepcopy_inv d w l w' :
  deepcopy d w = (Ok l, w') ->
  l = length (heap w) /\ w' = set_heap (heap w ++ [heap_read d w]) w.
Proof. unfold deepcopy. intros H. inversion H. auto. Qed.

Lemma dict_get_inv d key dflt w v w' :
  dict_get d key dflt w = (Ok v, w') ->
  v = default dflt (heap_read d w !! key) /\ w' = w.
Proof. unfold dict_get. intros H. inversion H. auto. Qed.

Lemma dict_contains_inv d key w b w' :
  dict_contains d key w = (Ok b, w') -> w' = w.
Proof. unfold dict_contains. intros H. inversion H. auto. Qed.

Lemma dict_getitem_inv d key w v w' :
  dict_getitem d key w = (Ok v, w') -> heap_read d w !! key = Some v /\ w' = w.
Proof.
  unfold dict_getitem. destruct (heap_read d w !! key); intros H; inversion H.
  subst. auto.
Qed.

Lemma dict_setitem_inv d key v w u w' :
  dict_setitem d key v w = (Ok u, w') ->
  w' = set_heap (<[d := <[key := v]> (heap_read d w)]> (heap w)) w.
Proof. unfold dict_setitem. intros H. inversion H. auto. Qed.

Lemma emit_run step e u w w' :
  fits step e -> emit e w = (Ok u, w') -> run_of step w w' [e].
Proof.
  unfold emit. intros He H. inversion H. subst. now apply run_of_log.
Qed.

Lemma read_line_run step e a w w' :
  fits step e -> read_line e w = (Ok a, w') -> run_of step w w' [e].
Proof.
  unfold read_line. intros He. destruct (stdin w); intros H; inversion H. subst.
  unfold run_of. cbn. repeat split. constructor; [exact He | constructor].
Qed.

Lemma on_console_run {A} step (f : list string -> list Event -> Result A * Console)
    r w w' evs :
  (forall ins tr, f (stdin w) (trace w) = (r, (ins, tr)) ->
                  tr = trace w ++ evs /\ no_other_step step evs) ->
  on_console f w = (r, w') -> run_of step w w' evs.
Proof.
  intros Hf H. apply on_console_inv in H as (ins & tr & Hrun & ->).
  destruct (Hf _ _ Hrun) as [-> Hno]. unfold run_of. cbn. auto.
Qed.

Lemma ask_prompt_run step q validate default a w w' :
  fits step (Ask q) ->
  _ask_prompt q validate default w = (Ok a, w') ->
  exists evs, run_of step w w' (Ask q :: evs).
Proof.
  intros Hq H. unfold _ask_prompt in H.
  apply on_console_inv in H as (ins & tr & Hrun & ->).
  apply ask_prompt_loop_trace in Hrun as (evs & -> & Hall).
  exists evs. unfold run_of. cbn. repeat split.
  constructor; [exact Hq|]. eapply asks_or_errors_no_other_step; eauto.
Qed.

Lemma binary_prompt_run step q default a w w' :
  fits step (Ask q) ->
  _binary_prompt q default w = (Ok a, w') ->
  exists evs, run_of step w w' (Ask q :: evs).
Proof.
  intros Hq H. unfold _binary_prompt in H.
  apply on_console_inv in H as (ins & tr & Hrun & ->).
  apply binary_prompt_loop_trace in Hrun as (evs & -> & Hall).
  exists evs. unfold run_of. cbn. repeat split.
  constructor; [exact Hq|]. eapply asks_or_errors_no_other_step; eauto.
Qed.

Lemma password_prompt_run step question a w w' :
  fits step (Tell question) ->
  _password_prompt question w = (Ok a, w') ->
  exists evs, run_of step w w' (Tell question :: evs).
Proof.
  intros Hq H. unfold _password_prompt in H.
  apply bind_Ok_inv in H as ([] & w1 & Htell & H).
  unfold console_tell, emit in Htell. inversion Htell. subst w1.
  apply on_console_inv in H as (ins & tr & Hrun & ->).
  apply password_prompt_loop_trace in Hrun as (evs & -> & Hall).
  exists evs. unfold run_of. cbn. rewrite <- app_assoc. repeat split.
  constructor; [exact Hq|]. now apply hidden_or_errors_no_other_step.
Qed.

Lemma multiple_choice_prompt_run step question options default a w w' :
  fits step (Ask (format1 question (PyStr.join PyStr.newline
                                      (options_formatted options)))) ->
  fits step (Ask (unformatted question)) ->
  _multiple_choice_prompt question options default w = (Ok a, w') ->
  exists evs, run_of step w w' evs.
Proof.
  intros Hfirst Hagain H. unfold _multiple_choice_prompt in H.
  apply bind_Ok_inv in H as (answer & w1 & Hask & H).
  eapply read_line_run in Hask; [|exact Hfirst].
  apply on_console_inv in H as (ins & tr & Hrun & ->).
  apply multiple_choice_loop_trace in Hrun as (evs & -> & Hall).
  eexists. eapply run_of_trans; [exact Hask|].
  unfold run_of. cbn. repeat split.
  eapply asks_or_errors_no_other_step; eauto.
Qed.

Lemma list_billing_accounts_run step accounts w w' :
  list_billing_accounts w = (Ok accounts, w') -> run_of step w w' [].
Proof.
  unfold list_billing_accounts.
  destruct (advance_billing _ _). intros H. inversion H. subst.
  unfold run_of. cbn. rewrite app_nil_r. auto using no_other_step_nil.
Qed.

Lemma get_new_billing_account_run svc step existing a w w' :
  BillingPrompt_get_new_billing_account svc existing w = (Ok a, w') ->
  exists evs, run_of step w w' evs.
Proof.
  unfold BillingPrompt_get_new_billing_account, on_billing, bind, console_tell, emit.
  destruct (_poll_new_billing_account _ _ _ _ _) as [r [[now later] tr]] eqn:Hpoll.
  intros H. inversion H. subst.
  apply poll_new_billing_account_trace in Hpoll as [k ->].
  eexists. unfold run_of. cbn. rewrite <- !app_assoc. repeat split.
  apply no_other_step_unlabelled. repeat constructor.
  clear. induction k; simpl; constructor; auto.
Qed.

Lemma is_valid_passed_arg_run svc p step value validate b w w' :
  _is_valid_passed_arg svc p step value validate w = (Ok b, w') ->
  exists evs, run_of step w w' evs
    /\ (b = true -> value <> VNone /\ Exists (fun e => step_shown step e = true) evs).
Proof.
  unfold _is_valid_passed_arg. case_bool_decide as Hnone.
  - intros H. apply ret_Ok_inv in H as [-> ->]. exists [].
    split; [apply run_of_refl | discriminate].
  - destruct (validate value) as [[]|e|].
    + intros H. apply bind_Ok_inv in H as ([] & w1 & Htell & H).
      apply ret_Ok_inv in H as [-> ->].
      assert (Hshown : step_shown step
                (Tell (step +:+ " " +:+ PARAMETER p +:+ ": " +:+ str_of_value svc value))
              = true) by apply prefix_app_same.
      eapply emit_run in Htell; [|apply fits_shown, Hshown].
      eexists. split; [exact Htell|]. intros _. split; [exact Hnone|].
      now constructor.
    + destruct e; try (intros H; discriminate H).
      intros H. apply bind_Ok_inv in H as ([] & w1 & Herr & H).
      apply ret_Ok_inv in H as [-> ->].
      eapply emit_run in Herr; [|apply fits_unlabelled; reflexivity].
      eexists. split; [exact Herr | discriminate].
    + intros H. discriminate H.
Qed.

(** ** Returning from a prompter *)

Lemma heap_read_copy args w m :
  heap w !! args = Some m ->
  heap_read args (set_heap (heap w ++ [heap_read args w]) w) = m.
Proof.
  intros Hargs. rewrite heap_read_set_heap, (heap_read_lookup _ _ _ Hargs).
  now apply heap_read_old_cell.
Qed.

Lemma shows_only_intro step evs :
  Exists (fun e => step_shown step e = true) evs -> no_other_step step evs ->
  shows_only step evs.
Proof. now split. Qed.

(** The prompter returns the copy as it is: the value passed was valid. *)
Lemma finish_kept key step args w m w' evs :
  heap w !! args = Some m ->
  run_of step (set_heap (heap w ++ [heap_read args w]) w) w' evs ->
  Exists (fun e => step_shown step e = true) evs ->
  default VNone (m !! key) <> VNone ->
  prompt_post key step m w (length (heap w)) w'.
Proof.
  intros Hargs (Hheap & Htrace & Hno) Hshown Hpassed.
  split; [reflexivity|]. exists m. cbn in Hheap, Htrace.
  rewrite (heap_read_lookup _ _ _ Hargs) in Hheap.
  split; [exact Hheap|]. split; [reflexivity|]. split.
  - destruct (m !! key) as [v|] eqn:Hv; [|now contradiction Hpassed].
    exists v. auto.
  - exists evs. split; [exact Htrace | now split].
Qed.

(** The prompter stores the value collected in the copy. *)
Lemma finish_set key step args w m wi evs v :
  heap w !! args = Some m ->
  run_of step (set_heap (heap w ++ [heap_read args w]) w) wi evs ->
  Exists (fun e => step_shown step e = true) evs ->
  v <> VNone ->
  prompt_post key step m w (length (heap w))
    (set_heap (<[length (heap w) := <[key := v]> (heap_read (length (heap w)) wi)]>
                 (heap wi)) wi).
Proof.
  intros Hargs (Hheap & Htrace & Hno) Hshown Hv.
  split; [reflexivity|]. exists (<[key := v]> m). cbn in Hheap, Htrace.
  rewrite (heap_read_lookup _ _ _ Hargs) in Hheap.
  cbn [heap set_heap trace]. unfold heap_read. rewrite Hheap.
  rewrite heap_read_new_cell, insert_new_cell.
  split; [reflexivity|]. split.
  - intros k Hk. now rewrite lookup_insert_ne.
  - split.
    + exists v. split; [apply lookup_insert_eq | exact Hv].
    + exists evs. split; [exact Htrace | now split].
Qed.

Lemma shown_first step e evs :
  step_shown step e = true -> Exists (fun e => step_shown step e = true) (e :: evs).
Proof. now constructor. Qed.

(** ** Every prompter, when it returns *)

Tactic Notation "bind_inv" hyp(H) ident(a) ident(w) ident(Ha) :=
  apply bind_Ok_inv in H as (a & w & Ha & H).

Ltac shown_step :=
  cbn [step_shown PyStr.join];
  repeat first [ apply prefix_app_same | apply prefix_app_more ].

Ltac fits_step :=
  first [ apply fits_unlabelled; reflexivity
        | apply fits_shown; shown_step ].

Lemma StringTemplatePrompt_returns svc p step args w m l w' :
  heap w !! args = Some m ->
  StringTemplatePrompt_prompt svc p step args w = (Ok l, w') ->
  prompt_post (PARAMETER p) step m w l w'.
Proof.
  intros Hargs H. unfold StringTemplatePrompt_prompt in H.
  bind_inv H new_args w0 Hcopy. apply deepcopy_inv in Hcopy as [-> ->].
  bind_inv H passed w1 Hget. apply dict_get_inv in Hget as [-> ->].
  rewrite (heap_read_copy _ _ _ Hargs) in H.
  bind_inv H valid w2 Hvalid.
  apply is_valid_passed_arg_run in Hvalid as (evs & Hrun & Hvalid).
  destruct valid.
  - apply ret_Ok_inv in H as [-> ->]. destruct Hvalid as [Hpassed Hshown]; [reflexivity|].
    eapply finish_kept; eauto.
  - bind_inv H answer w3 Hask.
    eapply (ask_prompt_run step) in Hask as (evs' & Hrun'); [|fits_step].
    bind_inv H u w4 Hset. apply dict_setitem_inv in Hset as ->.
    apply ret_Ok_inv in H as [-> ->].
    eapply finish_set; [exact Hargs | eapply run_of_trans; eassumption | | discriminate].
    apply Exists_app. right. apply shown_first. shown_step.
Qed.

Tactic Notation "get_inv" hyp(H) ident(v) ident(w) ident(Hv) :=
  bind_inv H v w Hv; apply dict_get_inv in Hv as [-> ->].

Tactic Notation "passed_arg_inv" hyp(H) hyp(Hargs) ident(valid) ident(w)
    ident(evs) ident(Hrun) ident(Hvalid) :=
  rewrite ?(heap_read_copy _ _ _ Hargs) in H;
  bind_inv H valid w Hvalid;
  apply is_valid_passed_arg_run in Hvalid as (evs & Hrun & Hvalid).

Ltac kept H Hvalid :=
  apply ret_Ok_inv in H as [-> ->];
  destruct Hvalid as [? ?]; [reflexivity|];
  eapply finish_kept; eauto.

Ltac set_and_return H Hargs :=
  let u := fresh "u" in let w := fresh "w" in let Hset := fresh "Hset" in
  apply bind_Ok_inv in H as (u & w & Hset & H);
  apply dict_setitem_inv in Hset as ->;
  apply ret_Ok_inv in H as [-> ->];
  eapply finish_set; [exact Hargs | | | discriminate].

Lemma GoogleProjectName_returns svc step args w m l w' :
  heap w !! args = Some m ->
  GoogleProjectName_prompt svc step args w = (Ok l, w') ->
  prompt_post "project_name" step m w l w'.
Proof.
  intros Hargs H. unfold GoogleProjectName_prompt in H.
  bind_inv H new_args w0 Hcopy. apply deepcopy_inv in Hcopy as [-> ->].
  get_inv H project_id w1 Hid. get_inv H mode w1 Hmode. get_inv H passed w1 Hget.
  passed_arg_inv H Hargs valid w2 evs Hrun Hvalid.
  destruct valid; [kept H Hvalid|].
  get_inv H mode' w3 Hmode'.
  bind_inv H project_name w3 Hname.
  destruct (_is_new_project _).
  - unfold GoogleProjectName_handle_new_project in Hname.
    get_inv Hname pid w4 Hpid. get_inv Hname pcm w4 Hpcm.
    eapply (ask_prompt_run step) in Hname as (evs' & Hrun'); [|fits_step].
    set_and_return H Hargs; [eapply run_of_trans; eassumption|].
    apply Exists_app. right. apply shown_first. shown_step.
  - unfold GoogleProjectName_handle_existing_project in Hname.
    bind_inv Hname has_id w4 Hhas. apply dict_contains_inv in Hhas as ->.
    destruct (negb has_id); [discriminate Hname|].
    bind_inv Hname pid w4 Hpid. apply dict_getitem_inv in Hpid as [_ ->].
    bind_inv Hname name w4 Hlift. apply lift_Ok_inv in Hlift as [_ ->].
    bind_inv Hname u w4 Htell. eapply (emit_run step) in Htell; [|fits_step].
    apply ret_Ok_inv in Hname as [-> ->].
    set_and_return H Hargs; [eapply run_of_trans; eassumption|].
    apply Exists_app. right. apply shown_first. shown_step.
Qed.

Lemma GoogleNewProjectId_returns svc step args w m l w' :
  heap w !! args = Some m ->
  GoogleNewProjectId_prompt svc step args w = (Ok l, w') ->
  prompt_post "project_id" step m w l w'.
Proof.
  intros Hargs H. unfold GoogleNewProjectId_prompt in H.
  bind_inv H new_args w0 Hcopy. apply deepcopy_inv in Hcopy as [-> ->].
  get_inv H passed w1 Hget.
  passed_arg_inv H Hargs valid w2 evs Hrun Hvalid.
  destruct valid; [kept H Hvalid|].
  get_inv H project_name w3 Hname.
  bind_inv H default_answer w3 Hlift. apply lift_Ok_inv in Hlift as [_ ->].
  bind_inv H answer w3 Hask.
  eapply (ask_prompt_run step) in Hask as (evs' & Hrun'); [|fits_step].
  set_and_return H Hargs; [eapply run_of_trans; eassumption|].
  apply Exists_app. right. apply shown_first. shown_step.
Qed.

Lemma GoogleExistingProjectId_returns svc step args w m l w' :
  heap w !! args = Some m ->
  GoogleExistingProjectId_prompt svc step args w = (Ok l, w') ->
  prompt_post "project_id" step m w l w'.
Proof.
  intros Hargs H. unfold GoogleExistingProjectId_prompt in H.
  bind_inv H new_args w0 Hcopy. apply deepcopy_inv in Hcopy as [-> ->].
  get_inv H passed w1 Hget.
  passed_arg_inv H Hargs valid w2 evs Hrun Hvalid.
  destruct valid; [kept H Hvalid|].
  bind_inv H answer w3 Hask.
  eapply (ask_prompt_run step) in Hask as (evs' & Hrun'); [|fits_step].
  set_and_return H Hargs; [eapply run_of_trans; eassumption|].
  apply Exists_app. right. apply shown_first. shown_step.
Qed.

Lemma GoogleProjectId_returns svc step args w m l w' :
  heap w !! args = Some m ->
  GoogleProjectId_prompt svc step args w = (Ok l, w') ->
  prompt_post "project_id" step m w l w'.
Proof.
  intros Hargs H. unfold GoogleProjectId_prompt in H.
  get_inv H use_existing w1 Hget.
  destruct (truthy _);
    eauto using GoogleExistingProjectId_returns, GoogleNewProjectId_returns.
Qed.

Lemma CredentialsPrompt_returns svc step args w m l w' :
  heap w !! args = Some m ->
  CredentialsPrompt_prompt svc step args w = (Ok l, w') ->
  prompt_post "credentials" step m w l w'.
Proof.
  intros Hargs H. unfold CredentialsPrompt_prompt in H.
  bind_inv H new_args w0 Hcopy. apply deepcopy_inv in Hcopy as [-> ->].
  get_inv H passed w1 Hget.
  passed_arg_inv H Hargs valid w2 evs Hrun Hvalid.
  destruct valid; [kept H Hvalid|].
  bind_inv H u w3 Htell. eapply (emit_run step) in Htell; [|fits_step].
  bind_inv H answer w4 Hask.
  eapply (binary_prompt_run step) in Hask as (evs' & Hrun'); [|fits_step].
  set_and_return H Hargs;
    [eapply run_of_trans; [eapply run_of_trans|]; eassumption|].
  apply Exists_app. left. apply Exists_app. right. apply shown_first. shown_step.
Qed.

Lemma PostgresPasswordPrompt_returns svc step args w m l w' :
  heap w !! args = Some m ->
  PostgresPasswordPrompt_prompt svc step args w = (Ok l, w') ->
  prompt_post "database_password" step m w l w'.
Proof.
  intros Hargs H. unfold PostgresPasswordPrompt_prompt in H.
  bind_inv H new_args w0 Hcopy. apply deepcopy_inv in Hcopy as [-> ->].
  get_inv H passed w1 Hget.
  passed_arg_inv H Hargs valid w2 evs Hrun Hvalid.
  destruct valid; [kept H Hvalid|].
  bind_inv H password w3 Hask.
  eapply (password_prompt_run step) in Hask as (evs' & Hrun'); [|fits_step].
  set_and_return H Hargs; [eapply run_of_trans; eassumption|].
  apply Exists_app. right. apply shown_first. shown_step.
Qed.

Lemma DjangoSuperuserPasswordPrompt_returns svc step args w m l w' :
  heap w !! args = Some m ->
  DjangoSuperuserPasswordPrompt_prompt svc step args w = (Ok l, w') ->
  prompt_post "django_superuser_password" step m w l w'.
Proof.
  intros Hargs H. unfold DjangoSuperuserPasswordPrompt_prompt in H.
  bind_inv H new_args w0 Hcopy. apply deepcopy_inv in Hcopy as [-> ->].
  get_inv H passed w1 Hget.
  passed_arg_inv H Hargs valid w2 evs Hrun Hvalid.
  destruct valid; [kept H Hvalid|].
  bind_inv H login w3 Hlogin. apply dict_getitem_inv in Hlogin as [_ ->].
  bind_inv H password w3 Hask.
  eapply (password_prompt_run step) in Hask as (evs' & Hrun'); [|fits_step].
  set_and_return H Hargs; [eapply run_of_trans; eassumption|].
  apply Exists_app. right. apply shown_first. shown_step.
Qed.

Lemma DjangoFilesystemPath_returns svc step args w m l w' :
  heap w !! args = Some m ->
  DjangoFilesystemPath_prompt svc step args w = (Ok l, w') ->
  prompt_post "django_directory_path" step m w l w'.
Proof.
  intros Hargs H. unfold DjangoFilesystemPath_prompt in H.
  bind_inv H new_args w0 Hcopy. apply deepcopy_inv in Hcopy as [-> ->].
  bind_inv H directory w1 Hloop. cbn [while_true] in Hloop.
  bind_inv Hloop c w2 Hturn. unfold DjangoFilesystemPath_turn in Hturn.
  bind_inv Hturn entered w3 Hask.
  unfold DjangoFilesystemPath_ask_for_directory in Hask.
  get_inv Hask project_name w4 Hname.
  bind_inv Hask slug w4 Hlift. apply lift_Ok_inv in Hlift as [_ ->].
  eapply (ask_prompt_run step) in Hask as (evs & Hrun); [|fits_step].
  assert (Hshown : Exists (fun e => step_shown step e = true)
                     (Ask (PyStr.join PyStr.newline
                        [step +:+ " Enter a new directory path to store project source, "
                         +:+ "or leave blank to use";
                         "[" +:+ PyStr.path_join (expanduser_home svc) slug +:+ "]: "])
                      :: evs)) by (apply shown_first; shown_step).
  destruct (path_exists svc entered).
  - bind_inv Hturn replace w5 Hreplace.
    unfold DjangoFilesystemPath_ask_to_replace in Hreplace.
    eapply (ask_prompt_run step) in Hreplace as (evs' & Hrun'); [|fits_step].
    assert (Hc : c = Break entered /\ w2 = w5).
    { destruct (bool_decide (replace = "y"));
        apply ret_Ok_inv in Hturn as [-> ->]; auto. }
    destruct Hc as [-> ->]. apply ret_Ok_inv in Hloop as [-> ->].
    set_and_return H Hargs; [eapply run_of_trans; eassumption|].
    apply Exists_app. now left.
  - apply ret_Ok_inv in Hturn as [-> ->]. apply ret_Ok_inv in Hloop as [-> ->].
    set_and_return H Hargs; [eassumption | exact Hshown].
Qed.

Lemma BillingPrompt_returns svc step args w m l w' :
  heap w !! args = Some m ->
  BillingPrompt_prompt svc step args w = (Ok l, w') ->
  prompt_post "billing_account_name" step m w l w'.
Proof.
  intros Hargs H. unfold BillingPrompt_prompt in H.
  bind_inv H new_args w0 Hcopy. apply deepcopy_inv in Hcopy as [-> ->].
  get_inv H passed w1 Hget.
  passed_arg_inv H Hargs valid w2 evs Hrun Hvalid.
  destruct valid; [kept H Hvalid|].
  get_inv H mode w3 Hmode.
  bind_inv H existing w3 Hexisting.
  assert (Hex : exists evs1, run_of step w2 w3 evs1
            /\ (existing <> None -> Exists (fun e => step_shown step e = true) evs1)).
  { destruct (_does_project_exist _).
    - unfold BillingPrompt_has_existing_billing_account in Hexisting.
      bind_inv Hexisting has_id w4 Hhas. apply dict_contains_inv in Hhas as ->.
      destruct (negb has_id); [discriminate Hexisting|].
      bind_inv Hexisting pid w4 Hpid. apply dict_getitem_inv in Hpid as [_ ->].
      bind_inv Hexisting info w4 Hlift. apply lift_Ok_inv in Hlift as [_ ->].
      destruct (negb _).
      + apply ret_Ok_inv in Hexisting as [-> ->]. exists [].
        split; [apply run_of_refl | congruence].
      + bind_inv Hexisting u w4 Htell.
        eapply (emit_run step) in Htell; [|fits_step].
        apply ret_Ok_inv in Hexisting as [-> ->]. eexists.
        split; [exact Htell|]. intros _. apply shown_first. shown_step.
    - apply ret_Ok_inv in Hexisting as [-> ->]. exists [].
      split; [apply run_of_refl | congruence]. }
  destruct Hex as (evs1 & Hrun1 & Hshown1).
  destruct existing as [billing_account|].
  - set_and_return H Hargs;
      [eapply run_of_trans; eassumption|].
    apply Exists_app. right. now apply Hshown1.
  - bind_inv H billing_accounts w4 Hlist.
    apply (list_billing_accounts_run step) in Hlist.
    bind_inv H u w5 Htell. eapply (emit_run step) in Htell; [|fits_step].
    assert (Hsofar : run_of step
              (set_heap (heap w ++ [heap_read args w]) w) w5
              (((evs ++ evs1) ++ []) ++
               [Tell (step +:+ " In order to deploy your application, you must enable "
                      +:+ "billing for your Google Cloud Project.")]))
      by (repeat (eapply run_of_trans; [|eassumption]); eassumption).
    assert (Hshown : Exists (fun e => step_shown step e = true)
              (((evs ++ evs1) ++ []) ++
               [Tell (step +:+ " In order to deploy your application, you must enable "
                      +:+ "billing for your Google Cloud Project.")]))
      by (apply Exists_app; right; apply shown_first; shown_step).
    destruct (PyStr.nonempty_list billing_accounts).
    + bind_inv H val w6 Hval.
      unfold BillingPrompt_handle_existing_billing_accounts in Hval.
      bind_inv Hval answer w7 Hchoice.
      eapply (multiple_choice_prompt_run step) in Hchoice as (evs2 & Hrun2);
        [|fits_step|fits_step].
      assert (Hrest : exists evs3, run_of step w7 w6 evs3).
      { destruct (bool_decide (answer = "")).
        - eapply get_new_billing_account_run; eassumption.
        - bind_inv Hval account w8 Hlift. apply lift_Ok_inv in Hlift as [_ ->].
          apply ret_Ok_inv in Hval as [-> ->]. exists []. apply run_of_refl. }
      destruct Hrest as (evs3 & Hrun3).
      set_and_return H Hargs;
        [eapply run_of_trans; [eapply run_of_trans|]; eassumption|].
      apply Exists_app. left. apply Exists_app. now left.
    + bind_inv H u1 w6 Htell1. eapply (emit_run step) in Htell1; [|fits_step].
      bind_inv H a w7 Hask. eapply (read_line_run step) in Hask; [|fits_step].
      bind_inv H val w8 Hval.
      eapply (get_new_billing_account_run svc step) in Hval as (evs3 & Hrun3).
      set_and_return H Hargs;
        [eapply run_of_trans; [eapply run_of_trans; [eapply run_of_trans|]|];
         eassumption|].
      apply Exists_app. left. apply Exists_app. left. apply Exists_app. now left.
Qed.

(** The prompter of every class leaves [prompt_post] behind. *)
Lemma prompt_returns svc p step args w m l w' :
  heap w !! args = Some m ->
  prompt svc p step args w = (Ok l, w') ->
  prompt_post (PARAMETER p) step m w l w'.
Proof.
  intros Hargs H. destruct p; cbn [prompt PARAMETER] in *;
    eauto using GoogleProjectName_returns, GoogleNewProjectId_returns,
      GoogleProjectId_returns, GoogleExistingProjectId_returns,
      CredentialsPrompt_returns, BillingPrompt_returns,
      PostgresPasswordPrompt_returns, DjangoFilesystemPath_returns,
      DjangoSuperuserPasswordPrompt_returns.
  all: eapply (StringTemplatePrompt_returns svc) in H; eauto.
Qed.
(** ** What a prompter does to the caller's mapping *)

(** C2.  A prompter that returns hands back a dictionary that was not in
    the store before; outside the prompter's own [PARAMETER] it holds what
    the caller's mapping holds, no key of the caller's mapping is missing
    from it, and the caller's mapping, like every other dictionary of the
    store, is as it was. *)
Theorem prompter_extends_a_copy svc p step args w m l w' :
  heap w !! args = Some m ->
  prompt svc p step args w = (Ok l, w') ->
  heap w' !! args = Some m
  /\ heap w !! l = None
  /\ (forall d, is_Some (heap w !! d) -> heap w' !! d = heap w !! d)
  /\ exists m',
       heap w' !! l = Some m'
       /\ (forall k, k <> PARAMETER p -> m' !! k = m !! k)
       /\ (forall k, is_Some (m !! k) -> is_Some (m' !! k)).
Proof.
  intros Hargs H.
  destruct (prompt_returns svc p step args w m l w' Hargs H)
    as (-> & m' & Hheap & Hframe & (v & Hv & _) & _).
  assert (Hold : forall d, is_Some (heap w !! d) -> heap w' !! d = heap w !! d).
  { intros d Hd. rewrite Hheap. apply lookup_app_l. now apply lookup_lt_is_Some. }
  split; [rewrite Hold; eauto|]. split; [now apply lookup_ge_None_2|].
  split; [exact Hold|]. exists m'. split.
  - rewrite Hheap, lookup_app_r by lia. now rewrite Nat.sub_diag.
  - split; [exact Hframe|]. intros k Hk.
    destruct (decide (k = PARAMETER p)) as [->|Hne]; [eauto|].
    now rewrite Hframe.
Qed.

(** The billing prompter on a mapping with two keys, the user picking the
    first account of the menu. *)
Lemma prompter_extends_a_copy_witness :
  let m : gmap string Value :=
    <["project_id" := VStr "my-site-123456"]>
      {[ "credentials" := VCreds (CredentialHandle 0) ]} in
  let w := demo_world ["1"] m [account_a] [] in
  let w' := snd (prompt demo_services BillingPrompt "<b>[4/11]</b>" 0 w) in
  heap w' !! 0 = Some m
  /\ heap w !! 1 = None
  /\ (forall d, is_Some (heap w !! d) -> heap w' !! d = heap w !! d)
  /\ exists m',
       heap w' !! 1 = Some m'
       /\ (forall k, k <> PARAMETER BillingPrompt -> m' !! k = m !! k)
       /\ (forall k, is_Some (m !! k) -> is_Some (m' !! k)).
Proof.
  intros m w w'.
  apply (prompter_extends_a_copy demo_services BillingPrompt "<b>[4/11]</b>" 0 w m 1 w').
  - reflexivity.
  - vm_compute. reflexivity.
Defined.

(** ** The whole sequence *)

Lemma populated_insert m key v k :
  v <> VNone -> populated m k -> populated (<[key := v]> m) k.
Proof.
  intros Hv (x & Hx & Hnone). destruct (decide (key = k)) as [->|Hne].
  - exists v. split; [apply lookup_insert_eq | exact Hv].
  - exists x. split; [now rewrite lookup_insert_ne | exact Hnone].
Qed.

(** The [for] loop of [RootPrompt.prompt] is a chain of prompter calls, one
    per key, numbered from [i]. *)
Lemma for_each_chain svc required total order :
  (forall key, key ∈ order ->
     exists p, required !! key = Some p /\ PARAMETER p = key) ->
  forall i cur w l w',
    RootPrompt_for_each svc required total i order cur w = (Ok l, w') ->
    exists schedule,
      map (fun c => PARAMETER (fst c)) schedule = order
      /\ map snd schedule = map (fun j => step_template j total) (seq i (length order))
      /\ prompt_chain svc schedule cur w l w'.
Proof.
  induction order as [|key order IH]; intros Hreq i cur w l w' H.
  - apply ret_Ok_inv in H as [-> ->]. exists []. repeat split. constructor.
  - cbn [RootPrompt_for_each] in H.
    destruct (Hreq key) as (p & Hp & Hkey); [left|]. rewrite Hp in H.
    apply bind_Ok_inv in H as (l1 & w1 & Hprompt & H).
    apply IH in H as (schedule & Hkeys & Hsteps & Hchain);
      [|intros k Hk; apply Hreq; now right].
    exists ((p, step_template i total) :: schedule). cbn [map fst snd length seq].
    rewrite Hkeys, Hsteps, Hkey. repeat split. econstructor; eassumption.
Qed.

(** A chain keeps what was populated, populates the key of each of its
    prompters, shows its steps in order and leaves the older dictionaries
    alone. *)
Lemma prompt_chain_returns svc schedule l w l' w' :
  prompt_chain svc schedule l w l' w' ->
  forall m, heap w !! l = Some m ->
  exists m',
    heap w' !! l' = Some m'
    /\ (forall k, populated m k -> populated m' k)
    /\ (forall k, k ∈ map (fun c => PARAMETER (fst c)) schedule -> populated m' k)
    /\ (forall d, is_Some (heap w !! d) -> heap w' !! d = heap w !! d)
    /\ exists evs, trace w' = trace w ++ evs
                   /\ in_step_order (map snd schedule) evs.
Proof.
  induction 1 as [l w|p step schedule l w l1 w1 l' w' Hprompt Hchain IH];
    intros m Hm.
  - exists m. split; [exact Hm|]. split; [auto|]. split; [intros k Hk; inversion Hk|].
    split; [auto|]. exists []. split; [now rewrite app_nil_r | reflexivity].
  - destruct (prompt_returns svc p step l w m l1 w1 Hm Hprompt)
      as (-> & m1 & Hheap & Hframe & Hpop & evs1 & Htrace & Hshows).
    assert (Hm1 : heap w1 !! length (heap w) = Some m1).
    { rewrite Hheap, lookup_app_r by lia. now rewrite Nat.sub_diag. }
    destruct (IH m1 Hm1) as (m' & Hm' & Hkeep & Hkeys & Hold & evs2 & Htrace2 & Horder).
    assert (Hkeep1 : forall k, populated m k -> populated m1 k).
    { intros k Hk. destruct (decide (k = PARAMETER p)) as [->|Hne]; [exact Hpop|].
      destruct Hk as (v & Hv & Hnone). exists v. now rewrite Hframe. }
    exists m'. split; [exact Hm'|]. split; [auto|]. split.
    + intros k Hk. cbn [map fst] in Hk. apply elem_of_cons in Hk as [->|Hk]; auto.
    + split.
      * intros d Hd. rewrite Hold.
        -- rewrite Hheap. apply lookup_app_l. now apply lookup_lt_is_Some.
        -- rewrite Hheap, lookup_app_l by (now apply lookup_lt_is_Some). exact Hd.
      * exists (evs1 ++ evs2). split.
        -- rewrite Htrace2, Htrace, app_assoc. reflexivity.
        -- cbn [map snd in_step_order]. eauto.
Qed.

Lemma setup_prompts_own_their_keys creds key :
  key ∈ PROMPT_ORDER ->
  exists p, _setup_prompts creds !! key = Some p /\ PARAMETER p = key.
Proof.
  unfold PROMPT_ORDER. intros Hin.
  repeat (apply elem_of_cons in Hin as [->|Hin];
          [eexists; split; [vm_compute; reflexivity | reflexivity]|]).
  inversion Hin.
Qed.

(** C1.  A run of [RootPrompt.prompt] that returns, on an answer mapping
    that is empty or holds only [use_existing_project = False]: it calls
    the credentials prompter as step 1 of 11 on the caller's mapping, then
    the prompters of the ten keys of [PROMPT_ORDER] as steps 2 to 11, each
    on the mapping returned before; the events shown to the user are those
    of steps 1 to 11 in this order; the mapping returned is populated under
    [credentials] and under every key of [PROMPT_ORDER]. *)
Theorem root_prompt_collects_in_order svc args w m l w' :
  heap w !! args = Some m ->
  m = ∅ \/ m = {[ "use_existing_project" := VBool false ]} ->
  RootPrompt_prompt svc args w = (Ok l, w') ->
  (exists w0 answered w1 new_args w2 schedule,
      prompt svc CredentialsPrompt (step_template 1 11) args w0 = (Ok answered, w1)
      /\ trace w0 = trace w /\ trace w2 = trace w1
      /\ map (fun c => PARAMETER (fst c)) schedule = PROMPT_ORDER
      /\ map snd schedule = map (fun i => step_template i 11) (seq 2 10)
      /\ prompt_chain svc schedule new_args w2 l w')
  /\ (exists evs,
         trace w' = trace w ++ evs
         /\ in_step_order (map (fun i => step_template i 11) (seq 1 11)) evs)
  /\ (exists m',
         heap w' !! l = Some m'
         /\ forall key, key ∈ "credentials" :: PROMPT_ORDER -> populated m' key).
Proof.
  intros Hargs Hm H. unfold RootPrompt_prompt in H.
  apply bind_Ok_inv in H as (new_args & w0 & Hcopy & H).
  apply deepcopy_inv in Hcopy as [-> ->].
  rewrite (heap_read_lookup _ _ _ Hargs) in H.
  apply bind_Ok_inv in H as (use_existing & w1 & Hget & H).
  apply dict_get_inv in Hget as [-> ->].
  rewrite heap_read_set_heap, heap_read_new_cell in H.
  assert (Hflag : default (VBool false) (m !! "use_existing_project") = VBool false)
    by (destruct Hm as [->| ->]; reflexivity).
  rewrite Hflag in H. cbn [truthy] in H.
  apply bind_Ok_inv in H as ([] & w1 & Hret & H).
  apply ret_Ok_inv in Hret as [_ ->].
  apply bind_Ok_inv in H as (creds & w2 & Hcreds & H).
  unfold RootPrompt_get_creds in Hcreds.
  apply bind_Ok_inv in Hcreds as (answered & w3 & Hprompt & Hitem).
  apply dict_getitem_inv in Hitem as [Hitem ->].
  change (length PROMPT_ORDER + 1) with 11 in *.
  set (w0 := set_heap (heap w ++ [m]) w) in *.
  assert (Hargs0 : heap w0 !! args = Some m).
  { unfold w0. cbn [heap set_heap]. rewrite lookup_app_l; [exact Hargs|].
    now apply lookup_lt_Some in Hargs. }
  destruct (prompt_returns svc CredentialsPrompt _ args w0 m answered w3 Hargs0 Hprompt)
    as (-> & mc & Hheapc & _ & Hpopc & evsc & Htracec & Hshowsc).
  assert (Hcredsv : creds <> VNone).
  { unfold heap_read in Hitem. rewrite Hheapc, heap_read_new_cell in Hitem.
    destruct Hpopc as (v & Hv & Hnone). cbn [PARAMETER] in Hv. congruence. }
  apply bind_Ok_inv in H as ([] & w4 & Hset & H).
  apply dict_setitem_inv in Hset as ->.
  set (w4 := set_heap _ w3) in H.
  assert (Hheap4 : heap w4 = (heap w ++ [<["credentials" := creds]> m]) ++ [mc]).
  { unfold w4. cbn [heap set_heap]. unfold heap_read. rewrite Hheapc.
    unfold w0. cbn [heap set_heap].
    rewrite (lookup_app_l (heap w ++ [m])) by (rewrite length_app; simpl; lia).
    rewrite heap_read_new_cell.
    rewrite insert_app_l by (rewrite length_app; simpl; lia).
    now rewrite insert_new_cell. }
  assert (Hnew : heap w4 !! length (heap w) = Some (<["credentials" := creds]> m)).
  { rewrite Hheap4, lookup_app_l by (rewrite length_app; simpl; lia).
    rewrite lookup_app_r by lia. now rewrite Nat.sub_diag. }
  apply for_each_chain in H as (schedule & Hkeys & Hsteps & Hchain);
    [|apply setup_prompts_own_their_keys].
  change (length PROMPT_ORDER) with 10 in Hsteps.
  destruct (prompt_chain_returns svc schedule _ _ _ _ Hchain _ Hnew)
    as (m' & Hm' & Hkeep & Hpop & _ & evs & Htrace & Horder).
  split; [|split].
  - exists w0, (length (heap w0)), w3, (length (heap w)), w4, schedule.
    repeat split; auto.
  - exists (evsc ++ evs). split.
    + rewrite Htrace. unfold w4. cbn [trace set_heap]. rewrite Htracec.
      unfold w0. cbn [trace set_heap]. now rewrite app_assoc.
    + change (seq 1 11) with (1 :: seq 2 10). cbn [map in_step_order].
      exists evsc, evs. split; [reflexivity|]. split; [exact Hshowsc|].
      rewrite <- Hsteps. exact Horder.
  - exists m'. split; [exact Hm'|]. intros key Hkey.
    apply elem_of_cons in Hkey as [->|Hkey].
    + apply Hkeep. exists creds. split; [apply lookup_insert_eq | exact Hcredsv].
    + apply Hpop. now rewrite Hkeys.
Qed.

(** The user accepts every default, picks the first billing account and
    types the two passwords. *)
Lemma root_prompt_collects_in_order_witness :
  let w :=
    demo_world [""; ""; ""; "1"; "secret"; "secret"; ""; ""; ""; "";
                "hunter2"; "hunter2"; ""] ∅ [account_a] [] in
  let w' := snd (RootPrompt_prompt demo_services 0 w) in
  (exists w0 answered w1 new_args w2 schedule,
      prompt demo_services CredentialsPrompt (step_template 1 11) 0 w0
      = (Ok answered, w1)
      /\ trace w0 = trace w /\ trace w2 = trace w1
      /\ map (fun c => PARAMETER (fst c)) schedule = PROMPT_ORDER
      /\ map snd schedule = map (fun i => step_template i 11) (seq 2 10)
      /\ prompt_chain demo_services schedule new_args w2 12 w')
  /\ (exists evs,
         trace w' = trace w ++ evs
         /\ in_step_order (map (fun i => step_template i 11) (seq 1 11)) evs)
  /\ (exists m',
         heap w' !! 12 = Some m'
         /\ forall key, key ∈ "credentials" :: PROMPT_ORDER -> populated m' key).
Proof.
  intros w w'.
  apply (root_prompt_collects_in_order demo_services 0 w ∅ 12 w').
  - reflexivity.
  - left. reflexivity.
  - vm_compute. reflexivity.
Defined.

(** ** Waiting for a new billing account *)

(** As long as the listings are as long as the first one, the loop sleeps
    and polls again. *)
Lemma poll_skips_equal_listings svc existing sames :
  Forall (same_length existing) sames ->
  forall now later now0 later0 tr,
    now0 :: later0 = sames ++ now :: later ->
    _poll_new_billing_account svc existing now0 later0 tr
    = _poll_new_billing_account svc existing now later
        (tr ++ repeat (Sleep 2) (length sames)).
Proof.
  induction 1 as [|same sames Hsame _ IH]; intros now later now0 later0 tr Heq.
  - simpl in Heq. inversion Heq. subst. simpl. now rewrite app_nil_r.
  - simpl in Heq. inversion Heq as [[H0 H1]]. subst now0 later0.
    destruct sames as [|same' sames'].
    + cbn [app _poll_new_billing_account length repeat].
      case_bool_decide as Hlen; [unfold same_length in Hsame; lia|].
      reflexivity.
    + cbn [app _poll_new_billing_account].
      case_bool_decide as Hlen; [unfold same_length in Hsame; lia|].
      rewrite (IH now later same' (sames' ++ now :: later) (tr ++ [Sleep 2]) eq_refl).
      rewrite <- app_assoc. reflexivity.
Qed.

(** X24.  When the service settles on listings as long as the first one,
    whatever accounts they hold, the wait of [_get_new_billing_account]
    never ends. *)
Lemma poll_diverges_on_equal_listings svc existing later :
  forall now tr,
    Forall (same_length existing) (now :: later) ->
    fst (_poll_new_billing_account svc existing now later tr) = Diverge.
Proof.
  induction later as [|next later IH]; intros now tr Hall; inversion Hall; subst.
  - cbn [_poll_new_billing_account].
    case_bool_decide as Hlen; [unfold same_length in *; lia|]. reflexivity.
  - cbn [_poll_new_billing_account].
    case_bool_decide as Hlen; [unfold same_length in *; lia|]. now apply IH.
Qed.

(** The account is replaced by another one, then comes back. *)
Lemma poll_diverges_on_equal_listings_witness :
  fst (_poll_new_billing_account demo_services [account_a] [account_a]
         [[account_b]; [account_a]] [])
  = Diverge.
Proof.
  apply (poll_diverges_on_equal_listings demo_services [account_a]
           [[account_b]; [account_a]] [account_a] []).
  repeat constructor.
Defined.

Lemma list_getitem_0 {A} (l : list A) :
  list_getitem l 0 = match l with a :: _ => Ok a | [] => Raise IndexError end.
Proof. destruct l; reflexivity. Qed.

Lemma first_of_nonempty_set svc (s : gset string) :
  (forall s, set_order svc s ≡ₚ elements s) ->
  s <> ∅ -> exists d, list_getitem (set_order svc s) 0 = Ok d /\ d ∈ s.
Proof.
  intros Hperm Hne. rewrite list_getitem_0.
  destruct (set_order svc s) as [|d ds] eqn:Hord.
  - exfalso. apply Hne. apply leibniz_equiv, elements_empty_inv.
    pose proof (Hperm s) as Hp. rewrite Hord in Hp.
    symmetry in Hp. apply Permutation_nil_r in Hp. now rewrite Hp.
  - exists d. split; [reflexivity|]. apply elem_of_elements.
    rewrite <- (Hperm s), Hord. left.
Qed.

Lemma first_of_empty_set svc :
  (forall s, set_order svc s ≡ₚ elements s) ->
  list_getitem (set_order svc ∅) 0 = Raise (A:=string) IndexError.
Proof.
  intros Hperm. pose proof (Hperm ∅) as Hp. rewrite elements_empty in Hp.
  apply Permutation_nil_r in Hp. now rewrite Hp.
Qed.

(** C10.  [_get_new_billing_account] opens the browser, then polls: it
    sleeps through every listing as long as the first one and stops at the
    first listing of another length.  What it returns there is the first
    element of the difference between the polled names and the first names:
    a name of the polled listing that the first listing lacks when there is
    one, and an [IndexError] when there is none, as after a removal. *)
Theorem get_new_billing_account_stops_at_first_length_change
    svc existing sames differing later w :
  (forall s, set_order svc s ≡ₚ elements s) ->
  billing_now w :: billing_later w = sames ++ differing :: later ->
  Forall (same_length existing) sames ->
  length differing <> length existing ->
  exists r w',
    BillingPrompt_get_new_billing_account svc existing w = (r, w')
    /\ trace w'
       = trace w
         ++ [OpenBrowser "https://console.cloud.google.com/billing/create";
             Tell "Waiting for billing account to be created."]
         ++ repeat (Sleep 2) (length sames)
    /\ (billing_now w', billing_later w') = advance_billing differing later
    /\ r = list_getitem (set_order svc (new_names existing differing)) 0
    /\ (new_names existing differing <> ∅ ->
        exists d, r = Ok d /\ d ∈ map name differing /\ d ∉ map name existing)
    /\ (new_names existing differing = ∅ -> r = Raise IndexError).
Proof.
  intros Hperm Hpolls Hsames Hdiff.
  unfold BillingPrompt_get_new_billing_account, on_billing, bind, console_tell, emit.
  cbn [log set_console stdin trace billing_now billing_later].
  rewrite (poll_skips_equal_listings svc existing sames Hsames differing later
             _ _ _ Hpolls).
  assert (Hstop : forall tr,
    _poll_new_billing_account svc existing differing later tr
    = (list_getitem (set_order svc (new_names existing differing)) 0,
       (advance_billing differing later, tr))).
  { intros tr. destruct later; cbn [_poll_new_billing_account];
      (case_bool_decide as Hlen; [reflexivity | lia]). }
  rewrite Hstop. destruct (advance_billing differing later) as [now' later'] eqn:Hadv.
  eexists; eexists; split; [reflexivity|].
  cbn [trace set_billing set_console billing_now billing_later].
  split; [now rewrite <- !app_assoc|]. split; [reflexivity|].
  split; [reflexivity|]. split.
  - intros Hne. destruct (first_of_nonempty_set svc _ Hperm Hne) as (d & Hd & Hin).
    exists d. split; [exact Hd|]. unfold new_names in Hin.
    apply elem_of_difference in Hin as [Hin Hout].
    rewrite elem_of_list_to_set in Hin. rewrite elem_of_list_to_set in Hout.
    now split.
  - intros ->. now apply first_of_empty_set.
Qed.

(** The account [B] appears at the third poll. *)
Lemma get_new_billing_account_witness :
  exists r w',
    BillingPrompt_get_new_billing_account demo_services [account_a]
      (demo_world [] ∅ [account_a] [[account_a]; [account_a; account_b]])
    = (r, w')
    /\ trace w'
       = [OpenBrowser "https://console.cloud.google.com/billing/create";
          Tell "Waiting for billing account to be created."]
         ++ repeat (Sleep 2) 2
    /\ (billing_now w', billing_later w')
       = advance_billing [account_a; account_b] []
    /\ r = list_getitem
             (set_order demo_services
                (new_names [account_a] [account_a; account_b])) 0
    /\ (new_names [account_a] [account_a; account_b] <> ∅ ->
        exists d, r = Ok d /\ d ∈ map name [account_a; account_b]
                  /\ d ∉ map name [account_a])
    /\ (new_names [account_a] [account_a; account_b] = ∅ -> r = Raise IndexError).
Proof.
  apply (get_new_billing_account_stops_at_first_length_change demo_services
           [account_a] [[account_a]; [account_a]] [account_a; account_b] []
           (demo_world [] ∅ [account_a] [[account_a]; [account_a; account_b]])).
  - intros s. reflexivity.
  - reflexivity.
  - repeat constructor.
  - simpl. lia.
Defined.

(** A removal changes the length and adds no name: the first-element
    access fails. *)
Example get_new_billing_account_after_removal :
  fst (BillingPrompt_get_new_billing_account demo_services [account_a; account_b]
         (demo_world [] ∅ [account_a; account_b] [[account_a]]))
  = Raise IndexError.
Proof. vm_compute. reflexivity. Qed.

(** ** The directory prompt *)

Lemma ask_for_directory_on_extended_heap svc step args w h :
  default ∅ (h !! args) = heap_read args w ->
  DjangoFilesystemPath_ask_for_directory svc step args (set_heap h w)
  = (fst (DjangoFilesystemPath_ask_for_directory svc step args w),
     set_heap h (snd (DjangoFilesystemPath_ask_for_directory svc step args w))).
Proof.
  intros Hread.
  unfold DjangoFilesystemPath_ask_for_directory, bind, dict_get, lift.
  rewrite heap_read_set_heap, Hread.
  destruct (on_str AttributeError _ _) as [slug|e|]; try reflexivity.
  unfold _ask_prompt, on_console. cbn [stdin trace set_heap].
  destruct (_ask_prompt_loop _ _ _ _ _) as [r [ins tr]]. reflexivity.
Qed.

(** C9.  When the directory entered exists, [DjangoFilesystemPath.prompt]
    asks once whether to replace its contents and leaves its loop whatever
    the reply is: no other path is asked for, and the directory entered is
    what the new mapping records. *)
Theorem filesystem_path_prompt_asks_once
    svc step args w m directory w1 reply rest :
  heap w !! args = Some m ->
  DjangoFilesystemPath_ask_for_directory svc step args w = (Ok directory, w1) ->
  path_exists svc directory = true ->
  stdin w1 = reply :: rest ->
  exists w',
    DjangoFilesystemPath_prompt svc step args w = (Ok (length (heap w)), w')
    /\ trace w'
       = trace w1
         ++ [Ask ("The directory '" +:+ directory +:+ "' already exists, "
                  +:+ "replace it's contents [y/N]: ")]
    /\ stdin w' = rest
    /\ heap w' = heap w ++ [<["django_directory_path" := VStr directory]> m].
Proof.
  intros Hargs Hdir Hexists Hin.
  assert (Hheap1 : heap w1 = heap w).
  { revert Hdir. unfold DjangoFilesystemPath_ask_for_directory, bind, dict_get, lift.
    destruct (on_str AttributeError _ _) as [slug|e|]; try discriminate.
    unfold _ask_prompt, on_console.
    destruct (_ask_prompt_loop _ _ _ _ _) as [r [ins tr]].
    intros H. inversion H. reflexivity. }
  unfold DjangoFilesystemPath_prompt, bind at 1, deepcopy.
  unfold bind at 1. cbn [while_true]. unfold bind at 1.
  unfold DjangoFilesystemPath_turn, bind at 1.
  rewrite ask_for_directory_on_extended_heap by apply heap_read_after_copy.
  rewrite Hdir. cbn [fst snd]. rewrite Hexists.
  unfold bind at 1, DjangoFilesystemPath_ask_to_replace, _ask_prompt, on_console.
  cbn [stdin trace set_heap]. rewrite Hin.
  cbn [_ask_prompt_loop from_option no_validate].
  assert (Hbreak : forall (b : bool) (W : World),
    (if b then ret (Break directory) else ret (Break directory)) W
    = (Ok (Break directory), W)) by (intros [] W; reflexivity).
  rewrite Hbreak. unfold ret, bind, dict_setitem.
  eexists. split; [reflexivity|].
  cbn [trace stdin heap set_heap set_console].
  split; [reflexivity|]. split; [reflexivity|].
  rewrite heap_read_set_console, heap_read_set_heap. cbn [PARAMETER].
  rewrite heap_read_new_cell, insert_new_cell, (heap_read_lookup _ _ _ Hargs).
  reflexivity.
Qed.

(** The user enters [/srv/site], which exists, and declines to replace it. *)
Lemma filesystem_path_prompt_asks_once_witness :
  exists w',
    DjangoFilesystemPath_prompt demo_services "<b>[6/11]</b>" 0
      (demo_world ["/srv/site"; "n"; "/srv/elsewhere"] ∅ [] [])
    = (Ok 1, w')
    /\ trace w'
       = [Ask ("<b>[6/11]</b> Enter a new directory path to store project "
               +:+ "source, or leave blank to use" +:+ PyStr.newline
               +:+ "[/home/user/django-project]: ")]
         ++ [Ask ("The directory '" +:+ "/srv/site" +:+ "' already exists, "
                  +:+ "replace it's contents [y/N]: ")]
    /\ stdin w' = ["/srv/elsewhere"]
    /\ heap w' = [∅] ++ [<["django_directory_path" := VStr "/srv/site"]> ∅].
Proof.
  apply (filesystem_path_prompt_asks_once demo_services "<b>[6/11]</b>" 0
           (demo_world ["/srv/site"; "n"; "/srv/elsewhere"] ∅ [] []) ∅
           "/srv/site"
           (set_console ["n"; "/srv/elsewhere"]
              [Ask ("<b>[6/11]</b> Enter a new directory path to store project "
                    +:+ "source, or leave blank to use" +:+ PyStr.newline
                    +:+ "[/home/user/django-project]: ")]
              (demo_world ["/srv/site"; "n"; "/srv/elsewhere"] ∅ [] []))
           "n" ["/srv/elsewhere"]).
  - reflexivity.
  - vm_compute. reflexivity.
  - vm_compute. reflexivity.
  - reflexivity.
Defined.

(** ** A value passed for the key of a prompter *)

Ltac confirm_passed Hargs Hv Hvalid Hnone :=
  unfold GoogleProjectName_prompt, GoogleNewProjectId_prompt,
    GoogleExistingProjectId_prompt, CredentialsPrompt_prompt,
    BillingPrompt_prompt, PostgresPasswordPrompt_prompt,
    DjangoSuperuserPasswordPrompt_prompt, StringTemplatePrompt_prompt,
    _is_valid_passed_arg, bind, deepcopy, dict_get, ret, console_tell, emit;
  cbn [PARAMETER];
  repeat first
    [ rewrite heap_read_set_heap
    | rewrite (heap_read_old_cell _ _ _ _ Hargs)
    | rewrite (heap_read_lookup _ _ _ Hargs)
    | rewrite Hv | rewrite Hvalid
    | rewrite bool_decide_eq_false_2 by exact Hnone
    | progress cbn [default from_option id]
    | progress cbv beta iota zeta ];
  reflexivity.

(** X13.  Every class but [DjangoFilesystemPath] confirms a valid value
    passed for its key: the prompter returns the copy, tells one line with
    the step, the parameter and the value, and reads nothing. *)
Lemma passed_value_is_confirmed svc p step args w m v :
  p <> DjangoFilesystemPath ->
  heap w !! args = Some m ->
  m !! PARAMETER p = Some v ->
  v <> VNone ->
  passed_validator svc p m v = Ok tt ->
  prompt svc p step args w
  = (Ok (length (heap w)),
     log (Tell (step +:+ " " +:+ PARAMETER p +:+ ": " +:+ str_of_value svc v))
       (set_heap (heap w ++ [m]) w)).
Proof.
  intros Hp Hargs Hv Hnone Hvalid.
  destruct p; try contradiction; cbn [prompt PARAMETER passed_validator] in *.
  3: { unfold GoogleProjectId_prompt, bind at 1, dict_get at 1.
       rewrite (heap_read_lookup _ _ _ Hargs).
       destruct (truthy (default (VBool false) (m !! "use_existing_project")));
         confirm_passed Hargs Hv Hvalid Hnone. }
  all: confirm_passed Hargs Hv Hvalid Hnone.
Qed.

(** A valid database password passed in the mapping. *)
Lemma passed_value_is_confirmed_witness :
  let m : gmap string Value := {[ "database_password" := VStr "s3cret" ]} in
  let w := demo_world ["typed"] m [] [] in
  prompt demo_services PostgresPasswordPrompt "<b>[5/11]</b>" 0 w
  = (Ok (length (heap w)),
     log (Tell ("<b>[5/11]</b>" +:+ " " +:+ PARAMETER PostgresPasswordPrompt +:+ ": "
                +:+ str_of_value demo_services (VStr "s3cret")))
       (set_heap (heap w ++ [m]) w)).
Proof.
  intros m w.
  apply (passed_value_is_confirmed demo_services PostgresPasswordPrompt
           "<b>[5/11]</b>" 0 w m (VStr "s3cret")).
  - discriminate.
  - reflexivity.
  - reflexivity.
  - discriminate.
  - vm_compute. reflexivity.
Defined.

(** A value that fails validation is reported, and the prompter goes on
    to ask. *)
Lemma passed_value_failure_is_reported svc p step v validate msg w :
  v <> VNone ->
  validate v = Raise (ValueError msg) ->
  _is_valid_passed_arg svc p step v validate w = (Ok false, log (Error msg) w).
Proof.
  intros Hnone Hbad. unfold _is_valid_passed_arg.
  rewrite bool_decide_eq_false_2 by exact Hnone. rewrite Hbad. reflexivity.
Qed.

(** ** The directory prompt and a value passed *)

(** C3, at a failing input.  [DjangoFilesystemPath.prompt] never calls
    [_is_valid_passed_arg]: with [django_directory_path] already in the
    mapping it still asks for a directory, prints no confirmation line, and
    records what the user typed in place of the value passed. *)
Theorem filesystem_path_prompt_ignores_passed_value :
  let args := {[ "django_directory_path" := VStr "/srv/passed" ]} in
  let run :=
    DjangoFilesystemPath_prompt demo_services "<b>[6/11]</b>" 0
      (demo_world ["/srv/typed"] args [] []) in
  _validate demo_services DjangoFilesystemPath (VStr "/srv/passed") = Ok tt
  /\ fst run = Ok 1
  /\ trace (snd run)
     = [Ask ("<b>[6/11]</b> Enter a new directory path to store project "
             +:+ "source, or leave blank to use" +:+ PyStr.newline
             +:+ "[/home/user/django-project]: ")]
  /\ stdin (snd run) = []
  /\ heap_read 1 (snd run) = {[ "django_directory_path" := VStr "/srv/typed" ]}.
Proof.
  split; [reflexivity|]. split; [vm_compute; reflexivity|].
  split; [vm_compute; reflexivity|]. split; [vm_compute; reflexivity|].
  vm_compute. reflexivity.
Qed.

(** A sibling prompter on the same kind of input: a valid password passed
    as a flag is confirmed in one line and nothing is read. *)
Example password_prompt_confirms_passed_value :
  let args := {[ "database_password" := VStr "s3cret" ]} in
  let run :=
    PostgresPasswordPrompt_prompt demo_services "<b>[5/11]</b>" 0
      (demo_world ["typed"] args [] []) in
  fst run = Ok 1
  /\ trace (snd run) = [Tell "<b>[5/11]</b> database_password: s3cret"]
  /\ stdin (snd run) = ["typed"]
  /\ heap_read 1 (snd run) = args.
Proof.
  split; [vm_compute; reflexivity|]. split; [vm_compute; reflexivity|].
  split; vm_compute; reflexivity.
Qed.

(** ** Billing already enabled *)

(** C6, as amended.  When no billing account was passed in the mapping,
    the project must exist and the billing service reports billing enabled
    for it under an account name, [BillingPrompt.prompt] records that name
    in the new mapping; all it does besides is to tell that billing is
    already enabled: it lists no accounts, asks nothing and opens no
    browser. *)
Theorem billing_prompt_short_circuit svc step args w m pid account :
  heap w !! args = Some m ->
  default VNone (m !! "billing_account_name") = VNone ->
  m !! "project_creation_mode" = Some (VMode MUST_EXIST) ->
  m !! "project_id" = Some (VStr pid) ->
  billingEnabled (get_billing_account svc pid) = Some true ->
  billingAccountName (get_billing_account svc pid) = Some account ->
  exists w',
    BillingPrompt_prompt svc step args w = (Ok (length (heap w)), w')
    /\ heap w' = heap w ++ [<["billing_account_name" := VStr account]> m]
    /\ trace w'
       = trace w ++ [Tell (step +:+ " Billing is already enabled on this project.")]
    /\ stdin w' = stdin w
    /\ billing_now w' = billing_now w
    /\ billing_later w' = billing_later w.
Proof.
  intros Hargs Hpassed Hmode Hpid Henabled Hname.
  unfold BillingPrompt_prompt, BillingPrompt_has_existing_billing_account,
    _is_valid_passed_arg, _does_project_exist, bind, deepcopy, dict_get,
    dict_contains, dict_getitem, dict_setitem, lift, ret, console_tell, emit.
  cbn [PARAMETER].
  repeat first
    [ rewrite heap_read_set_heap
    | rewrite (heap_read_old_cell _ _ _ _ Hargs)
    | rewrite (heap_read_lookup _ _ _ Hargs)
    | rewrite Hpassed | rewrite Hmode | rewrite Hpid
    | rewrite Henabled | rewrite Hname
    | rewrite bool_decide_eq_true_2 by eauto
    | progress cbn [default from_option id on_str negb]
    | progress cbv beta iota zeta ].
  eexists. split; [reflexivity|].
  cbn [heap trace stdin billing_now billing_later set_heap set_console log].
  unfold heap_read. cbn [heap set_heap set_console log].
  rewrite heap_read_new_cell, insert_new_cell. repeat split; reflexivity.
Qed.

Lemma billing_prompt_short_circuit_witness :
  exists w',
    BillingPrompt_prompt demo_services "<b>[4/11]</b>" 0
      (demo_world ["1"]
         (<["project_id" := VStr "my-project"]>
            {[ "project_creation_mode" := VMode MUST_EXIST ]})
         [account_a] [])
    = (Ok 1, w')
    /\ heap w'
       = [<["project_id" := VStr "my-project"]>
            {[ "project_creation_mode" := VMode MUST_EXIST ]}]
         ++ [<["billing_account_name" := VStr "billingAccounts/NEW"]>
               (<["project_id" := VStr "my-project"]>
                  {[ "project_creation_mode" := VMode MUST_EXIST ]})]
    /\ trace w'
       = [] ++ [Tell ("<b>[4/11]</b>" +:+ " Billing is already enabled on this project.")]
    /\ stdin w' = ["1"]
    /\ billing_now w' = [account_a]
    /\ billing_later w' = [].
Proof.
  apply (billing_prompt_short_circuit demo_services "<b>[4/11]</b>" 0
           (demo_world ["1"]
              (<["project_id" := VStr "my-project"]>
                 {[ "project_creation_mode" := VMode MUST_EXIST ]})
              [account_a] [])
           (<["project_id" := VStr "my-project"]>
              {[ "project_creation_mode" := VMode MUST_EXIST ]})
           "my-project" "billingAccounts/NEW").
  - reflexivity.
  - vm_compute. reflexivity.
  - vm_compute. reflexivity.
  - vm_compute. reflexivity.
  - vm_compute. reflexivity.
  - vm_compute. reflexivity.
Defined.

(** C6 as stated fails: with a billing account passed in the mapping, the
    prompt keeps the passed name although the project must exist and the
    service reports billing enabled under another name. *)
Lemma billing_prompt_keeps_passed_account :
  let args : gmap string Value :=
    <["billing_account_name" := VStr "billingAccounts/OLD"]>
      (<["project_id" := VStr "my-project"]>
         {[ "project_creation_mode" := VMode MUST_EXIST ]}) in
  let run :=
    BillingPrompt_prompt demo_services "<b>[4/11]</b>" 0
      (demo_world [] args [account_a] []) in
  args !! "project_creation_mode" = Some (VMode MUST_EXIST)
  /\ args !! "project_id" = Some (VStr "my-project")
  /\ billingEnabled (get_billing_account demo_services "my-project") = Some true
  /\ billingAccountName (get_billing_account demo_services "my-project")
     = Some "billingAccounts/NEW"
  /\ fst run = Ok 1
  /\ heap_read 1 (snd run) !! "billing_account_name"
     = Some (VStr "billingAccounts/OLD")
  /\ heap_read 1 (snd run) !! "billing_account_name"
     <> Some (VStr "billingAccounts/NEW").
Proof.
  repeat split; try (vm_compute; reflexivity).
  vm_compute. discriminate.
Qed.

(** ** Validation failures: flags of the update command, interactive answers *)

Lemma check_flags_first_failure validate args w parameters :
  (forall name, raises_only_ValueError (validate name)) ->
  forall remaining actual,
    (exists name v msg,
        name ∈ parameters /\ args !! name = Some v /\ v <> VNone
        /\ validate name v = Raise (ValueError msg)) ->
    exists name v msg,
      name ∈ parameters /\ args !! name = Some v
      /\ validate name v = Raise (ValueError msg)
      /\ Update.check_flags validate parameters args remaining actual w
         = (Raise (SystemExit 1), log (Stderr msg) w).
Proof.
  intros Honly. induction parameters as [|p parameters IH];
    intros remaining actual (name & v & msg & Hin & Hv & Hnone & Hfail).
  - inversion Hin.
  - cbn [Update.check_flags].
    assert (Htail : p <> name \/ default VNone (args !! p) = VNone
                    \/ validate p (default VNone (args !! p)) = Ok tt ->
                    name ∈ parameters).
    { intros Hcase. apply elem_of_cons in Hin as [->|Hin]; [|exact Hin].
      exfalso. rewrite Hv in Hcase. simpl in Hcase.
      destruct Hcase as [Hne|[Hn|Hok]]; [now apply Hne | now apply Hnone |].
      rewrite Hfail in Hok. discriminate. }
    case_bool_decide as Hsupplied.
    + destruct (Honly p (default VNone (args !! p))) as [Hok|[msg' Hbad]].
      * rewrite Hok.
        destruct (IH remaining (<[p := default VNone (args !! p)]> actual))
          as (name' & v' & msg' & Hin' & Hv' & Hfail' & Hrun).
        { exists name, v, msg. repeat split; auto. }
        exists name', v', msg'. repeat split; auto. now right.
      * rewrite Hbad. exists p, (default VNone (args !! p)), msg'.
        split; [now left|]. split.
        { destruct (args !! p) as [x|]; [reflexivity | now contradiction Hsupplied]. }
        split; [exact Hbad | reflexivity].
    + destruct (IH (remaining ++ [p]) actual)
        as (name' & v' & msg' & Hin' & Hv' & Hfail' & Hrun).
      { exists name, v, msg. repeat split; auto. }
      exists name', v', msg'. repeat split; auto. now right.
Qed.

Lemma ask_prompt_loop_result question validate default :
  raises_only_ValueError validate ->
  forall lines tr,
    fst (_ask_prompt_loop question validate default lines tr) = Raise EOFError
    \/ exists a,
         fst (_ask_prompt_loop question validate default lines tr) = Ok a
         /\ validate (VStr a) = Ok tt.
Proof.
  intros Honly lines. induction lines as [|answer lines IH]; intros tr.
  - left. reflexivity.
  - cbn [_ask_prompt_loop].
    destruct (Honly (VStr (or_default default answer))) as [Hok|[msg Hbad]].
    + rewrite Hok. right. eauto.
    + rewrite Hbad. apply IH.
Qed.

Lemma ask_prompt_loop_asks_first question validate default lines tr :
  exists evs,
    snd (snd (_ask_prompt_loop question validate default lines tr))
    = tr ++ Ask question :: evs.
Proof.
  revert tr. induction lines as [|answer lines IH]; intros tr.
  - exists []. reflexivity.
  - cbn [_ask_prompt_loop].
    destruct (validate (VStr (or_default default answer))) as [[]|e|];
      try (exists []; reflexivity).
    destruct e; try (exists []; reflexivity).
    destruct (IH ((tr ++ [Ask question]) ++ [Error msg])) as [evs Hevs].
    exists (Error msg :: Ask question :: evs). rewrite Hevs.
    rewrite <- !app_assoc. reflexivity.
Qed.

(** C8.  In [update.main], when a value supplied by a flag fails the
    validator of its prompter, the message of the error goes to the error
    stream and the process exits with status 1, before anything is asked.
    In [_ask_prompt], an answer that fails validation has its error shown
    and the question asked again; the loop ends only with a valid answer
    or with the end of the input. *)
Theorem validation_failure_exits_or_reasks
    validate class_prompt deploy args w
    question interactive default answer lines tr msg :
  (forall name, raises_only_ValueError (validate name)) ->
  raises_only_ValueError interactive ->
  (exists name v m,
      name ∈ Update.required_parameters_to_prompt
      /\ args !! name = Some v /\ v <> VNone
      /\ validate name v = Raise (ValueError m)) ->
  interactive (VStr (or_default default answer)) = Raise (ValueError msg) ->
  (exists name v m code,
      name ∈ Update.required_parameters_to_prompt
      /\ args !! name = Some v
      /\ validate name v = Raise (ValueError m)
      /\ code <> 0%Z
      /\ Update.main validate class_prompt deploy args w
         = (Raise (SystemExit code), log (Stderr m) w))
  /\ _ask_prompt_loop question interactive default (answer :: lines) tr
     = _ask_prompt_loop question interactive default lines
         (tr ++ [Ask question; Error msg])
  /\ (exists evs,
         snd (snd (_ask_prompt_loop question interactive default
                     (answer :: lines) tr))
         = tr ++ [Ask question; Error msg; Ask question] ++ evs)
  /\ (fst (_ask_prompt_loop question interactive default (answer :: lines) tr)
      = Raise EOFError
      \/ exists a,
           fst (_ask_prompt_loop question interactive default
                  (answer :: lines) tr) = Ok a
           /\ interactive (VStr a) = Ok tt).
Proof.
  intros Hflags Hinter Hfailing Hbad.
  assert (Hstep :
    _ask_prompt_loop question interactive default (answer :: lines) tr
    = _ask_prompt_loop question interactive default lines
        (tr ++ [Ask question; Error msg])).
  { cbn [_ask_prompt_loop]. rewrite Hbad. now rewrite <- app_assoc. }
  split; [|split; [exact Hstep|split]].
  - destruct (check_flags_first_failure validate args w
                Update.required_parameters_to_prompt Hflags [] ∅ Hfailing)
      as (name & v & m & Hin & Hv & Hfail & Hrun).
    exists name, v, m, 1%Z.
    split; [exact Hin|]. split; [exact Hv|]. split; [exact Hfail|].
    split; [lia|]. unfold Update.main, bind. now rewrite Hrun.
  - rewrite Hstep.
    destruct (ask_prompt_loop_asks_first question interactive default lines
                (tr ++ [Ask question; Error msg])) as [evs Hevs].
    exists evs. rewrite Hevs. now rewrite <- app_assoc.
  - now apply ask_prompt_loop_result.
Qed.

(** A four-character password on the command line, and a user who first
    answers with a name that is no identifier. *)
Lemma validation_failure_exits_or_reasks_witness :
  (exists name v m code,
      name ∈ Update.required_parameters_to_prompt
      /\ ({[ "database_password" := VStr "abcd" ]} : gmap string Value) !! name
         = Some v
      /\ demo_update_validate name v = Raise (ValueError m)
      /\ code <> 0%Z
      /\ Update.main demo_update_validate (fun _ _ _ => ret VNone)
           (fun _ => ret tt) {[ "database_password" := VStr "abcd" ]}
           (demo_world [] ∅ [] [])
         = (Raise (SystemExit code), log (Stderr m) (demo_world [] ∅ [] [])))
  /\ _ask_prompt_loop "name: " demo_interactive_validate (Some "mysite")
       ("my site" :: ["shop"]) []
     = _ask_prompt_loop "name: " demo_interactive_validate (Some "mysite")
         ["shop"]
         ([] ++ [Ask "name: "; Error "must be a valid Python identifier"])
  /\ (exists evs,
         snd (snd (_ask_prompt_loop "name: " demo_interactive_validate
                     (Some "mysite") ("my site" :: ["shop"]) []))
         = [] ++ [Ask "name: "; Error "must be a valid Python identifier";
                  Ask "name: "] ++ evs)
  /\ (fst (_ask_prompt_loop "name: " demo_interactive_validate (Some "mysite")
             ("my site" :: ["shop"]) [])
      = Raise EOFError
      \/ exists a,
           fst (_ask_prompt_loop "name: " demo_interactive_validate
                  (Some "mysite") ("my site" :: ["shop"]) []) = Ok a
           /\ demo_interactive_validate (VStr a) = Ok tt).
Proof.
  apply (validation_failure_exits_or_reasks demo_update_validate
           (fun _ _ _ => ret VNone) (fun _ => ret tt)
           {[ "database_password" := VStr "abcd" ]} (demo_world [] ∅ [] [])
           "name: " demo_interactive_validate (Some "mysite") "my site"
           ["shop"] [] "must be a valid Python identifier").
  - intros name v. unfold demo_update_validate.
    destruct (bool_decide (name = "database_password")); [|now left].
    destruct v; simpl; try (right; eauto; fail).
    unfold _password_validate. destruct (String.length s <? 5)%nat; [right; eauto|].
    case_bool_decide; [right; eauto | now left].
  - intros v. unfold demo_interactive_validate.
    destruct v; simpl; try (right; eauto; fail).
    destruct (PyStr.isidentifier s); [now left | right; eauto].
  - exists "database_password", (VStr "abcd"),
      "Passwords must be at least 6 characters long".
    split; [set_solver|]. split; [reflexivity|]. split; [discriminate|].
    vm_compute. reflexivity.
  - vm_compute. reflexivity.
Defined.

(** * Further properties *)

(** ** The numeric choice and the yes-or-no answer *)

(** X1.  [_multiple_choice_validate] accepts a blank answer exactly when
    a default is set, and any other answer exactly when it is numeric and
    lies between 1 and [len_options + 1]; what it does not accept it
    rejects with a [ValueError]. *)
Theorem multiple_choice_validate_accepts_iff
    (s : string) (default : option string) (len_options : Z) :
  (_multiple_choice_validate s default len_options = Ok tt
   <-> (s = "" /\ default <> None)
       \/ (PyStr.isnumeric s = true
           /\ (1 <= PyStr.int s <= len_options + 1)%Z))
  /\ (_multiple_choice_validate s default len_options = Ok tt
      \/ exists msg,
           _multiple_choice_validate s default len_options
           = Raise (ValueError msg)).
Proof.
  split.
  - destruct (decide (s = "")) as [->|Hs].
    + rewrite multiple_choice_validate_blank. split.
      * intros H. left. now split.
      * intros [[_ H]|[H _]]; [exact H | discriminate H].
    + rewrite (multiple_choice_validate_nonblank _ _ _ Hs). split.
      * intros H. right. exact H.
      * intros [[H _]|H]; [contradiction | exact H].
  - unfold _multiple_choice_validate.
    destruct (bool_decide (default <> None) && bool_decide (s = "")); [now left|].
    destruct (negb (PyStr.isnumeric s)); [right; eauto|].
    destruct ((1 <=? PyStr.int s)%Z && (PyStr.int s <=? len_options + 1)%Z);
      [now left | right; eauto].
Qed.

Lemma lower_char_is_y (c : ascii) :
  PyStr.lower_char c = "y"%char <-> c = "y"%char \/ c = "Y"%char.
Proof.
  destruct c as [[] [] [] [] [] [] [] []]; vm_compute;
    (split; [intros H; try discriminate H; auto
            |intros [H|H]; try discriminate H; reflexivity]).
Qed.

Lemma lower_char_is_n (c : ascii) :
  PyStr.lower_char c = "n"%char <-> c = "n"%char \/ c = "N"%char.
Proof.
  destruct c as [[] [] [] [] [] [] [] []]; vm_compute;
    (split; [intros H; try discriminate H; auto
            |intros [H|H]; try discriminate H; reflexivity]).
Qed.

(** X2.  [_binary_validate] accepts the four answers [y], [Y], [n] and
    [N], and nothing else. *)
Theorem binary_validate_accepts_iff (s : string) :
  _binary_validate s = Ok tt
  <-> s = "y" \/ s = "Y" \/ s = "n" \/ s = "N".
Proof.
  unfold _binary_validate. case_bool_decide as Hin.
  - split; [intros _|reflexivity].
    apply elem_of_cons in Hin as [Hy|Hin];
      [|apply elem_of_cons in Hin as [Hn|Hin]; [|inversion Hin]].
    + destruct s as [|c [|c' s]]; try discriminate Hy.
      injection Hy as Hy. apply lower_char_is_y in Hy as [->| ->]; auto.
    + destruct s as [|c [|c' s]]; try discriminate Hn.
      injection Hn as Hn. apply lower_char_is_n in Hn as [->| ->]; auto.
  - split; [discriminate|]. intros H. exfalso. apply Hin.
    destruct H as [->|[->|[->| ->]]]; vm_compute; set_solver.
Qed.

(** ** Passwords of ordinary length *)

Lemma list_ascii_length (s : string) :
  length (list_ascii_of_string s) = String.length s.
Proof. induction s as [|c s IH]; simpl; congruence. Qed.

Lemma frozenset_size (s : string) : size (PyStr.frozenset s) <= String.length s.
Proof.
  unfold PyStr.frozenset. rewrite <- list_ascii_length.
  induction (list_ascii_of_string s) as [|c l IH];
    [cbn [list_to_set length]; rewrite size_empty; lia|].
  rewrite list_to_set_cons, size_union_alt, size_singleton. cbn [length].
  assert (Hsub : size (list_to_set l ∖ {[c]} : gset ascii)
                 <= size (list_to_set l : gset ascii))
    by (apply subseteq_size, subseteq_difference_l; reflexivity).
  lia.
Qed.

Lemma allowed_characters_size : size allowed_characters = 94.
Proof. vm_compute. reflexivity. Qed.

(** X3.  [_password_validate] accepts every string of 5 to 93 characters,
    whatever its characters: the rejection for the character set needs all
    94 allowed characters in the string. *)
Theorem password_validate_accepts_ordinary_lengths (p : string) :
  5 <= String.length p < 94 -> _password_validate p = Ok tt.
Proof.
  intros [Hmin Hmax]. unfold _password_validate.
  destruct (String.length p <? 5)%nat eqn:Hlen;
    [apply Nat.ltb_lt in Hlen; lia|].
  case_bool_decide as Hsup; [|reflexivity].
  apply subseteq_size in Hsup. rewrite allowed_characters_size in Hsup.
  pose proof (frozenset_size p). lia.
Qed.

(** A password of spaces only. *)
Lemma password_validate_accepts_ordinary_lengths_witness :
  _password_validate "     " = Ok tt.
Proof.
  apply (password_validate_accepts_ordinary_lengths "     "). simpl. lia.
Defined.

(** ** The project id *)

Lemma substring_app_short (n : nat) (s t : string) :
  n <= String.length s -> substring 0 n (s +:+ t) = substring 0 n s.
Proof.
  revert s. induction n as [|n IH]; intros s Hn.
  - destruct s; simpl; [now destruct t | reflexivity].
  - destruct s as [|c s]; simpl in *; [lia|]. rewrite IH by lia. reflexivity.
Qed.

Lemma substring_length_full (n : nat) (s : string) :
  n <= String.length (substring 0 n s) -> n <= String.length s.
Proof.
  revert s. induction n as [|n IH]; intros s; [lia|].
  destruct s as [|c s]; simpl; [lia|]. intros H. specialize (IH s). lia.
Qed.

(** X4.  [GoogleNewProjectId._validate] looks at the first six characters
    only: an id that it accepts has at least six characters, and stays
    accepted with anything appended, beyond 30 characters too. *)
Theorem new_project_id_validate_prefix_only (s t : string) :
  GoogleNewProjectId_validate s = Ok tt ->
  6 <= String.length s /\ GoogleNewProjectId_validate (s +:+ t) = Ok tt.
Proof.
  unfold GoogleNewProjectId_validate.
  destruct (match_project_id s) eqn:Hs; [intros _|discriminate].
  destruct s as [|c s]; [discriminate Hs|]. cbn [match_project_id] in Hs.
  apply andb_true_iff in Hs as [Hs Hall]. apply andb_true_iff in Hs as [Hc Hlen].
  apply Nat.leb_le in Hlen. unfold PyStr.slice_to in *.
  pose proof (substring_length_full 5 s Hlen) as Hfull.
  split; [simpl; lia|].
  cbn [String.append match_project_id]. unfold PyStr.slice_to.
  change (String c s +:+ t) with (String c (s +:+ t)). cbn [match_project_id].
  unfold PyStr.slice_to. rewrite (substring_app_short 5 s t Hfull).
  rewrite Hc, Hall. apply Nat.leb_le in Hlen. now rewrite Hlen.
Qed.

Lemma new_project_id_validate_prefix_only_witness :
  6 <= String.length "my-app"
  /\ GoogleNewProjectId_validate
       ("my-app" +:+ " is NOT an id, and far longer than thirty characters")
     = Ok tt.
Proof.
  apply (new_project_id_validate_prefix_only "my-app"
           " is NOT an id, and far longer than thirty characters").
  reflexivity.
Defined.

(** ** The default project id and its validator *)

Lemma all_chars_app (p : ascii -> bool) (s t : string) :
  PyStr.all_chars p (s +:+ t) = PyStr.all_chars p s && PyStr.all_chars p t.
Proof.
  induction s as [|c s IH]; [reflexivity|].
  change (String c s +:+ t) with (String c (s +:+ t)).
  cbn [PyStr.all_chars]. now rewrite IH, andb_assoc.
Qed.

Lemma all_chars_impl (p q : ascii -> bool) (s : string) :
  (forall c, p c = true -> q c = true) ->
  PyStr.all_chars p s = true -> PyStr.all_chars q s = true.
Proof.
  intros Hpq. induction s as [|c s IH]; [reflexivity|]. cbn [PyStr.all_chars].
  intros H. apply andb_true_iff in H as [Hc Hs]. now rewrite (Hpq c Hc), IH.
Qed.

Lemma string_of_uint_digits (d : Decimal.uint) :
  PyStr.all_chars PyStr.is_digit (NilEmpty.string_of_uint d) = true.
Proof. induction d; simpl; auto. Qed.

Lemma str_of_Z_digits (r : Z) :
  (0 < r)%Z -> PyStr.all_chars PyStr.is_digit (PyStr.str_of_Z r) = true.
Proof.
  intros Hr. destruct r as [|p|p]; try lia.
  unfold PyStr.str_of_Z. cbn [Z.to_int NilZero.string_of_int]. unfold Pos.to_int.
  unfold NilZero.string_of_uint.
  destruct (Pos.to_uint p) eqn:Hu; try reflexivity;
    rewrite <- Hu; apply string_of_uint_digits.
Qed.

Lemma str_of_Z_drawn_length (r : Z) :
  (100000 <= r <= 1000000)%Z -> 6 <= String.length (PyStr.str_of_Z r).
Proof.
  intros Hr. destruct (decide (r = 1000000%Z)) as [->|Hne]; [simpl; lia|].
  rewrite (str_of_Z_length r 5); [lia|]. simpl. lia.
Qed.

Lemma char_in_lowercase (c : ascii) :
  PyStr.char_in c PyStr.ascii_lowercase = true -> PyStr.is_lower c = true.
Proof.
  destruct c as [[] [] [] [] [] [] [] []]; vm_compute; intros H;
    first [reflexivity | discriminate H].
Qed.

Lemma is_lower_is_id_char (c : ascii) :
  PyStr.is_lower c = true -> is_id_char c = true.
Proof. unfold is_id_char. now intros ->. Qed.

Lemma is_digit_is_id_char (c : ascii) :
  PyStr.is_digit c = true -> is_id_char c = true.
Proof. unfold is_id_char. intros ->. now rewrite orb_true_r. Qed.

(** A lowercase letter followed by at least five id characters passes. *)
Lemma match_project_id_intro (c : ascii) (s : string) :
  PyStr.is_lower c = true ->
  PyStr.all_chars is_id_char s = true ->
  5 <= String.length s ->
  match_project_id (String c s) = true.
Proof.
  intros Hc Hall Hlen. cbn [match_project_id]. rewrite Hc.
  rewrite (all_chars_slice_to _ 5 s Hall), andb_true_r. cbn [andb].
  apply Nat.leb_le. unfold PyStr.slice_to.
  clear Hall. revert Hlen. generalize 5. intros n. revert s.
  induction n as [|n IH]; intros s Hn; [lia|].
  destruct s as [|d s]; simpl in *; [lia|]. specialize (IH s). lia.
Qed.

Lemma filter_chars_app (p : ascii -> bool) (s t : string) :
  PyStr.filter_chars p (s +:+ t) = PyStr.filter_chars p s +:+ PyStr.filter_chars p t.
Proof.
  induction s as [|c s IH]; [reflexivity|].
  change (String c s +:+ t) with (String c (s +:+ t)).
  cbn [PyStr.filter_chars]. rewrite IH. now destruct (p c).
Qed.

(** What is left of a text after filtering, when it starts with a lowercase
    letter, gives a valid id once cut and numbered. *)
Lemma numbered_stem_matches (x : string) (c : ascii) (tl : string) (r : Z) :
  (100000 <= r <= 1000000)%Z ->
  PyStr.filter_chars is_id_char x = String c tl ->
  PyStr.is_lower c = true ->
  match_project_id
    (PyStr.slice_to (30 - 6 - 1) (PyStr.filter_chars is_id_char x)
     +:+ "-" +:+ PyStr.str_of_Z r) = true.
Proof.
  intros Hr Hx Hc.
  pose proof (all_chars_filter is_id_char x) as Hall. rewrite Hx in Hall |- *.
  cbn [PyStr.all_chars] in Hall. apply andb_true_iff in Hall as [_ Htl].
  change (30 - 6 - 1) with 23. unfold PyStr.slice_to at 1. cbn [substring].
  change (String c (substring 0 22 tl) +:+ "-" +:+ PyStr.str_of_Z r)
    with (String c (substring 0 22 tl +:+ "-" +:+ PyStr.str_of_Z r)).
  apply match_project_id_intro; [exact Hc | |].
  - rewrite !all_chars_app.
    pose proof (all_chars_slice_to is_id_char 22 tl Htl) as Hs.
    unfold PyStr.slice_to in Hs. rewrite Hs. cbn [andb].
    change (PyStr.all_chars is_id_char "-") with true. cbn [andb].
    apply (all_chars_impl PyStr.is_digit); [apply is_digit_is_id_char|].
    apply str_of_Z_digits. lia.
  - rewrite !string_length_app. pose proof (str_of_Z_drawn_length r Hr). lia.
Qed.

(** The default id starts with a lowercase letter and goes on with at
    least five characters of the id alphabet. *)
Lemma generate_default_project_id_matches
    (project_name : Value) (r : Z) (s : string) :
  (100000 <= r <= 1000000)%Z ->
  _generate_default_project_id project_name r = Ok s ->
  match_project_id s = true.
Proof.
  intros Hr. unfold _generate_default_project_id.
  destruct (if truthy project_name then project_name else VStr "django")
    as [| |name| |]; cbn [on_str]; try discriminate.
  destruct (PyStr.replace_char " " "-" (PyStr.lower name)) as [|c rest];
    [discriminate|].
  intros H. injection H as <-.
  destruct (PyStr.char_in c PyStr.ascii_lowercase) eqn:Hc; cbn [negb].
  - apply char_in_lowercase in Hc.
    apply (numbered_stem_matches _ c (PyStr.filter_chars is_id_char rest) r Hr);
      [|exact Hc].
    cbn [PyStr.filter_chars]. now rewrite (is_lower_is_id_char c Hc).
  - apply (numbered_stem_matches _ "d"
             ("jango-" +:+ PyStr.filter_chars is_id_char (String c rest)) r Hr);
      [|reflexivity].
    now rewrite filter_chars_app.
Qed.

(** X5.  Whatever the project name and the number drawn, the default id
    that [_generate_default_project_id] builds is accepted by
    [GoogleNewProjectId._validate]: leaving the answer blank never leads
    to a validation error. *)
Theorem generated_default_project_id_is_valid
    (project_name : Value) (r : Z) (s : string) :
  randint_range 100000 1000000 r ->
  _generate_default_project_id project_name r = Ok s ->
  GoogleNewProjectId_validate s = Ok tt.
Proof.
  intros Hr Hs. unfold GoogleNewProjectId_validate.
  now rewrite (generate_default_project_id_matches project_name r s Hr Hs).
Qed.

Lemma generated_default_project_id_is_valid_witness :
  GoogleNewProjectId_validate "my-site-123456" = Ok tt.
Proof.
  apply (generated_default_project_id_is_valid (VStr "My Site") 123456).
  - unfold randint_range. lia.
  - reflexivity.
Defined.

(** ** The project name *)

(** X7.  The validator that [GoogleProjectName._validate] returns accepts
    a name exactly when it has 4 to 30 characters and, if the project must
    exist, the project id is a string under which the project service has
    that very name on record. *)
Theorem project_name_validate_accepts_iff
    (svc : Services) (project_id mode : Value) (s : string) :
  GoogleProjectName_validate svc project_id mode (VStr s) = Ok tt
  <-> 4 <= String.length s <= 30
      /\ (mode <> VMode MUST_EXIST
          \/ exists id, project_id = VStr id /\ get_project svc id = Some s).
Proof.
  unfold GoogleProjectName_validate, _is_new_project, get_project_name.
  cbn [on_str].
  destruct (Nat.leb_spec 4 (String.length s)) as [Hlo|Hlo]; cbn [andb negb];
    [|split; [discriminate | intros [? _]; lia]].
  destruct (Nat.leb_spec (String.length s) 30) as [Hhi|Hhi]; cbn [andb negb];
    [|split; [discriminate | intros [? _]; lia]].
  case_bool_decide as Hmode.
  { split; [intros _; split; [lia | now left] | reflexivity]. }
  case_bool_decide as Hnone.
  { split; [discriminate|]. intros [_ [Hm|(id & Hid & _)]]; congruence. }
  destruct project_id as [| |id| |]; cbn [on_str];
    try (split; [discriminate|];
         intros [_ [Hm|(id & Hid & _)]]; congruence).
  destruct (get_project svc id) as [project_name|] eqn:Hname.
  - case_bool_decide as Hneq.
    + split; [discriminate|].
      intros [_ [Hm|(id' & Hid & Hget)]]; [congruence|].
      injection Hid as <-. congruence.
    + subst project_name.
      split; [intros _; split; [lia|]; right; eauto | reflexivity].
  - split; [discriminate|].
    intros [_ [Hm|(id' & Hid & Hget)]]; [congruence|].
    injection Hid as <-. congruence.
Qed.

(** ** The e-mail address *)

Lemma span_not_at_spec (s : string) :
  s = fst (span_not_at s) +:+ snd (span_not_at s)
  /\ PyStr.all_chars not_at (fst (span_not_at s)) = true
  /\ match snd (span_not_at s) with
     | String c _ => c = "@"%char
     | EmptyString => True
     end.
Proof.
  induction s as [|c s (IH1 & IH2 & IH3)]; [now repeat split|].
  cbn [span_not_at]. destruct (not_at c) eqn:Hc.
  - destruct (span_not_at s) as [a b]. cbn [fst snd] in *.
    split; [change (String c a +:+ b) with (String c (a +:+ b)); congruence|].
    split; [cbn [PyStr.all_chars]; now rewrite Hc|].
    exact IH3.
  - cbn [fst snd]. repeat split. unfold not_at in Hc.
    apply negb_false_iff, Ascii.eqb_eq in Hc. exact Hc.
Qed.

(** The run before the first [@] of a text that starts with [a], where
    [a] holds no [@] and the text goes on with an [@] or ends. *)
Lemma span_not_at_app (a rest : string) :
  PyStr.all_chars not_at a = true ->
  match rest with String c _ => c = "@"%char | EmptyString => True end ->
  span_not_at (a +:+ rest) = (a, rest).
Proof.
  intros Ha Hrest. induction a as [|c a IH].
  - destruct rest as [|c rest]; [reflexivity|]. subst c. reflexivity.
  - cbn [PyStr.all_chars] in Ha. apply andb_true_iff in Ha as [Hc Ha].
    change (String c a +:+ rest) with (String c (a +:+ rest)).
    cbn [span_not_at]. now rewrite Hc, (IH Ha).
Qed.

Lemma span_not_at_prefix (a rest : string) :
  PyStr.all_chars not_at a = true ->
  exists more, fst (span_not_at (a +:+ rest)) = a +:+ more.
Proof.
  intros Ha. induction a as [|c a IH].
  - eexists. reflexivity.
  - cbn [PyStr.all_chars] in Ha. apply andb_true_iff in Ha as [Hc Ha].
    change (String c a +:+ rest) with (String c (a +:+ rest)).
    cbn [span_not_at]. rewrite Hc. destruct (IH Ha) as [more Hmore].
    destruct (span_not_at (a +:+ rest)) as [x y]. cbn [fst] in *.
    exists more. now rewrite Hmore.
Qed.

Lemma has_inner_dot_spec (seen : bool) (s : string) :
  has_inner_dot seen s = true
  <-> exists b c, s = b +:+ "." +:+ c /\ c <> ""
                  /\ (seen = true \/ b <> "").
Proof.
  revert seen. induction s as [|x s IH]; intros seen.
  - split; [discriminate|]. intros (b & c & Hs & _).
    destruct b; discriminate Hs.
  - cbn [has_inner_dot]. rewrite orb_true_iff, IH, !andb_true_iff. split.
    + intros [[[Hseen Hx] Hs]|(b & c & -> & Hc & _)].
      * apply Ascii.eqb_eq in Hx as ->. exists "", s.
        split; [reflexivity|]. split; [now destruct s | now left].
      * exists (String x b), c. split; [reflexivity|]. split; [exact Hc|].
        now right.
    + intros (b & c & Hs & Hc & Hb). destruct b as [|y b].
      * left. injection Hs as -> ->. destruct Hb as [->|Hb]; [|now contradiction Hb].
        repeat split. now destruct c.
      * right. injection Hs as -> ->. exists b, c. split; [reflexivity|].
        split; [exact Hc | now left].
Qed.

Lemma string_append_assoc (a b c : string) : (a +:+ b) +:+ c = a +:+ b +:+ c.
Proof.
  induction a as [|x a IH]; [reflexivity|].
  change (String x ((a +:+ b) +:+ c) = String x (a +:+ b +:+ c)). now rewrite IH.
Qed.

(** X8.  [DjangoSuperuserEmailPrompt._validate] accepts exactly the
    strings that the expression [[^@]+@[^@]+\.[^@]+] matches at their
    start: a non-empty part without [@], an [@], and then, without a
    further [@], a non-empty part, a dot and a non-empty part; what
    follows is not looked at. *)
Theorem email_validate_accepts_iff (svc : Services) (s : string) :
  _validate svc DjangoSuperuserEmailPrompt (VStr s) = Ok tt
  <-> exists a b c rest,
        s = a +:+ "@" +:+ b +:+ "." +:+ c +:+ rest
        /\ a <> "" /\ b <> "" /\ c <> ""
        /\ PyStr.all_chars not_at a = true
        /\ PyStr.all_chars not_at b = true
        /\ PyStr.all_chars not_at c = true.
Proof.
  cbn [_validate on_str].
  assert (Hiff : match_email s = true
    <-> exists a b c rest,
          s = a +:+ "@" +:+ b +:+ "." +:+ c +:+ rest
          /\ a <> "" /\ b <> "" /\ c <> ""
          /\ PyStr.all_chars not_at a = true
          /\ PyStr.all_chars not_at b = true
          /\ PyStr.all_chars not_at c = true).
  { unfold match_email. split.
    - destruct (span_not_at_spec s) as (Hs & Hlocal & Hat).
      destruct (span_not_at s) as [local_part rest0]. cbn [fst snd] in *.
      intros H. apply andb_true_iff in H as [Hne Hdot].
      destruct rest0 as [|x after_at]; [discriminate|]. subst x.
      destruct (span_not_at_spec after_at) as (Hafter & Hdom & _).
      destruct (span_not_at after_at) as [dom rest]. cbn [fst snd] in *.
      apply has_inner_dot_spec in Hdot as (b & c & -> & Hc & [Hf|Hb]);
        [discriminate|].
      rewrite !all_chars_app in Hdom.
      apply andb_true_iff in Hdom as [Hb' Hdom].
      apply andb_true_iff in Hdom as [_ Hc'].
      exists local_part, b, c, rest. split.
      + rewrite Hs at 1. rewrite Hafter, !string_append_assoc. reflexivity.
      + repeat split; auto. now destruct local_part.
    - intros (a & b & c & rest & -> & Ha & Hb & Hc & Ha' & Hb' & Hc').
      rewrite (span_not_at_app a); [|exact Ha' | reflexivity].
      destruct a as [|x a]; [now contradiction Ha|]. cbn [PyStr.nonempty andb].
      change ("@" +:+ b +:+ "." +:+ c +:+ rest)
        with (String "@" (b +:+ "." +:+ c +:+ rest)). cbv iota.
      destruct (span_not_at_prefix (b +:+ "." +:+ c) rest) as [more Hmore].
      { rewrite !all_chars_app, Hb', Hc'. reflexivity. }
      rewrite !string_append_assoc in Hmore. rewrite Hmore.
      apply has_inner_dot_spec. exists b, (c +:+ more).
      split; [reflexivity|]. split; [|now right].
      destruct c; [now contradiction Hc | discriminate]. }
  destruct (match_email s) eqn:Hm; cbn [negb].
  - split; [intros _; now apply Hiff | reflexivity].
  - split; [discriminate|]. intros H. apply Hiff in H. discriminate.
Qed.

(** ** The prompt loops: which answer they return *)

Lemma error_of_turned_down {A} (validate : A -> Result unit) (a : A) msg :
  validate a = Raise (ValueError msg) -> error_of validate a = msg.
Proof. unfold error_of. now intros ->. Qed.

Lemma ask_prompt_loop_Ok question validate default lines tr a ins tr' :
  _ask_prompt_loop question validate default lines tr = (Ok a, (ins, tr'))
  <-> exists rejected line,
        lines = rejected ++ line :: ins
        /\ a = or_default default line
        /\ validate (VStr a) = Ok tt
        /\ Forall (fun l => turned_down validate (VStr (or_default default l)))
             rejected
        /\ tr' = tr ++ flat_map
                   (fun l => [Ask question;
                              Error (error_of validate (VStr (or_default default l)))])
                   rejected ++ [Ask question].
Proof.
  split.
  - revert tr. induction lines as [|answer lines IH]; intros tr;
      cbn [_ask_prompt_loop]; [discriminate|].
    destruct (validate (VStr (or_default default answer))) as [[]|e|] eqn:Hv;
      [| |discriminate].
    + intros H. inversion H. subst. exists [], answer.
      repeat split; auto.
    + destruct e; try discriminate.
      intros H. apply IH in H as (rejected & line & -> & -> & Hok & Hrej & ->).
      exists (answer :: rejected), line. split; [reflexivity|].
      split; [reflexivity|]. split; [exact Hok|]. split.
      * constructor; [exists msg; exact Hv | exact Hrej].
      * cbn [flat_map]. rewrite (error_of_turned_down _ _ _ Hv).
        rewrite <- !app_assoc. reflexivity.
  - intros (rejected & line & -> & -> & Hok & Hrej & ->).
    revert tr. induction Hrej as [|answer rejected [msg Hv] _ IH]; intros tr.
    + cbn [app _ask_prompt_loop flat_map]. now rewrite Hok.
    + cbn [app _ask_prompt_loop flat_map]. rewrite Hv, IH.
      rewrite (error_of_turned_down _ _ _ Hv), <- !app_assoc. reflexivity.
Qed.

(** X9.  [_ask_prompt] returns an answer exactly when the input holds a
    line that passes the validator, blank lines standing for the default;
    it returns the first such line, has read nothing beyond it, and has
    shown the question once per line read and, after each line turned
    down, the text of its error. *)
Theorem ask_prompt_returns_first_valid_line
    question validate default (w w' : World) a :
  _ask_prompt question (Some validate) default w = (Ok a, w')
  <-> exists rejected line ins,
        stdin w = rejected ++ line :: ins
        /\ a = or_default default line
        /\ validate (VStr a) = Ok tt
        /\ Forall (fun l => turned_down validate (VStr (or_default default l)))
             rejected
        /\ w' = set_console ins
                  (trace w ++ flat_map
                     (fun l => [Ask question;
                                Error (error_of validate
                                         (VStr (or_default default l)))])
                     rejected ++ [Ask question]) w.
Proof.
  unfold _ask_prompt, on_console. cbn [from_option id].
  destruct (_ask_prompt_loop question validate default (stdin w) (trace w))
    as [r [ins tr']] eqn:Hloop.
  split.
  - intros H. inversion H. subst r w'.
    apply ask_prompt_loop_Ok in Hloop as (rejected & line & Hin & Ha & Hok & Hrej & ->).
    exists rejected, line, ins. auto.
  - intros (rejected & line & ins' & Hin & Ha & Hok & Hrej & ->).
    assert (Hrun : _ask_prompt_loop question validate default (stdin w) (trace w)
                   = (Ok a, (ins', trace w ++ flat_map
                        (fun l => [Ask question;
                                   Error (error_of validate
                                            (VStr (or_default default l)))])
                        rejected ++ [Ask question])))
      by (apply ask_prompt_loop_Ok; exists rejected, line; auto).
    rewrite Hrun in Hloop. inversion Hloop. reflexivity.
Qed.

Lemma multiple_choice_loop_Ok question default n answer lines tr a ins tr' :
  _multiple_choice_loop question default n answer lines tr = (Ok a, (ins, tr'))
  <-> exists rejected,
        answer :: lines = rejected ++ a :: ins
        /\ _multiple_choice_validate a default n = Ok tt
        /\ Forall (turned_down (fun l => _multiple_choice_validate l default n))
             rejected
        /\ tr' = tr ++ flat_map
                   (fun l => [Error (error_of
                                       (fun l => _multiple_choice_validate l default n) l);
                              Ask question])
                   rejected.
Proof.
  split.
  - revert answer tr. induction lines as [|next lines IH]; intros answer tr;
      cbn [_multiple_choice_loop];
      (destruct (_multiple_choice_validate answer default n) as [[]|e|] eqn:Hv;
       [| |discriminate]).
    + intros H. inversion H. subst. exists []. rewrite app_nil_r. auto.
    + destruct e; discriminate.
    + intros H. inversion H. subst. exists []. rewrite app_nil_r. auto.
    + destruct e; try discriminate.
      intros H. apply IH in H as (rejected & Hin & Hok & Hrej & ->).
      exists (answer :: rejected). split; [cbn [app]; now rewrite Hin|].
      split; [exact Hok|]. split.
      * constructor; [exists msg; exact Hv | exact Hrej].
      * cbn [flat_map].
        rewrite (error_of_turned_down
                   (fun l => _multiple_choice_validate l default n) _ _ Hv).
        rewrite <- !app_assoc. reflexivity.
  - intros (rejected & Hin & Hok & Hrej & ->).
    revert answer lines tr Hin.
    induction Hrej as [|l rejected [msg Hv] _ IH]; intros answer lines tr Hin.
    + cbn [app] in Hin. inversion Hin. subst.
      cbn [flat_map]. rewrite app_nil_r.
      destruct ins; cbn [_multiple_choice_loop]; now rewrite Hok.
    + cbn [app] in Hin. injection Hin as -> Hlines.
      destruct lines as [|next lines]; [now destruct rejected|].
      cbn [_multiple_choice_loop]. cbv beta in Hv. rewrite Hv.
      rewrite (IH next lines _ Hlines). cbn [flat_map].
      rewrite (error_of_turned_down
                 (fun l => _multiple_choice_validate l default n) _ _ Hv).
      rewrite <- !app_assoc. reflexivity.
Qed.

(** X10.  [_multiple_choice_prompt] returns an answer exactly when the
    input holds a line that [_multiple_choice_validate] accepts for the
    length of the rendered options; it returns the first such line.  The
    options are shown in the first question only: after a line turned down
    the user sees the error and the question with its placeholder left
    as it is. *)
Theorem multiple_choice_prompt_returns_first_valid_line
    question options default (w w' : World) a :
  let n := Z.of_nat (String.length (rendered_options options)) in
  let validate := fun l => _multiple_choice_validate l default n in
  _multiple_choice_prompt question options default w = (Ok a, w')
  <-> exists rejected ins,
        stdin w = rejected ++ a :: ins
        /\ validate a = Ok tt
        /\ Forall (turned_down validate) rejected
        /\ w' = set_console ins
                  (trace w ++ Ask (format1 question (rendered_options options))
                   :: flat_map
                        (fun l => [Error (error_of validate l);
                                   Ask (unformatted question)])
                        rejected) w.
Proof.
  intros n validate. unfold _multiple_choice_prompt, bind, console_ask, read_line.
  fold (rendered_options options). fold n.
  destruct (stdin w) as [|answer lines] eqn:Hin.
  { split; [discriminate|]. intros (rejected & ins & Hin' & _).
    now destruct rejected. }
  unfold on_console. cbn [stdin trace set_console].
  destruct (_multiple_choice_loop (unformatted question) default n answer lines
              (trace w ++ [Ask (format1 question (rendered_options options))]))
    as [r [ins tr']] eqn:Hloop.
  split.
  - intros H. inversion H. subst r w'.
    apply multiple_choice_loop_Ok in Hloop as (rejected & Hlines & Hok & Hrej & ->).
    exists rejected, ins. split; [exact Hlines|]. split; [exact Hok|].
    split; [exact Hrej|]. rewrite <- app_assoc. reflexivity.
  - intros (rejected & ins' & Hlines & Hok & Hrej & ->).
    assert (Hrun : _multiple_choice_loop (unformatted question) default n answer lines
                     (trace w ++ [Ask (format1 question (rendered_options options))])
                   = (Ok a, (ins', (trace w ++ [Ask (format1 question (rendered_options options))])
                        ++ flat_map (fun l => [Error (error_of validate l);
                                               Ask (unformatted question)]) rejected)))
      by (apply multiple_choice_loop_Ok; exists rejected; auto).
    rewrite Hrun in Hloop. inversion Hloop. subst.
    rewrite <- app_assoc. reflexivity.
Qed.

(** X11.  [_binary_prompt] never validates what the user types: a line
    that is not blank is returned as it is, whatever it says, after one
    question; a blank line gives the default, which alone is validated. *)
Theorem binary_prompt_returns_answer_unchecked
    question default (w : World) a rest :
  stdin w = a :: rest ->
  (a = "" -> forall d, default = Some d -> d <> "" -> _binary_validate d = Ok tt) ->
  _binary_prompt question default w
  = (Ok (or_default default a), set_console rest (trace w ++ [Ask question]) w).
Proof.
  intros Hin Hdefault. unfold _binary_prompt, on_console. rewrite Hin.
  cbn [_binary_prompt_loop]. unfold or_default.
  destruct default as [d|]; [|reflexivity].
  destruct (PyStr.nonempty d && bool_decide (a = "")) eqn:Hblank; [|reflexivity].
  apply andb_true_iff in Hblank as [Hd Ha]. apply bool_decide_eq_true in Ha.
  rewrite (Hdefault Ha d eq_refl); [reflexivity|]. now destruct d.
Qed.

Lemma binary_prompt_returns_answer_unchecked_witness :
  _binary_validate "maybe" <> Ok tt
  /\ _binary_prompt "Continue? [Y/n]: " (Some "Y") (demo_world ["maybe"] ∅ [] [])
     = (Ok (or_default (Some "Y") "maybe"),
        set_console [] (trace (demo_world ["maybe"] ∅ [] [])
                        ++ [Ask "Continue? [Y/n]: "])
          (demo_world ["maybe"] ∅ [] [])).
Proof.
  split; [vm_compute; discriminate|].
  apply (binary_prompt_returns_answer_unchecked "Continue? [Y/n]: " (Some "Y")
           (demo_world ["maybe"] ∅ [] []) "maybe" []).
  - reflexivity.
  - discriminate.
Defined.

Lemma password_prompt_loop_Ok lines :
  forall tr p ins tr',
    _password_prompt_loop lines tr = (Ok p, (ins, tr')) ->
    exists before,
      lines = before ++ p :: p :: ins
      /\ failed_attempts before
      /\ _password_validate p = Ok tt.
Proof.
  induction lines as [lines IH] using (induction_ltof1 _ (@length string)).
  unfold ltof in IH.
  intros tr p ins tr'. destruct lines as [|password1 lines1];
    cbn [_password_prompt_loop]; [discriminate|].
  destruct (_password_validate password1) as [[]|e|] eqn:Hv; [| |discriminate].
  - destruct lines1 as [|password2 lines2]; [discriminate|].
    case_bool_decide as Hneq.
    + intros H. apply IH in H as (before & -> & Hbefore & Hok); [|simpl; lia].
      exists (password1 :: password2 :: before). split; [reflexivity|].
      split; [now apply mismatch | exact Hok].
    + intros H. inversion H. subst.
      exists []. split; [reflexivity|]. split; [constructor | exact Hv].
  - destruct e; try discriminate.
    intros H. apply IH in H as (before & -> & Hbefore & Hok); [|simpl; lia].
    exists (password1 :: before). split; [reflexivity|].
    split; [|exact Hok]. apply invalid_password; [exists msg; exact Hv | exact Hbefore].
Qed.

Lemma password_prompt_loop_after_failures before p ins :
  failed_attempts before ->
  _password_validate p = Ok tt ->
  forall tr, exists tr',
    _password_prompt_loop (before ++ p :: p :: ins) tr = (Ok p, (ins, tr')).
Proof.
  intros Hbefore Hok.
  induction Hbefore as [|password1 lines [msg Hv] _ IH
                        |password1 password2 lines Hv Hneq _ IH]; intros tr.
  - cbn [app _password_prompt_loop]. rewrite Hok.
    rewrite bool_decide_eq_false_2 by (intros Hne; now apply Hne). eauto.
  - cbn [app _password_prompt_loop]. rewrite Hv. apply IH.
  - cbn [app _password_prompt_loop]. rewrite Hv.
    rewrite bool_decide_eq_true_2 by exact Hneq. apply IH.
Qed.

(** X12.  [_password_prompt] returns a password exactly when, after any
    number of failed attempts, the user types a valid password twice in
    a row; it returns that password and has read nothing beyond its
    second copy. *)
Theorem password_prompt_returns_confirmed_password
    question (w : World) p ins :
  (exists w', _password_prompt question w = (Ok p, w') /\ stdin w' = ins)
  <-> exists before,
        stdin w = before ++ p :: p :: ins
        /\ failed_attempts before
        /\ _password_validate p = Ok tt.
Proof.
  unfold _password_prompt, bind, console_tell, emit, on_console.
  cbn [log stdin trace set_console].
  destruct (_password_prompt_loop (stdin w) (trace w ++ [Tell question]))
    as [r [ins' tr']] eqn:Hloop.
  split.
  - intros (w' & H & Hins). inversion H. subst r w'. cbn [stdin set_console] in Hins.
    subst ins'. now apply password_prompt_loop_Ok in Hloop.
  - intros (before & Hin & Hbefore & Hok).
    destruct (password_prompt_loop_after_failures before p ins Hbefore Hok
                (trace w ++ [Tell question])) as [tr'' Hrun].
    rewrite <- Hin, Hloop in Hrun. inversion Hrun. subst.
    eexists. split; reflexivity.
Qed.

(** ** The prompters, one answer at a time *)

Lemma is_valid_passed_arg_falls_through svc p step passed validate w :
  passed = VNone \/ turned_down validate passed ->
  _is_valid_passed_arg svc p step passed validate w
  = (Ok false,
     set_console (stdin w) (trace w ++ passed_value_report validate passed) w).
Proof.
  unfold _is_valid_passed_arg, passed_value_report.
  intros [->|[msg Hbad]].
  - rewrite bool_decide_eq_true_2 by reflexivity. rewrite app_nil_r.
    destruct w; reflexivity.
  - case_bool_decide as Hnone.
    + rewrite app_nil_r. destruct w; reflexivity.
    + rewrite Hbad, (error_of_turned_down _ _ _ Hbad). reflexivity.
Qed.

(** X14.  A prompter derived from [StringTemplatePrompt], when no value
    was passed for its key or the value passed is turned down: it reports
    the value turned down, asks once with the class default in brackets,
    and records the first line if it is valid, the class default for a
    blank line; the class default itself always passes the validator of
    its class. *)
Theorem string_prompt_records_first_answer
    svc p step args (w : World) m a rest :
  p ∈ string_template_classes ->
  heap w !! args = Some m ->
  default VNone (m !! PARAMETER p) = VNone
  \/ turned_down (_validate svc p) (default VNone (m !! PARAMETER p)) ->
  stdin w = a :: rest ->
  _validate svc p (VStr (or_default (Some (DEFAULT_VALUE p)) a)) = Ok tt ->
  _validate svc p (VStr (DEFAULT_VALUE p)) = Ok tt
  /\ or_default (Some (DEFAULT_VALUE p)) "" = DEFAULT_VALUE p
  /\ exists w',
       prompt svc p step args w = (Ok (length (heap w)), w')
       /\ heap w'
          = heap w ++ [<[PARAMETER p := VStr (or_default (Some (DEFAULT_VALUE p)) a)]> m]
       /\ stdin w' = rest
       /\ trace w'
          = trace w
            ++ passed_value_report (_validate svc p) (default VNone (m !! PARAMETER p))
            ++ [Ask (step +:+ " Enter a value for " +:+ PARAMETER_PRETTY p
                     +:+ " or leave blank to use" +:+ PyStr.newline
                     +:+ "[" +:+ DEFAULT_VALUE p +:+ "]: ")].
Proof.
  intros Hp Hargs Hpassed Hin Hok.
  assert (Hprompt : prompt svc p step args = StringTemplatePrompt_prompt svc p step args).
  { unfold string_template_classes in Hp.
    repeat (apply elem_of_cons in Hp as [->|Hp]; [reflexivity|]). inversion Hp. }
  split; [|split].
  - unfold string_template_classes in Hp.
    repeat (apply elem_of_cons in Hp as [->|Hp]; [vm_compute; reflexivity|]).
    inversion Hp.
  - unfold string_template_classes in Hp.
    repeat (apply elem_of_cons in Hp as [->|Hp]; [vm_compute; reflexivity|]).
    inversion Hp.
  - rewrite Hprompt. unfold StringTemplatePrompt_prompt.
    unfold bind at 1, deepcopy. unfold bind at 1, dict_get.
    rewrite (heap_read_copy _ _ _ Hargs). unfold bind at 1.
    rewrite (is_valid_passed_arg_falls_through _ _ _ _ _ _ Hpassed).
    unfold bind at 1, _ask_prompt, on_console.
    cbn [stdin trace set_console set_heap from_option id]. rewrite Hin.
    cbn [_ask_prompt_loop]. rewrite Hok.
    unfold bind, dict_setitem, ret.
    eexists. split; [reflexivity|].
    cbn [heap trace stdin set_heap set_console].
    unfold heap_read. cbn [heap set_heap set_console].
    rewrite heap_read_new_cell, insert_new_cell, Hargs.
    split; [reflexivity|]. split; [reflexivity|].
    cbn [PyStr.join]. rewrite <- app_assoc, !string_append_assoc. reflexivity.
Qed.

Lemma string_prompt_records_first_answer_witness :
  _validate demo_services DjangoAppNamePrompt (VStr (DEFAULT_VALUE DjangoAppNamePrompt))
  = Ok tt
  /\ or_default (Some (DEFAULT_VALUE DjangoAppNamePrompt)) ""
     = DEFAULT_VALUE DjangoAppNamePrompt
  /\ exists w',
       prompt demo_services DjangoAppNamePrompt "<b>[8/11]</b>" 0
         (demo_world [""; "next"] {[ "django_app_name" := VStr "my app" ]} [] [])
       = (Ok 1, w')
       /\ heap w'
          = [ {[ "django_app_name" := VStr "my app" ]} ]
            ++ [<["django_app_name" := VStr "home"]>
                  {[ "django_app_name" := VStr "my app" ]}]
       /\ stdin w' = ["next"]
       /\ trace w'
          = []
            ++ passed_value_report (_validate demo_services DjangoAppNamePrompt)
                 (default VNone
                    (({[ "django_app_name" := VStr "my app" ]} : gmap string Value)
                       !! PARAMETER DjangoAppNamePrompt))
            ++ [Ask ("<b>[8/11]</b>" +:+ " Enter a value for "
                     +:+ PARAMETER_PRETTY DjangoAppNamePrompt
                     +:+ " or leave blank to use" +:+ PyStr.newline
                     +:+ "[" +:+ DEFAULT_VALUE DjangoAppNamePrompt +:+ "]: ")].
Proof.
  apply (string_prompt_records_first_answer demo_services DjangoAppNamePrompt
           "<b>[8/11]</b>" 0
           (demo_world [""; "next"] {[ "django_app_name" := VStr "my app" ]} [] [])
           {[ "django_app_name" := VStr "my app" ]} "" ["next"]).
  - unfold string_template_classes. set_solver.
  - reflexivity.
  - right. eexists. vm_compute. reflexivity.
  - reflexivity.
  - vm_compute. reflexivity.
Defined.

(** Running a prompter on a mapping [m] of the store: the reads of the
    copy and of the caller's mapping, and the facts at hand, by rewriting. *)
Ltac run_prompt Hargs facts :=
  repeat first
    [ rewrite heap_read_set_heap
    | rewrite heap_read_set_console
    | rewrite (heap_read_old_cell _ _ _ _ Hargs)
    | rewrite (heap_read_lookup _ _ _ Hargs)
    | facts
    | progress cbn [default from_option id on_str negb PARAMETER
                    stdin trace heap billing_now billing_later
                    set_heap set_console set_billing log]
    | progress cbv beta iota zeta ].

(** X15.  [GoogleProjectName.prompt] for a project that must exist, when
    no name was passed or the name passed is turned down: the name that
    the project service has on record for the project id is shown and
    recorded as it is; nothing is asked, and the name is not validated. *)
Theorem project_name_prompt_takes_name_on_record
    svc step args (w : World) m id project_name :
  heap w !! args = Some m ->
  m !! "project_creation_mode" = Some (VMode MUST_EXIST) ->
  m !! "project_id" = Some (VStr id) ->
  get_project svc id = Some project_name ->
  default VNone (m !! "project_name") = VNone
  \/ turned_down (GoogleProjectName_validate svc (VStr id) (VMode MUST_EXIST))
       (default VNone (m !! "project_name")) ->
  exists w',
    prompt svc GoogleProjectName step args w = (Ok (length (heap w)), w')
    /\ heap w' = heap w ++ [<["project_name" := VStr project_name]> m]
    /\ stdin w' = stdin w
    /\ trace w'
       = trace w
         ++ passed_value_report
              (GoogleProjectName_validate svc (VStr id) (VMode MUST_EXIST))
              (default VNone (m !! "project_name"))
         ++ [Tell (step +:+ " project_name: " +:+ project_name)].
Proof.
  intros Hargs Hmode Hid Hname Hpassed.
  cbn [prompt].
  unfold GoogleProjectName_prompt, GoogleProjectName_handle_existing_project,
    _is_new_project, get_project_name, bind, deepcopy, dict_get, dict_contains,
    dict_getitem, dict_setitem, lift, ret, raise, console_tell, emit.
  run_prompt Hargs
    ltac:(first [ rewrite Hid | rewrite Hmode | rewrite Hname
                | rewrite (is_valid_passed_arg_falls_through _ _ _ _ _ _ Hpassed)
                | rewrite bool_decide_eq_false_2 by (intros Hne; now apply Hne)
                | rewrite bool_decide_eq_true_2 by eauto ]).
  eexists. split; [reflexivity|].
  cbn [heap trace stdin set_heap set_console log].
  unfold heap_read. cbn [heap set_heap set_console log].
  rewrite heap_read_new_cell, insert_new_cell.
  split; [reflexivity|]. split; [reflexivity|].
  rewrite <- app_assoc. reflexivity.
Qed.

Lemma project_name_prompt_takes_name_on_record_witness :
  let svc :=
    {| get_project := fun id =>
         if bool_decide (id = "my-project") then Some "Hi" else None;
       project_exists := project_exists demo_services;
       get_billing_account := get_billing_account demo_services;
       get_active_account := get_active_account demo_services;
       create_default_credentials := create_default_credentials demo_services;
       get_default_credentials := get_default_credentials demo_services;
       str_of_credentials := str_of_credentials demo_services;
       path_exists := path_exists demo_services;
       expanduser_home := expanduser_home demo_services;
       randint_100000_1000000 := randint_100000_1000000 demo_services;
       set_order := set_order demo_services |} in
  let m : gmap string Value :=
    <["project_id" := VStr "my-project"]>
      {[ "project_creation_mode" := VMode MUST_EXIST ]} in
  let w := demo_world ["typed"] m [] [] in
  exists w',
    prompt svc GoogleProjectName "<b>[3/11]</b>" 0 w = (Ok (length (heap w)), w')
    /\ heap w' = heap w ++ [<["project_name" := VStr "Hi"]> m]
    /\ stdin w' = stdin w
    /\ trace w'
       = trace w
         ++ passed_value_report
              (GoogleProjectName_validate svc (VStr "my-project") (VMode MUST_EXIST))
              (default VNone (m !! "project_name"))
         ++ [Tell ("<b>[3/11]</b>" +:+ " project_name: " +:+ "Hi")].
Proof.
  intros svc m w.
  apply (project_name_prompt_takes_name_on_record svc "<b>[3/11]</b>" 0 w m
           "my-project" "Hi").
  - reflexivity.
  - vm_compute. reflexivity.
  - vm_compute. reflexivity.
  - vm_compute. reflexivity.
  - left. vm_compute. reflexivity.
Defined.

(** X16.  When the project must exist and the mapping holds no
    [project_id], [GoogleProjectName.prompt] and [BillingPrompt.prompt]
    fail their assertion before anything is shown or asked (no value
    being passed for their own key). *)
Theorem prompt_for_existing_project_needs_project_id
    svc p step args (w : World) m :
  p = GoogleProjectName \/ p = BillingPrompt ->
  heap w !! args = Some m ->
  default VNone (m !! PARAMETER p) = VNone ->
  m !! "project_creation_mode" = Some (VMode MUST_EXIST) ->
  m !! "project_id" = None ->
  prompt svc p step args w
  = (Raise (AssertionError "project_id must be set"),
     set_heap (heap w ++ [m]) w).
Proof.
  intros Hp Hargs Hpassed Hmode Hid.
  assert (Hw : forall h, set_console (stdin w) (trace w ++ []) (set_heap h w)
                         = set_heap h w)
    by (intros h; rewrite app_nil_r; destruct w; reflexivity).
  assert (Hreport : forall validate,
            passed_value_report validate (default VNone (m !! PARAMETER p)) = [])
    by (intros validate; unfold passed_value_report; now rewrite Hpassed).
  destruct Hp as [-> | ->]; cbn [prompt PARAMETER] in *;
    unfold GoogleProjectName_prompt, GoogleProjectName_handle_existing_project,
      BillingPrompt_prompt, BillingPrompt_has_existing_billing_account,
      _is_new_project, _does_project_exist, bind, deepcopy, dict_get,
      dict_contains, raise;
    run_prompt Hargs
      ltac:(first [ rewrite Hid | rewrite Hmode | rewrite Hreport | rewrite Hw
                  | rewrite (is_valid_passed_arg_falls_through _ _ _ _ _ _
                               (or_introl Hpassed))
                  | rewrite bool_decide_eq_false_2 by (intros Hne; now apply Hne)
                  | rewrite bool_decide_eq_true_2 by reflexivity
                  | rewrite bool_decide_eq_false_2 by (intros [? ?]; discriminate) ]);
    reflexivity.
Qed.

Lemma prompt_for_existing_project_needs_project_id_witness :
  prompt demo_services BillingPrompt "<b>[4/11]</b>" 0
    (demo_world ["1"] {[ "project_creation_mode" := VMode MUST_EXIST ]}
       [account_a] [])
  = (Raise (AssertionError "project_id must be set"),
     set_heap
       (heap (demo_world ["1"] {[ "project_creation_mode" := VMode MUST_EXIST ]}
                [account_a] [])
        ++ [ {[ "project_creation_mode" := VMode MUST_EXIST ]} ])
       (demo_world ["1"] {[ "project_creation_mode" := VMode MUST_EXIST ]}
          [account_a] [])).
Proof.
  apply (prompt_for_existing_project_needs_project_id demo_services BillingPrompt
           "<b>[4/11]</b>" 0
           (demo_world ["1"] {[ "project_creation_mode" := VMode MUST_EXIST ]}
              [account_a] [])
           {[ "project_creation_mode" := VMode MUST_EXIST ]}).
  - now right.
  - reflexivity.
  - vm_compute. reflexivity.
  - vm_compute. reflexivity.
  - vm_compute. reflexivity.
Defined.

(** X17.  [DjangoSuperuserPasswordPrompt.prompt] reads the login from the
    mapping with [args['django_superuser_login']]: when it has to ask for
    the password and the mapping holds no login, it raises [KeyError]
    before it asks anything. *)
Theorem superuser_password_prompt_needs_login svc step args (w : World) m :
  heap w !! args = Some m ->
  default VNone (m !! "django_superuser_password") = VNone
  \/ turned_down (_validate svc DjangoSuperuserPasswordPrompt)
       (default VNone (m !! "django_superuser_password")) ->
  m !! "django_superuser_login" = None ->
  exists w',
    prompt svc DjangoSuperuserPasswordPrompt step args w
    = (Raise (KeyError "django_superuser_login"), w')
    /\ stdin w' = stdin w
    /\ trace w'
       = trace w
         ++ passed_value_report (_validate svc DjangoSuperuserPasswordPrompt)
              (default VNone (m !! "django_superuser_password")).
Proof.
  intros Hargs Hpassed Hlogin.
  cbn [prompt].
  unfold DjangoSuperuserPasswordPrompt_prompt, bind, deepcopy, dict_get, dict_getitem.
  run_prompt Hargs
    ltac:(first [ rewrite Hlogin
                | rewrite (is_valid_passed_arg_falls_through _ _ _ _ _ _ Hpassed) ]).
  eexists. split; [reflexivity|]. split; reflexivity.
Qed.

Lemma superuser_password_prompt_needs_login_witness :
  exists w',
    prompt demo_services DjangoSuperuserPasswordPrompt "<b>[10/11]</b>" 0
      (demo_world ["hunter2"; "hunter2"] {[ "django_superuser_password" := VStr "abc" ]}
         [] [])
    = (Raise (KeyError "django_superuser_login"), w')
    /\ stdin w' = ["hunter2"; "hunter2"]
    /\ trace w'
       = []
         ++ passed_value_report (_validate demo_services DjangoSuperuserPasswordPrompt)
              (default VNone
                 (({[ "django_superuser_password" := VStr "abc" ]}
                   : gmap string Value) !! "django_superuser_password")).
Proof.
  apply (superuser_password_prompt_needs_login demo_services "<b>[10/11]</b>" 0
           (demo_world ["hunter2"; "hunter2"]
              {[ "django_superuser_password" := VStr "abc" ]} [] [])
           {[ "django_superuser_password" := VStr "abc" ]}).
  - reflexivity.
  - right. eexists. vm_compute. reflexivity.
  - vm_compute. reflexivity.
Defined.

(** X18.  [GoogleProjectName.prompt] for a new project, when no name
    was passed or the name passed is turned down: it asks once with
    [Django Project] in brackets and records the first line if it has 4
    to 30 characters, [Django Project] for a blank line. *)
Theorem project_name_prompt_records_first_answer
    svc step args (w : World) m a rest :
  heap w !! args = Some m ->
  default VNone (m !! "project_creation_mode") <> VMode MUST_EXIST ->
  default VNone (m !! "project_name") = VNone
  \/ turned_down (passed_validator svc GoogleProjectName m)
       (default VNone (m !! "project_name")) ->
  stdin w = a :: rest ->
  4 <= String.length (or_default (Some "Django Project") a) <= 30 ->
  or_default (Some "Django Project") "" = "Django Project"
  /\ exists w',
       prompt svc GoogleProjectName step args w = (Ok (length (heap w)), w')
       /\ heap w'
          = heap w
            ++ [<["project_name" := VStr (or_default (Some "Django Project") a)]> m]
       /\ stdin w' = rest
       /\ trace w'
          = trace w
            ++ passed_value_report (passed_validator svc GoogleProjectName m)
                 (default VNone (m !! "project_name"))
            ++ [Ask (step +:+ " Enter a Google Cloud Platform project name, or leave "
                     +:+ "blank to use" +:+ PyStr.newline
                     +:+ "[Django Project]: ")].
Proof.
  intros Hargs Hmode Hpassed Hin Hlen. split; [reflexivity|].
  assert (Hok : GoogleProjectName_validate svc (default VNone (m !! "project_id"))
                  (default VNone (m !! "project_creation_mode"))
                  (VStr (or_default (Some "Django Project") a)) = Ok tt).
  { unfold GoogleProjectName_validate, _is_new_project. cbn [on_str].
    destruct Hlen as [Hlo Hhi].
    apply Nat.leb_le in Hlo, Hhi. rewrite Hlo, Hhi. cbn [andb negb].
    now rewrite bool_decide_eq_true_2 by exact Hmode. }
  cbn [passed_validator] in Hpassed.
  cbn [prompt].
  unfold GoogleProjectName_prompt, GoogleProjectName_handle_new_project,
    _is_new_project, _ask_prompt, on_console,
    bind, deepcopy, dict_get, dict_setitem, ret.
  run_prompt Hargs
    ltac:(first [ rewrite Hin | rewrite Hok
                | rewrite (is_valid_passed_arg_falls_through _ _ _ _ _ _ Hpassed)
                | rewrite bool_decide_eq_true_2 by exact Hmode
                | progress cbn [_ask_prompt_loop] ]).
  eexists. split; [reflexivity|].
  cbn [heap trace stdin set_heap set_console log].
  unfold heap_read. cbn [heap set_heap set_console log].
  rewrite heap_read_new_cell, insert_new_cell.
  split; [reflexivity|]. split; [reflexivity|].
  cbn [PyStr.join passed_validator]. rewrite <- app_assoc, !string_append_assoc.
  reflexivity.
Qed.

Lemma project_name_prompt_records_first_answer_witness :
  let m : gmap string Value := {[ "project_name" := VStr "abc" ]} in
  let w := demo_world [""; "next"] m [] [] in
  or_default (Some "Django Project") "" = "Django Project"
  /\ exists w',
       prompt demo_services GoogleProjectName "<b>[3/11]</b>" 0 w
       = (Ok (length (heap w)), w')
       /\ heap w'
          = heap w
            ++ [<["project_name" := VStr (or_default (Some "Django Project") "")]> m]
       /\ stdin w' = ["next"]
       /\ trace w'
          = trace w
            ++ passed_value_report (passed_validator demo_services GoogleProjectName m)
                 (default VNone (m !! "project_name"))
            ++ [Ask ("<b>[3/11]</b>"
                     +:+ " Enter a Google Cloud Platform project name, or leave "
                     +:+ "blank to use" +:+ PyStr.newline
                     +:+ "[Django Project]: ")].
Proof.
  intros m w.
  apply (project_name_prompt_records_first_answer demo_services "<b>[3/11]</b>" 0
           w m "" ["next"]).
  - reflexivity.
  - vm_compute. discriminate.
  - right. eexists. vm_compute. reflexivity.
  - reflexivity.
  - vm_compute. lia.
Defined.

(** X19.  [DjangoSuperuserPasswordPrompt.prompt], when it has to ask:
    its question names the login that the mapping holds, and a valid
    password typed twice running is recorded after the two hidden
    reads. *)
Theorem superuser_password_prompt_names_login
    svc step args (w : World) m login p rest :
  heap w !! args = Some m ->
  default VNone (m !! "django_superuser_password") = VNone
  \/ turned_down (_validate svc DjangoSuperuserPasswordPrompt)
       (default VNone (m !! "django_superuser_password")) ->
  m !! "django_superuser_login" = Some login ->
  stdin w = p :: p :: rest ->
  _password_validate p = Ok tt ->
  exists w',
    prompt svc DjangoSuperuserPasswordPrompt step args w = (Ok (length (heap w)), w')
    /\ heap w' = heap w ++ [<["django_superuser_password" := VStr p]> m]
    /\ stdin w' = rest
    /\ trace w'
       = trace w
         ++ passed_value_report (_validate svc DjangoSuperuserPasswordPrompt)
              (default VNone (m !! "django_superuser_password"))
         ++ [Tell (step +:+ " Enter a password for the Django superuser "
                   +:+ quoted (str_of_value svc login));
             GetPass "Password: "; GetPass "Password (again): "].
Proof.
  intros Hargs Hpassed Hlogin Hin Hok.
  cbn [prompt].
  unfold DjangoSuperuserPasswordPrompt_prompt, _password_prompt, on_console,
    bind, deepcopy, dict_get, dict_getitem, dict_setitem, ret, console_tell, emit.
  run_prompt Hargs
    ltac:(first [ rewrite Hin | rewrite Hok | rewrite Hlogin
                | rewrite (is_valid_passed_arg_falls_through _ _ _ _ _ _ Hpassed)
                | rewrite bool_decide_eq_false_2 by (intros Hne; now apply Hne)
                | progress cbn [_password_prompt_loop] ]).
  eexists. split; [reflexivity|].
  cbn [heap trace stdin set_heap set_console log].
  unfold heap_read. cbn [heap set_heap set_console log].
  rewrite heap_read_new_cell, insert_new_cell.
  split; [reflexivity|]. split; [reflexivity|].
  rewrite <- !app_assoc, ?string_append_assoc. reflexivity.
Qed.

Lemma superuser_password_prompt_names_login_witness :
  let m : gmap string Value := {[ "django_superuser_login" := VStr "admin" ]} in
  let w := demo_world ["hunter2"; "hunter2"; "next"] m [] [] in
  exists w',
    prompt demo_services DjangoSuperuserPasswordPrompt "<b>[10/11]</b>" 0 w
    = (Ok (length (heap w)), w')
    /\ heap w' = heap w ++ [<["django_superuser_password" := VStr "hunter2"]> m]
    /\ stdin w' = ["next"]
    /\ trace w'
       = trace w
         ++ passed_value_report (_validate demo_services DjangoSuperuserPasswordPrompt)
              (default VNone (m !! "django_superuser_password"))
         ++ [Tell ("<b>[10/11]</b>" +:+ " Enter a password for the Django superuser "
                   +:+ quoted (str_of_value demo_services (VStr "admin")));
             GetPass "Password: "; GetPass "Password (again): "].
Proof.
  intros m w.
  apply (superuser_password_prompt_names_login demo_services "<b>[10/11]</b>" 0
           w m (VStr "admin") "hunter2" ["next"]).
  - reflexivity.
  - left. reflexivity.
  - reflexivity.
  - reflexivity.
  - vm_compute. reflexivity.
Defined.

(** ** The credentials *)

Lemma lower_is_n (s : string) : PyStr.lower s = "n" <-> s = "n" \/ s = "N".
Proof.
  split.
  - intros H. destruct s as [|c [|c' s]]; try discriminate H.
    injection H as H. apply lower_char_is_n in H as [->| ->]; auto.
  - intros [->| ->]; reflexivity.
Qed.

(** X20.  [CredentialsPrompt.prompt], when no credentials were passed:
    after its notice it asks once whether to use the active account and
    takes the line as it is.  It keeps the credentials of the active
    account unless there is no active account or the line is [n] or [N];
    any other line, [no] included, keeps them. *)
Theorem credentials_prompt_keeps_active_account_unless_n
    svc step args (w : World) m a rest :
  heap w !! args = Some m ->
  default VNone (m !! "credentials") = VNone ->
  stdin w = a :: rest ->
  let declined :=
    from_option PyStr.nonempty false (get_active_account svc) = false
    \/ a = "n" \/ a = "N" in
  exists creds w',
    prompt svc CredentialsPrompt step args w = (Ok (length (heap w)), w')
    /\ heap w' = heap w ++ [<["credentials" := VCreds creds]> m]
    /\ stdin w' = rest
    /\ trace w'
       = trace w
         ++ [Tell (step +:+ " In order to deploy your application, you must "
                   +:+ "allow Django Deploy to access your Google account.");
             Ask ("You have logged in with account ["
                  +:+ str_of_optional (get_active_account svc)
                  +:+ "]. Do you want to use it? [Y/n]: ")]
    /\ (declined -> creds = create_default_credentials svc)
    /\ (~ declined -> creds = get_default_credentials svc).
Proof.
  intros Hargs Hpassed Hin declined.
  cbn [prompt].
  unfold CredentialsPrompt_prompt, bind, deepcopy, dict_get, dict_setitem, ret,
    console_tell, emit, _binary_prompt, on_console.
  assert (Hw : forall h, set_console (stdin w) (trace w ++ []) (set_heap h w)
                         = set_heap h w)
    by (intros h; rewrite app_nil_r; destruct w; reflexivity).
  assert (Hreport : forall validate,
            passed_value_report validate (default VNone (m !! "credentials")) = [])
    by (intros validate; unfold passed_value_report; now rewrite Hpassed).
  run_prompt Hargs
    ltac:(first [ rewrite Hreport | rewrite Hw | rewrite Hin
                | rewrite (is_valid_passed_arg_falls_through _ _ _ _ _ _
                             (or_introl Hpassed))
                | progress cbn [_binary_prompt_loop PyStr.nonempty andb] ]).
  assert (Hdecline :
    forall answer, (PyStr.lower answer = "n" <-> a = "n" \/ a = "N") ->
      let creds :=
        if (if from_option PyStr.nonempty false (get_active_account svc)
            then bool_decide (PyStr.lower answer = "n") else true)
        then create_default_credentials svc else get_default_credentials svc in
      (declined -> creds = create_default_credentials svc)
      /\ (~ declined -> creds = get_default_credentials svc)).
  { intros answer Hn creds. unfold creds, declined.
    destruct (from_option PyStr.nonempty false (get_active_account svc)).
    - case_bool_decide as Hlow.
      + split; [reflexivity|]. intros Hnot. exfalso. apply Hnot. right. now apply Hn.
      + split; [|reflexivity]. intros [Hf|Hd]; [discriminate|].
        exfalso. apply Hlow. now apply Hn.
    - split; [reflexivity|]. intros Hnot. exfalso. apply Hnot. now left. }
  case_bool_decide as Hblank.
  - change (_binary_validate "Y") with (@Ok unit tt). cbv beta iota zeta.
    eexists. eexists. split; [reflexivity|].
    cbn [heap trace stdin set_heap set_console log].
    unfold heap_read. cbn [heap set_heap set_console log].
    rewrite heap_read_new_cell, insert_new_cell.
    split; [reflexivity|]. split; [reflexivity|].
    split; [rewrite <- app_assoc; reflexivity|].
    apply Hdecline. subst a. split; [discriminate|]. intros [H|H]; discriminate H.
  - eexists. eexists. split; [reflexivity|].
    cbn [heap trace stdin set_heap set_console log].
    unfold heap_read. cbn [heap set_heap set_console log].
    rewrite heap_read_new_cell, insert_new_cell.
    split; [reflexivity|]. split; [reflexivity|].
    split; [rewrite <- app_assoc; reflexivity|].
    apply Hdecline, lower_is_n.
Qed.

Lemma credentials_prompt_keeps_active_account_unless_n_witness :
  let w := demo_world ["no"] ∅ [] [] in
  let declined :=
    from_option PyStr.nonempty false (get_active_account demo_services) = false
    \/ "no" = "n" \/ "no" = "N" in
  exists creds w',
    prompt demo_services CredentialsPrompt "<b>[1/11]</b>" 0 w
    = (Ok (length (heap w)), w')
    /\ heap w' = heap w ++ [<["credentials" := VCreds creds]> ∅]
    /\ stdin w' = []
    /\ trace w'
       = trace w
         ++ [Tell ("<b>[1/11]</b>" +:+ " In order to deploy your application, you must "
                   +:+ "allow Django Deploy to access your Google account.");
             Ask ("You have logged in with account ["
                  +:+ str_of_optional (get_active_account demo_services)
                  +:+ "]. Do you want to use it? [Y/n]: ")]
    /\ (declined -> creds = create_default_credentials demo_services)
    /\ (~ declined -> creds = get_default_credentials demo_services).
Proof.
  intros w.
  apply (credentials_prompt_keeps_active_account_unless_n demo_services
           "<b>[1/11]</b>" 0 w ∅ "no" []).
  - reflexivity.
  - reflexivity.
  - reflexivity.
Defined.

(** ** The billing account *)

Lemma join_length_ge (sep : string) (l : list string) :
  Forall (fun x => 1 <= String.length x) l ->
  length l <= String.length (PyStr.join sep l).
Proof.
  induction 1 as [|x l Hx Hl IH]; [simpl; lia|].
  destruct l as [|y l]; [simpl; lia|].
  change (PyStr.join sep (x :: y :: l))
    with (x +:+ sep +:+ PyStr.join sep (y :: l)).
  rewrite !string_length_app. cbn [length] in *. lia.
Qed.

Lemma options_formatted_nonblank (options : list string) :
  Forall (fun x => 1 <= String.length x) (options_formatted options).
Proof.
  unfold options_formatted.
  assert (H : forall f : nat -> string -> string,
            (forall i x, 1 <= String.length (f i x)) ->
            Forall (fun x => 1 <= String.length x) (imap f options)).
  { induction options as [|opt options IH]; intros f Hf; [constructor|].
    cbn [imap]. constructor; [apply Hf|]. apply IH. intros i x. apply Hf. }
  apply H. intros i x. rewrite !string_length_app. simpl. lia.
Qed.

(** The rendered text is at least as long as the number of options. *)
Lemma rendered_options_length (options : list string) :
  length options <= String.length (rendered_options options).
Proof.
  unfold rendered_options.
  etransitivity; [|apply join_length_ge, options_formatted_nonblank].
  unfold options_formatted. now rewrite length_imap.
Qed.

Lemma isnumeric_nonblank (s : string) : PyStr.isnumeric s = true -> s <> "".
Proof. now destruct s. Qed.

(** X21.  [BillingPrompt.prompt] with accounts listed and a numeric
    choice that names one of them: the listing is read once, the accounts
    are shown once, and the [name] of the account chosen is recorded. *)
Theorem billing_prompt_records_chosen_account
    svc step args (w : World) m a rest k account :
  heap w !! args = Some m ->
  default VNone (m !! "billing_account_name") = VNone ->
  default VNone (m !! "project_creation_mode") <> VMode MUST_EXIST ->
  stdin w = a :: rest ->
  PyStr.isnumeric a = true ->
  PyStr.int a = (Z.of_nat k + 1)%Z ->
  billing_now w !! k = Some account ->
  exists w',
    prompt svc BillingPrompt step args w = (Ok (length (heap w)), w')
    /\ heap w' = heap w ++ [<["billing_account_name" := VStr (name account)]> m]
    /\ stdin w' = rest
    /\ trace w'
       = trace w
         ++ [Tell (step +:+ " In order to deploy your application, you must "
                   +:+ "enable billing for your Google Cloud Project.");
             Ask (format1 existing_accounts_question
                    (rendered_options (map displayName (billing_now w))))]
    /\ (billing_now w', billing_later w')
       = advance_billing (billing_now w) (billing_later w).
Proof.
  intros Hargs Hpassed Hmode Hin Hnum Hint Hk.
  assert (Hw : forall h, set_console (stdin w) (trace w ++ []) (set_heap h w)
                         = set_heap h w)
    by (intros h; rewrite app_nil_r; destruct w; reflexivity).
  assert (Hreport : forall validate,
            passed_value_report validate (default VNone (m !! "billing_account_name")) = [])
    by (intros validate; unfold passed_value_report; now rewrite Hpassed).
  assert (Hvalid :
    _multiple_choice_validate a (Some "")
      (Z.of_nat (String.length
                   (PyStr.join PyStr.newline
                      (options_formatted (map displayName (billing_now w))))))
    = Ok tt).
  { apply multiple_choice_validate_nonblank; [now apply isnumeric_nonblank|].
    split; [exact Hnum|]. rewrite Hint.
    pose proof (rendered_options_length (map displayName (billing_now w))) as Hlen.
    unfold rendered_options in Hlen. rewrite length_map in Hlen.
    apply lookup_lt_Some in Hk. lia. }
  assert (Hitem : list_getitem (billing_now w) (PyStr.int a - 1) = Ok account).
  { unfold list_getitem. rewrite Hint.
    replace (Z.of_nat k + 1 - 1)%Z with (Z.of_nat k) by lia.
    destruct (Z.of_nat k <? 0)%Z eqn:Hneg; [apply Z.ltb_lt in Hneg; lia|].
    rewrite Hneg, Nat2Z.id, Hk. reflexivity. }
  assert (Hlisted : PyStr.nonempty_list (billing_now w) = true).
  { destruct (billing_now w); [now rewrite lookup_nil in Hk | reflexivity]. }
  cbn [prompt].
  unfold BillingPrompt_prompt, BillingPrompt_handle_existing_billing_accounts,
    _multiple_choice_prompt, _does_project_exist,
    bind, deepcopy, dict_get, dict_setitem, ret, lift, list_billing_accounts,
    console_tell, console_ask, read_line, emit, on_console.
  destruct (advance_billing (billing_now w) (billing_later w))
    as [now' later'] eqn:Hadv.
  run_prompt Hargs
    ltac:(first [ rewrite Hreport | rewrite Hw | rewrite Hin | rewrite Hlisted
                | rewrite Hadv
                | rewrite (is_valid_passed_arg_falls_through _ _ _ _ _ _
                             (or_introl Hpassed))
                | rewrite bool_decide_eq_false_2 by exact Hmode ]).
  assert (Hloop : forall lines tr,
    _multiple_choice_loop (unformatted existing_accounts_question) (Some "")
      (Z.of_nat (String.length
                   (PyStr.join PyStr.newline
                      (options_formatted (map displayName (billing_now w))))))
      a lines tr = (Ok a, (lines, tr))).
  { intros lines tr. destruct lines; cbn [_multiple_choice_loop]; now rewrite Hvalid. }
  rewrite Hloop. cbv beta iota zeta.
  rewrite bool_decide_eq_false_2 by (now apply isnumeric_nonblank).
  rewrite Hitem. cbv beta iota zeta.
  eexists. split; [reflexivity|].
  cbn [heap trace stdin billing_now billing_later set_heap set_console set_billing log].
  unfold heap_read. cbn [heap set_heap set_console set_billing log].
  rewrite heap_read_new_cell, insert_new_cell.
  split; [reflexivity|]. split; [reflexivity|].
  split; [rewrite <- app_assoc; reflexivity | reflexivity].
Qed.

Lemma billing_prompt_records_chosen_account_witness :
  let w := demo_world ["2"; "next"] ∅ [account_a; account_b] [] in
  exists w',
    prompt demo_services BillingPrompt "<b>[4/11]</b>" 0 w
    = (Ok (length (heap w)), w')
    /\ heap w' = heap w ++ [<["billing_account_name" := VStr (name account_b)]> ∅]
    /\ stdin w' = ["next"]
    /\ trace w'
       = trace w
         ++ [Tell ("<b>[4/11]</b>" +:+ " In order to deploy your application, you must "
                   +:+ "enable billing for your Google Cloud Project.");
             Ask (format1 existing_accounts_question
                    (rendered_options (map displayName (billing_now w))))]
    /\ (billing_now w', billing_later w')
       = advance_billing (billing_now w) (billing_later w).
Proof.
  intros w.
  apply (billing_prompt_records_chosen_account demo_services "<b>[4/11]</b>" 0 w ∅
           "2" ["next"] 1 account_b).
  - reflexivity.
  - reflexivity.
  - vm_compute. discriminate.
  - reflexivity.
  - reflexivity.
  - reflexivity.
  - reflexivity.
Defined.

(** X22.  [BillingPrompt.validate] turns down an account name that the
    billing service does not list, but [BillingPrompt.prompt] does not
    call it: such a name passed in the mapping is confirmed and kept. *)
Theorem billing_prompt_never_checks_passed_account
    svc step args (w : World) m s list_all accounts w1 :
  heap w !! args = Some m ->
  m !! "billing_account_name" = Some (VStr s) ->
  list_all w = (Ok accounts, w1) ->
  s ∉ map name accounts ->
  fst (BillingPrompt_validate list_all (VStr s) w)
  = Raise (ValueError "The provided billing account does not exist.")
  /\ prompt svc BillingPrompt step args w
     = (Ok (length (heap w)),
        log (Tell (step +:+ " billing_account_name: " +:+ s))
          (set_heap (heap w ++ [m]) w)).
Proof.
  intros Hargs Hpassed Hlist Hnot. split.
  - unfold BillingPrompt_validate, bind. rewrite Hlist.
    rewrite bool_decide_eq_true_2; [reflexivity|].
    intros Hin. apply Hnot. apply list_elem_of_fmap in Hin as (account & Heq & Hin).
    injection Heq as ->. apply list_elem_of_fmap. eauto.
  - cbn [prompt].
    unfold BillingPrompt_prompt, _is_valid_passed_arg, bind, deepcopy, dict_get,
      ret, console_tell, emit.
    run_prompt Hargs
      ltac:(first [ rewrite Hpassed
                  | rewrite bool_decide_eq_false_2 by discriminate
                  | progress cbn [_validate str_of_value] ]).
    reflexivity.
Qed.

Lemma billing_prompt_never_checks_passed_account_witness :
  let m : gmap string Value := {[ "billing_account_name" := VStr "billingAccounts/X" ]} in
  let w := demo_world [] m [account_a] [] in
  fst (BillingPrompt_validate list_billing_accounts (VStr "billingAccounts/X") w)
  = Raise (ValueError "The provided billing account does not exist.")
  /\ prompt demo_services BillingPrompt "<b>[4/11]</b>" 0 w
     = (Ok (length (heap w)),
        log (Tell ("<b>[4/11]</b>" +:+ " billing_account_name: " +:+ "billingAccounts/X"))
          (set_heap (heap w ++ [m]) w)).
Proof.
  intros m w.
  apply (billing_prompt_never_checks_passed_account demo_services "<b>[4/11]</b>" 0 w m
           "billingAccounts/X" list_billing_accounts [account_a] w).
  - reflexivity.
  - reflexivity.
  - reflexivity.
  - cbn. rewrite list_elem_of_singleton. discriminate.
Defined.

(** X23.  [BillingPrompt.prompt] when the billing service lists no
    account: after its two notices it waits for the user to press Enter,
    opens the browser on the page that creates an account, and records
    a name of the first listing that is not empty, here the very next
    one, without sleeping. *)
Theorem billing_prompt_waits_for_first_account
    svc step args (w : World) m enter rest listing later :
  (forall s, set_order svc s ≡ₚ elements s) ->
  heap w !! args = Some m ->
  default VNone (m !! "billing_account_name") = VNone ->
  default VNone (m !! "project_creation_mode") <> VMode MUST_EXIST ->
  billing_now w = [] ->
  billing_later w = listing :: later ->
  listing <> [] ->
  stdin w = enter :: rest ->
  exists d w',
    prompt svc BillingPrompt step args w = (Ok (length (heap w)), w')
    /\ d ∈ map name listing
    /\ heap w' = heap w ++ [<["billing_account_name" := VStr d]> m]
    /\ stdin w' = rest
    /\ trace w'
       = trace w
         ++ [Tell (step +:+ " In order to deploy your application, you must "
                   +:+ "enable billing for your Google Cloud Project.");
             Tell "You do not have existing billing accounts.";
             Ask "Press [Enter] to create a new billing account.";
             OpenBrowser "https://console.cloud.google.com/billing/create";
             Tell "Waiting for billing account to be created."].
Proof.
  intros Hperm Hargs Hpassed Hmode Hnow Hlater Hlisting Hin.
  assert (Hw : forall h, set_console (stdin w) (trace w ++ []) (set_heap h w)
                         = set_heap h w)
    by (intros h; rewrite app_nil_r; destruct w; reflexivity).
  assert (Hreport : forall validate,
            passed_value_report validate (default VNone (m !! "billing_account_name")) = [])
    by (intros validate; unfold passed_value_report; now rewrite Hpassed).
  assert (Hnew : new_names [] listing <> ∅).
  { unfold new_names. destruct listing as [|account listing]; [now contradiction Hlisting|].
    cbn [map list_to_set]. intros Hempty.
    assert (Hin' : name account ∈ ({[name account]} ∪ list_to_set (map name listing)
                                   : gset string) ∖ ∅) by set_solver.
    rewrite Hempty in Hin'. set_solver. }
  destruct (first_of_nonempty_set svc _ Hperm Hnew) as (d & Hd & Hdin).
  assert (Hpoll : forall tr,
    _poll_new_billing_account svc [] listing later tr
    = (Ok d, (advance_billing listing later, tr))).
  { intros tr. unfold new_names in Hd.
    destruct later; cbn [_poll_new_billing_account];
      (case_bool_decide as Hlen;
       [now rewrite Hd | destruct listing; [now contradiction Hlisting | simpl in Hlen; lia]]). }
  cbn [prompt].
  unfold BillingPrompt_prompt, BillingPrompt_get_new_billing_account,
    _does_project_exist, bind, deepcopy, dict_get, dict_setitem, ret,
    list_billing_accounts, console_tell, console_ask, read_line, emit, on_billing.
  run_prompt Hargs
    ltac:(first [ rewrite Hreport | rewrite Hw | rewrite Hin | rewrite Hnow
                | rewrite Hlater | rewrite Hpoll
                | rewrite (is_valid_passed_arg_falls_through _ _ _ _ _ _
                             (or_introl Hpassed))
                | rewrite bool_decide_eq_false_2 by exact Hmode
                | progress cbn [advance_billing PyStr.nonempty_list] ]).
  destruct (advance_billing listing later) as [now' later'].
  exists d. eexists. split; [reflexivity|].
  split.
  { unfold new_names in Hdin. apply elem_of_difference in Hdin as [Hdin _].
    now rewrite elem_of_list_to_set in Hdin. }
  cbn [heap trace stdin set_heap set_console set_billing log].
  unfold heap_read. cbn [heap set_heap set_console set_billing log].
  rewrite heap_read_new_cell, insert_new_cell.
  split; [reflexivity|]. split; [reflexivity|].
  rewrite <- !app_assoc. reflexivity.
Qed.

Lemma billing_prompt_waits_for_first_account_witness :
  let w := demo_world [""; "next"] ∅ [] [[account_b]] in
  exists d w',
    prompt demo_services BillingPrompt "<b>[4/11]</b>" 0 w
    = (Ok (length (heap w)), w')
    /\ d ∈ map name [account_b]
    /\ heap w' = heap w ++ [<["billing_account_name" := VStr d]> ∅]
    /\ stdin w' = ["next"]
    /\ trace w'
       = trace w
         ++ [Tell ("<b>[4/11]</b>" +:+ " In order to deploy your application, you must "
                   +:+ "enable billing for your Google Cloud Project.");
             Tell "You do not have existing billing accounts.";
             Ask "Press [Enter] to create a new billing account.";
             OpenBrowser "https://console.cloud.google.com/billing/create";
             Tell "Waiting for billing account to be created."].
Proof.
  intros w.
  apply (billing_prompt_waits_for_first_account demo_services "<b>[4/11]</b>" 0 w ∅
           "" ["next"] [account_b] []).
  - intros s. reflexivity.
  - reflexivity.
  - reflexivity.
  - vm_compute. discriminate.
  - reflexivity.
  - reflexivity.
  - discriminate.
  - reflexivity.
Defined.

(** ** The directory and the project id *)

(** X25.  [DjangoFilesystemPath.prompt] on a first line that names a
    directory that does not exist, a blank line standing for the default
    under the home directory: the directory is recorded as typed, without
    validation, and nothing more is asked. *)
Theorem filesystem_path_prompt_takes_new_directory
    svc step args (w : World) m project_name a rest :
  heap w !! args = Some m ->
  default (VStr "django-project") (m !! "project_name") = VStr project_name ->
  stdin w = a :: rest ->
  let default_dir :=
    PyStr.path_join (expanduser_home svc)
      (PyStr.replace_char " " "-" (PyStr.lower project_name)) in
  let directory := or_default (Some default_dir) a in
  path_exists svc directory = false ->
  exists w',
    prompt svc DjangoFilesystemPath step args w = (Ok (length (heap w)), w')
    /\ heap w' = heap w ++ [<["django_directory_path" := VStr directory]> m]
    /\ stdin w' = rest
    /\ trace w'
       = trace w
         ++ [Ask (step +:+ " Enter a new directory path to store project source, "
                  +:+ "or leave blank to use" +:+ PyStr.newline
                  +:+ "[" +:+ default_dir +:+ "]: ")].
Proof.
  intros Hargs Hname Hin default_dir directory Hnew.
  cbn [prompt].
  unfold DjangoFilesystemPath_prompt, bind at 1, deepcopy. unfold bind at 1.
  cbn [while_true].
  unfold DjangoFilesystemPath_turn, DjangoFilesystemPath_ask_for_directory,
    _ask_prompt, on_console, bind, dict_get, dict_setitem, lift, ret.
  run_prompt Hargs
    ltac:(first [ rewrite Hname | rewrite Hin
                | progress cbn [_ask_prompt_loop no_validate] ]).
  fold default_dir. fold directory. rewrite Hnew.
  eexists. split; [reflexivity|].
  cbn [heap trace stdin set_heap set_console log].
  unfold heap_read. cbn [heap set_heap set_console log].
  rewrite heap_read_new_cell, insert_new_cell.
  split; [reflexivity|]. split; [reflexivity|].
  cbn [PyStr.join]. rewrite !string_append_assoc. reflexivity.
Qed.

Lemma filesystem_path_prompt_takes_new_directory_witness :
  let m : gmap string Value := {[ "project_name" := VStr "My Site" ]} in
  let w := demo_world [""; "next"] m [] [] in
  exists w',
    prompt demo_services DjangoFilesystemPath "<b>[6/11]</b>" 0 w
    = (Ok (length (heap w)), w')
    /\ heap w' = heap w ++ [<["django_directory_path" := VStr "/home/user/my-site"]> m]
    /\ stdin w' = ["next"]
    /\ trace w'
       = trace w
         ++ [Ask ("<b>[6/11]</b>"
                  +:+ " Enter a new directory path to store project source, "
                  +:+ "or leave blank to use" +:+ PyStr.newline
                  +:+ "[" +:+ "/home/user/my-site" +:+ "]: ")].
Proof.
  intros m w.
  apply (filesystem_path_prompt_takes_new_directory demo_services "<b>[6/11]</b>" 0
           w m "My Site" "" ["next"]).
  - reflexivity.
  - reflexivity.
  - reflexivity.
  - vm_compute. reflexivity.
Defined.

Lemma match_project_id_nonblank (s : string) :
  match_project_id s = true -> PyStr.nonempty s = true.
Proof. now destruct s. Qed.

(** X26.  [GoogleProjectId.prompt] for a new project, when no id was
    passed or the id passed is turned down: it shows the generated
    default in brackets, and a blank line records that default, which
    needs no second question since it always passes the validator. *)
Theorem project_id_prompt_blank_answer_takes_generated_id
    svc step args (w : World) m rest s :
  heap w !! args = Some m ->
  truthy (default (VBool false) (m !! "use_existing_project")) = false ->
  default VNone (m !! "project_id") = VNone
  \/ turned_down (_validate svc GoogleNewProjectId)
       (default VNone (m !! "project_id")) ->
  randint_range 100000 1000000 (randint_100000_1000000 svc) ->
  _generate_default_project_id (default VNone (m !! "project_name"))
    (randint_100000_1000000 svc) = Ok s ->
  stdin w = "" :: rest ->
  exists w',
    prompt svc GoogleProjectId step args w = (Ok (length (heap w)), w')
    /\ heap w' = heap w ++ [<["project_id" := VStr s]> m]
    /\ stdin w' = rest
    /\ trace w'
       = trace w
         ++ passed_value_report (_validate svc GoogleNewProjectId)
              (default VNone (m !! "project_id"))
         ++ [Ask (step +:+ " Enter a Google Cloud Platform Project ID, "
                  +:+ "or leave blank to use" +:+ PyStr.newline
                  +:+ "[" +:+ s +:+ "]: ")].
Proof.
  intros Hargs Hnew Hpassed Hdraw Hdefault Hin.
  pose proof (generate_default_project_id_matches _ _ _ Hdraw Hdefault) as Hmatch.
  pose proof (match_project_id_nonblank _ Hmatch) as Hnonblank.
  cbn [prompt].
  unfold GoogleProjectId_prompt, bind at 1, dict_get at 1.
  rewrite (heap_read_lookup _ _ _ Hargs), Hnew.
  unfold GoogleNewProjectId_prompt, _ask_prompt, on_console,
    bind, deepcopy, dict_get, dict_setitem, lift, ret.
  run_prompt Hargs
    ltac:(first [ rewrite Hdefault | rewrite Hin
                | rewrite (is_valid_passed_arg_falls_through _ _ _ _ _ _ Hpassed)
                | progress cbn [_ask_prompt_loop or_default] ]).
  rewrite Hnonblank. cbn [andb].
  rewrite bool_decide_eq_true_2 by reflexivity.
  cbn [_validate on_str]. unfold GoogleNewProjectId_validate. rewrite Hmatch.
  cbn [negb]. cbv beta iota zeta.
  eexists. split; [reflexivity|].
  cbn [heap trace stdin set_heap set_console log].
  unfold heap_read. cbn [heap set_heap set_console log].
  rewrite heap_read_new_cell, insert_new_cell.
  split; [reflexivity|]. split; [reflexivity|].
  cbn [PyStr.join]. rewrite <- app_assoc, !string_append_assoc. reflexivity.
Qed.

Lemma project_id_prompt_blank_answer_takes_generated_id_witness :
  let m : gmap string Value := {[ "project_name" := VStr "My Site" ]} in
  let w := demo_world [""; "next"] m [] [] in
  exists w',
    prompt demo_services GoogleProjectId "<b>[2/11]</b>" 0 w
    = (Ok (length (heap w)), w')
    /\ heap w' = heap w ++ [<["project_id" := VStr "my-site-123456"]> m]
    /\ stdin w' = ["next"]
    /\ trace w'
       = trace w
         ++ passed_value_report (_validate demo_services GoogleNewProjectId)
              (default VNone (m !! "project_id"))
         ++ [Ask ("<b>[2/11]</b>" +:+ " Enter a Google Cloud Platform Project ID, "
                  +:+ "or leave blank to use" +:+ PyStr.newline
                  +:+ "[" +:+ "my-site-123456" +:+ "]: ")].
Proof.
  intros m w.
  apply (project_id_prompt_blank_answer_takes_generated_id demo_services
           "<b>[2/11]</b>" 0 w m ["next"] "my-site-123456").
  - reflexivity.
  - reflexivity.
  - left. reflexivity.
  - unfold randint_range. simpl. lia.
  - reflexivity.
  - reflexivity.
Defined.

(** ** What a prompter records has passed its validator *)

Lemma is_valid_passed_arg_inv svc p step value validate b w w' :
  _is_valid_passed_arg svc p step value validate w = (Ok b, w') ->
  heap w' = heap w /\ (b = true -> value <> VNone /\ validate value = Ok tt).
Proof.
  unfold _is_valid_passed_arg. case_bool_decide as Hnone.
  - intros H. apply ret_Ok_inv in H as [-> ->]. split; [reflexivity | discriminate].
  - destruct (validate value) as [[]|e|]; [| |discriminate].
    + intros H. apply bind_Ok_inv in H as ([] & w1 & Htell & H).
      apply ret_Ok_inv in H as [-> ->]. unfold console_tell, emit in Htell.
      inversion Htell. split; [reflexivity | auto].
    + destruct e; try discriminate.
      intros H. apply bind_Ok_inv in H as ([] & w1 & Herr & H).
      apply ret_Ok_inv in H as [-> ->]. unfold console_error, emit in Herr.
      inversion Herr. split; [reflexivity | discriminate].
Qed.

Lemma ask_prompt_inv question validate default a w w' :
  _ask_prompt question (Some validate) default w = (Ok a, w') ->
  heap w' = heap w /\ validate (VStr a) = Ok tt.
Proof.
  unfold _ask_prompt. intros H.
  apply on_console_inv in H as (ins & tr & Hloop & ->).
  cbn [from_option id] in Hloop.
  apply ask_prompt_loop_Ok in Hloop as (rejected & line & _ & _ & Hok & _).
  split; [reflexivity | exact Hok].
Qed.

Lemma password_prompt_inv question p w w' :
  _password_prompt question w = (Ok p, w') ->
  heap w' = heap w /\ _password_validate p = Ok tt.
Proof.
  unfold _password_prompt. intros H.
  apply bind_Ok_inv in H as ([] & w1 & Htell & H).
  unfold console_tell, emit in Htell. inversion Htell. subst w1.
  apply on_console_inv in H as (ins & tr & Hloop & ->).
  apply password_prompt_loop_Ok in Hloop as (before & _ & _ & Hok).
  split; [reflexivity | exact Hok].
Qed.

(** The prompter returns the copy: the value passed was valid. *)
Lemma records_valid_kept validate key args w m w2 :
  heap w !! args = Some m ->
  heap w2 = heap w ++ [heap_read args w] ->
  default VNone (m !! key) <> VNone ->
  validate (default VNone (m !! key)) = Ok tt ->
  records_valid validate key (length (heap w)) w2.
Proof.
  intros Hargs Hheap Hnone Hok. exists m, (default VNone (m !! key)).
  rewrite Hheap, (heap_read_lookup _ _ _ Hargs).
  split; [rewrite lookup_app_r by lia; now rewrite Nat.sub_diag|].
  split; [|exact Hok]. destruct (m !! key); [reflexivity | now contradiction Hnone].
Qed.

(** The prompter stores a valid answer in the copy. *)
Lemma records_valid_set validate key args w m wi v :
  heap w !! args = Some m ->
  heap wi = heap w ++ [heap_read args w] ->
  validate v = Ok tt ->
  records_valid validate key (length (heap w))
    (set_heap (<[length (heap w) := <[key := v]> (heap_read (length (heap w)) wi)]>
                 (heap wi)) wi).
Proof.
  intros Hargs Hheap Hok. exists (<[key := v]> m), v.
  cbn [heap set_heap]. unfold heap_read at 1. rewrite Hheap.
  rewrite heap_read_new_cell, insert_new_cell, (heap_read_lookup _ _ _ Hargs).
  split; [rewrite lookup_app_r by lia; now rewrite Nat.sub_diag|].
  split; [apply lookup_insert_eq | exact Hok].
Qed.

Tactic Notation "open_prompt" hyp(H) hyp(Hargs) ident(valid) ident(w)
    ident(Hheap) ident(Hvalid) :=
  let new_args := fresh "new_args" in
  let w0 := fresh "w" in
  let Hcopy := fresh "Hcopy" in
  apply bind_Ok_inv in H as (new_args & w0 & Hcopy & H);
  apply deepcopy_inv in Hcopy as [-> ->];
  repeat (let v := fresh "v" in let w1 := fresh "w" in let Hv := fresh "Hv" in
          apply bind_Ok_inv in H as (v & w1 & Hv & H);
          apply dict_get_inv in Hv as [-> ->]);
  rewrite ?(heap_read_copy _ _ _ Hargs) in H;
  apply bind_Ok_inv in H as (valid & w & Hvalid & H);
  apply is_valid_passed_arg_inv in Hvalid as [Hheap Hvalid];
  cbn [heap set_heap] in Hheap.

Ltac keep_valid H Hargs Hheap Hvalid :=
  apply ret_Ok_inv in H as [-> ->];
  destruct Hvalid as [? ?]; [reflexivity|];
  eapply records_valid_kept; eauto.

Ltac set_valid H Hargs :=
  let u := fresh "u" in let w := fresh "w" in let Hset := fresh "Hset" in
  apply bind_Ok_inv in H as (u & w & Hset & H);
  apply dict_setitem_inv in Hset as ->;
  apply ret_Ok_inv in H as [-> ->];
  eapply records_valid_set; [exact Hargs | congruence | ].

Lemma StringTemplatePrompt_records_valid svc p step args w m l w' :
  heap w !! args = Some m ->
  StringTemplatePrompt_prompt svc p step args w = (Ok l, w') ->
  records_valid (_validate svc p) (PARAMETER p) l w'.
Proof.
  intros Hargs H. unfold StringTemplatePrompt_prompt in H.
  open_prompt H Hargs valid w2 Hheap Hvalid.
  destruct valid; [keep_valid H Hargs Hheap Hvalid|].
  bind_inv H answer w3 Hask. apply ask_prompt_inv in Hask as [Hheap3 Hok].
  set_valid H Hargs. exact Hok.
Qed.

Lemma GoogleNewProjectId_records_valid svc step args w m l w' :
  heap w !! args = Some m ->
  GoogleNewProjectId_prompt svc step args w = (Ok l, w') ->
  records_valid (_validate svc GoogleNewProjectId) "project_id" l w'.
Proof.
  intros Hargs H. unfold GoogleNewProjectId_prompt in H.
  open_prompt H Hargs valid w2 Hheap Hvalid.
  destruct valid; [keep_valid H Hargs Hheap Hvalid|].
  get_inv H project_name w3 Hname.
  bind_inv H default_answer w3 Hlift. apply lift_Ok_inv in Hlift as [_ ->].
  bind_inv H answer w3 Hask. apply ask_prompt_inv in Hask as [Hheap3 Hok].
  set_valid H Hargs. exact Hok.
Qed.

Lemma GoogleExistingProjectId_records_valid svc step args w m l w' :
  heap w !! args = Some m ->
  GoogleExistingProjectId_prompt svc step args w = (Ok l, w') ->
  records_valid (_validate svc GoogleExistingProjectId) "project_id" l w'.
Proof.
  intros Hargs H. unfold GoogleExistingProjectId_prompt in H.
  open_prompt H Hargs valid w2 Hheap Hvalid.
  destruct valid; [keep_valid H Hargs Hheap Hvalid|].
  bind_inv H answer w3 Hask. apply ask_prompt_inv in Hask as [Hheap3 Hok].
  set_valid H Hargs. exact Hok.
Qed.

Lemma PostgresPasswordPrompt_records_valid svc step args w m l w' :
  heap w !! args = Some m ->
  PostgresPasswordPrompt_prompt svc step args w = (Ok l, w') ->
  records_valid (_validate svc PostgresPasswordPrompt) "database_password" l w'.
Proof.
  intros Hargs H. unfold PostgresPasswordPrompt_prompt in H.
  open_prompt H Hargs valid w2 Hheap Hvalid.
  destruct valid; [keep_valid H Hargs Hheap Hvalid|].
  bind_inv H password w3 Hask. apply password_prompt_inv in Hask as [Hheap3 Hok].
  set_valid H Hargs. exact Hok.
Qed.

Lemma DjangoSuperuserPasswordPrompt_records_valid svc step args w m l w' :
  heap w !! args = Some m ->
  DjangoSuperuserPasswordPrompt_prompt svc step args w = (Ok l, w') ->
  records_valid (_validate svc DjangoSuperuserPasswordPrompt)
    "django_superuser_password" l w'.
Proof.
  intros Hargs H. unfold DjangoSuperuserPasswordPrompt_prompt in H.
  open_prompt H Hargs valid w2 Hheap Hvalid.
  destruct valid; [keep_valid H Hargs Hheap Hvalid|].
  bind_inv H login w3 Hlogin. apply dict_getitem_inv in Hlogin as [_ ->].
  bind_inv H password w3 Hask. apply password_prompt_inv in Hask as [Hheap3 Hok].
  set_valid H Hargs. exact Hok.
Qed.

Lemma GoogleProjectName_records_valid svc step args w m l w' :
  heap w !! args = Some m ->
  default VNone (m !! "project_creation_mode") <> VMode MUST_EXIST ->
  GoogleProjectName_prompt svc step args w = (Ok l, w') ->
  records_valid (passed_validator svc GoogleProjectName m) "project_name" l w'.
Proof.
  intros Hargs Hmode H. unfold GoogleProjectName_prompt in H.
  cbn [passed_validator].
  open_prompt H Hargs valid w2 Hheap Hvalid.
  destruct valid; [keep_valid H Hargs Hheap Hvalid|].
  get_inv H mode' w3 Hmode'.
  assert (Hread : heap_read args w2 = m).
  { unfold heap_read. rewrite Hheap, (heap_read_lookup _ _ _ Hargs).
    now apply heap_read_old_cell. }
  rewrite Hread in H. unfold _is_new_project in H.
  rewrite bool_decide_eq_true_2 in H by exact Hmode.
  bind_inv H project_name w3 Hname.
  unfold GoogleProjectName_handle_new_project in Hname.
  get_inv Hname pid w4 Hpid. get_inv Hname pcm w4 Hpcm.
  rewrite Hread in Hname.
  apply ask_prompt_inv in Hname as [Hheap3 Hok].
  set_valid H Hargs. exact Hok.
Qed.

(** X27.  What a validating prompter hands back has passed the validator
    of its class, whether the value was passed in the mapping or typed:
    the new mapping holds under the key of the prompter a value that the
    validator accepts.  This covers the project id, the two passwords
    and the four string prompts, and the project name when the project
    need not exist. *)
Theorem recorded_value_passed_validator svc p step args (w w' : World) m l :
  p ∈ validating_classes
  \/ (p = GoogleProjectName
      /\ default VNone (m !! "project_creation_mode") <> VMode MUST_EXIST) ->
  heap w !! args = Some m ->
  prompt svc p step args w = (Ok l, w') ->
  exists m' v,
    heap w' !! l = Some m'
    /\ m' !! PARAMETER p = Some v
    /\ passed_validator svc p m v = Ok tt.
Proof.
  intros Hp Hargs H.
  change (records_valid (passed_validator svc p m) (PARAMETER p) l w').
  destruct Hp as [Hp|[-> Hmode]].
  - unfold validating_classes in Hp.
    repeat (apply elem_of_cons in Hp as [->|Hp]);
      try (inversion Hp; fail); cbn [prompt PARAMETER passed_validator] in *;
      eauto using GoogleNewProjectId_records_valid,
        GoogleExistingProjectId_records_valid, PostgresPasswordPrompt_records_valid,
        DjangoSuperuserPasswordPrompt_records_valid.
    + unfold GoogleProjectId_prompt in H. get_inv H use_existing w1 Hget.
      rewrite (heap_read_lookup _ _ _ Hargs) in H.
      destruct (truthy (default (VBool false) (m !! "use_existing_project")));
        eauto using GoogleNewProjectId_records_valid,
          GoogleExistingProjectId_records_valid.
    + exact (StringTemplatePrompt_records_valid svc DjangoProjectNamePrompt _ _ _ _ _ _ Hargs H).
    + exact (StringTemplatePrompt_records_valid svc DjangoAppNamePrompt _ _ _ _ _ _ Hargs H).
    + exact (StringTemplatePrompt_records_valid svc DjangoSuperuserLoginPrompt _ _ _ _ _ _ Hargs H).
    + exact (StringTemplatePrompt_records_valid svc DjangoSuperuserEmailPrompt _ _ _ _ _ _ Hargs H).
  - cbn [prompt PARAMETER] in *. eauto using GoogleProjectName_records_valid.
Qed.

Lemma recorded_value_passed_validator_witness :
  let w := demo_world ["a b"; "shop"] ∅ [] [] in
  let w' := snd (prompt demo_services DjangoAppNamePrompt "<b>[8/11]</b>" 0 w) in
  exists m' v,
    heap w' !! 1 = Some m'
    /\ m' !! PARAMETER DjangoAppNamePrompt = Some v
    /\ passed_validator demo_services DjangoAppNamePrompt ∅ v = Ok tt.
Proof.
  intros w w'.
  apply (recorded_value_passed_validator demo_services DjangoAppNamePrompt
           "<b>[8/11]</b>" 0 w w' ∅ 1).
  - left. unfold validating_classes. set_solver.
  - reflexivity.
  - vm_compute. reflexivity.
Defined.

(** ** The whole sequence on any mapping *)

(** A chain leaves alone the keys that none of its prompters owns. *)
Lemma prompt_chain_frame svc schedule l w l' w' :
  prompt_chain svc schedule l w l' w' ->
  forall m, heap w !! l = Some m ->
  l <= l'
  /\ exists m',
       heap w' !! l' = Some m'
       /\ forall k, k ∉ map (fun c => PARAMETER (fst c)) schedule -> m' !! k = m !! k.
Proof.
  induction 1 as [l w|p step schedule l w l1 w1 l' w' Hprompt Hchain IH];
    intros m Hm.
  - split; [lia|]. exists m. auto.
  - destruct (prompt_returns svc p step l w m l1 w1 Hm Hprompt)
      as (-> & m1 & Hheap & Hframe & _).
    assert (Hm1 : heap w1 !! length (heap w) = Some m1).
    { rewrite Hheap, lookup_app_r by lia. now rewrite Nat.sub_diag. }
    destruct (IH m1 Hm1) as (Hle & m' & Hm' & Hrest).
    split; [apply lookup_lt_Some in Hm; lia|].
    exists m'. split; [exact Hm'|]. intros k Hk. cbn [map fst] in Hk.
    apply not_elem_of_cons in Hk as [Hne Hk].
    rewrite (Hrest k Hk). now apply Hframe.
Qed.

(** X28.  A run of [RootPrompt.prompt] that returns, on any answer
    mapping: the caller's mapping and every older dictionary are as they
    were and the mapping returned is a new one; it is populated under
    [credentials] and every key of [PROMPT_ORDER]; [project_creation_mode]
    is [MUST_EXIST] when [use_existing_project] was set and as the caller
    had it otherwise; every other key is as the caller had it; and the
    events are those of steps 1 to 11 in this order. *)
Theorem root_prompt_on_any_mapping svc args (w w' : World) m l :
  heap w !! args = Some m ->
  RootPrompt_prompt svc args w = (Ok l, w') ->
  heap w' !! args = Some m
  /\ heap w !! l = None
  /\ (forall d, is_Some (heap w !! d) -> heap w' !! d = heap w !! d)
  /\ (exists m',
         heap w' !! l = Some m'
         /\ (forall key, key ∈ "credentials" :: PROMPT_ORDER -> populated m' key)
         /\ (forall k, k ∉ "credentials" :: "project_creation_mode" :: PROMPT_ORDER ->
                       m' !! k = m !! k)
         /\ m' !! "project_creation_mode"
            = if truthy (default (VBool false) (m !! "use_existing_project"))
              then Some (VMode MUST_EXIST)
              else m !! "project_creation_mode")
  /\ (exists evs,
         trace w' = trace w ++ evs
         /\ in_step_order (map (fun i => step_template i 11) (seq 1 11)) evs).
Proof.
  intros Hargs H. unfold RootPrompt_prompt in H.
  apply bind_Ok_inv in H as (new_args & w0 & Hcopy & H).
  apply deepcopy_inv in Hcopy as [-> ->].
  rewrite (heap_read_lookup _ _ _ Hargs) in H.
  apply bind_Ok_inv in H as (use_existing & w1 & Hget & H).
  apply dict_get_inv in Hget as [-> ->].
  rewrite heap_read_set_heap, heap_read_new_cell in H.
  apply bind_Ok_inv in H as ([] & w1 & Hmode & H).
  set (m0 := if truthy (default (VBool false) (m !! "use_existing_project"))
             then <["project_creation_mode" := VMode MUST_EXIST]> m else m).
  assert (Hw1 : heap w1 = heap w ++ [m0] /\ trace w1 = trace w).
  { unfold m0. destruct (truthy (default (VBool false) (m !! "use_existing_project"))).
    - apply dict_setitem_inv in Hmode as ->. cbn [heap trace set_heap].
      rewrite heap_read_set_heap, heap_read_new_cell, insert_new_cell. auto.
    - apply ret_Ok_inv in Hmode as [_ ->]. auto. }
  destruct Hw1 as [Hheap1 Htrace1].
  apply bind_Ok_inv in H as (creds & w2 & Hcreds & H).
  unfold RootPrompt_get_creds in Hcreds.
  apply bind_Ok_inv in Hcreds as (answered & w3 & Hprompt & Hitem).
  apply dict_getitem_inv in Hitem as [Hitem ->].
  change (length PROMPT_ORDER + 1) with 11 in *.
  assert (Hargs1 : heap w1 !! args = Some m).
  { rewrite Hheap1, lookup_app_l; [exact Hargs|]. now apply lookup_lt_Some in Hargs. }
  destruct (prompt_returns svc CredentialsPrompt _ args w1 m answered w3 Hargs1 Hprompt)
    as (-> & mc & Hheapc & _ & Hpopc & evsc & Htracec & Hshowsc).
  assert (Hcredsv : creds <> VNone).
  { unfold heap_read in Hitem. rewrite Hheapc, heap_read_new_cell in Hitem.
    destruct Hpopc as (v & Hv & Hnone). cbn [PARAMETER] in Hv. congruence. }
  apply bind_Ok_inv in H as ([] & w4 & Hset & H).
  apply dict_setitem_inv in Hset as ->.
  set (w4 := set_heap _ w3) in H.
  assert (Hheap4 : heap w4 = (heap w ++ [<["credentials" := creds]> m0]) ++ [mc]).
  { unfold w4. cbn [heap set_heap]. unfold heap_read. rewrite Hheapc, Hheap1.
    rewrite (lookup_app_l (heap w ++ [m0])) by (rewrite length_app; simpl; lia).
    rewrite heap_read_new_cell.
    rewrite insert_app_l by (rewrite length_app; simpl; lia).
    now rewrite insert_new_cell. }
  assert (Hnew : heap w4 !! length (heap w) = Some (<["credentials" := creds]> m0)).
  { rewrite Hheap4, lookup_app_l by (rewrite length_app; simpl; lia).
    rewrite lookup_app_r by lia. now rewrite Nat.sub_diag. }
  assert (Hold4 : forall d, is_Some (heap w !! d) -> heap w4 !! d = heap w !! d).
  { intros d Hd. apply lookup_lt_is_Some in Hd. rewrite Hheap4.
    rewrite lookup_app_l by (rewrite length_app; simpl; lia).
    now rewrite lookup_app_l by lia. }
  apply for_each_chain in H as (schedule & Hkeys & Hsteps & Hchain);
    [|apply setup_prompts_own_their_keys].
  change (length PROMPT_ORDER) with 10 in Hsteps.
  destruct (prompt_chain_returns svc schedule _ _ _ _ Hchain _ Hnew)
    as (m' & Hm' & Hkeep & Hpop & Hold & evs & Htrace & Horder).
  destruct (prompt_chain_frame svc schedule _ _ _ _ Hchain _ Hnew)
    as (Hle & m'' & Hm'' & Hframe).
  rewrite Hm' in Hm''. injection Hm'' as <-. rewrite Hkeys in Hframe.
  assert (Holder : forall d, is_Some (heap w !! d) -> heap w' !! d = heap w !! d).
  { intros d Hd. rewrite Hold; [now apply Hold4|]. now rewrite Hold4. }
  split; [rewrite Holder; eauto|].
  split; [apply lookup_ge_None_2; lia|].
  split; [exact Holder|]. split.
  - exists m'. split; [exact Hm'|]. split; [|split].
    + intros key Hkey. apply elem_of_cons in Hkey as [->|Hkey].
      * apply Hkeep. exists creds. split; [apply lookup_insert_eq | exact Hcredsv].
      * apply Hpop. now rewrite Hkeys.
    + intros k Hk. apply not_elem_of_cons in Hk as [Hcred Hk].
      apply not_elem_of_cons in Hk as [Hpcm Hk].
      rewrite (Hframe k Hk), lookup_insert_ne by congruence.
      unfold m0. destruct (truthy _); [now rewrite lookup_insert_ne by congruence|].
      reflexivity.
    + rewrite Hframe
        by (unfold PROMPT_ORDER; intros Hin;
            repeat (apply elem_of_cons in Hin as [Hin|Hin]; [discriminate|]);
            inversion Hin).
      rewrite lookup_insert_ne by discriminate.
      unfold m0. destruct (truthy _); [apply lookup_insert_eq | reflexivity].
  - exists (evsc ++ evs). split.
    + rewrite Htrace. unfold w4. cbn [trace set_heap]. rewrite Htracec, Htrace1.
      now rewrite app_assoc.
    + change (seq 1 11) with (1 :: seq 2 10). cbn [map in_step_order].
      exists evsc, evs. split; [reflexivity|]. split; [exact Hshowsc|].
      rewrite <- Hsteps. exact Horder.
Qed.

Lemma root_prompt_on_any_mapping_witness :
  let m : gmap string Value :=
    <["use_existing_project" := VBool true]> {[ "region" := VStr "us-west1" ]} in
  let w :=
    demo_world [""; "my-project"; "secret"; "secret"; ""; ""; ""; "";
                "hunter2"; "hunter2"; ""] m [account_a] [] in
  let w' := snd (RootPrompt_prompt demo_project_services 0 w) in
  heap w' !! 0 = Some m
  /\ heap w !! 12 = None
  /\ (forall d, is_Some (heap w !! d) -> heap w' !! d = heap w !! d)
  /\ (exists m',
         heap w' !! 12 = Some m'
         /\ (forall key, key ∈ "credentials" :: PROMPT_ORDER -> populated m' key)
         /\ (forall k, k ∉ "credentials" :: "project_creation_mode" :: PROMPT_ORDER ->
                       m' !! k = m !! k)
         /\ m' !! "project_creation_mode"
            = if truthy (default (VBool false) (m !! "use_existing_project"))
              then Some (VMode MUST_EXIST)
              else m !! "project_creation_mode")
  /\ (exists evs,
         trace w' = trace w ++ evs
         /\ in_step_order (map (fun i => step_template i 11) (seq 1 11)) evs).
Proof.
  intros m w w'.
  apply (root_prompt_on_any_mapping demo_project_services 0 w w' m 12).
  - reflexivity.
  - vm_compute. reflexivity.
Defined.

(** ** The update command *)


Section UpdateMain.

Variable validate : string -> Value -> Result unit.
Variable class_prompt : string -> string -> gmap string Value -> M Value.






End UpdateMain.


Section UpdateFlags.

Variable validate : string -> Value -> Result unit.
Variable class_prompt : string -> string -> gmap string Value -> M Value.
Variable args : gmap string Value.

Lemma check_flags_all_valid parameters :
  (forall name v, name ∈ parameters -> args !! name = Some v -> v <> VNone ->
                  validate name v = Ok tt) ->
  forall remaining actual w,
    Update.check_flags validate parameters args remaining actual w
    = (Ok (remaining
           ++ filter (fun name => default VNone (args !! name) = VNone) parameters,
           foldl (take_flag args) actual parameters), w).
Proof.
  induction parameters as [|p parameters IH]; intros Hvalid remaining actual w.
  - cbn [Update.check_flags foldl]. rewrite filter_nil, app_nil_r. reflexivity.
  - cbn [Update.check_flags foldl]. rewrite filter_cons.
    case_bool_decide as Hsupplied.
    + assert (Htake : take_flag args actual p
                      = <[p := default VNone (args !! p)]> actual)
        by (unfold take_flag; now rewrite decide_False by exact Hsupplied).
      rewrite decide_False by exact Hsupplied. rewrite Htake.
      destruct (args !! p) as [v|] eqn:Hp; [|now contradiction Hsupplied].
      cbn [default from_option id] in *.
      rewrite (Hvalid p v); [|now left|exact Hp|exact Hsupplied].
      apply IH. intros name v' Hin. apply Hvalid. now right.
    + assert (Htake : take_flag args actual p = actual)
        by (unfold take_flag; now rewrite decide_True by exact Hsupplied).
      rewrite decide_True by exact Hsupplied. rewrite Htake.
      rewrite IH by (intros name v' Hin; apply Hvalid; now right).
      now rewrite <- app_assoc.
Qed.

Lemma take_flags_lookup parameters :
  forall actual k x,
    foldl (take_flag args) actual parameters !! k = Some x
    <-> (k ∈ parameters /\ args !! k = Some x /\ x <> VNone)
        \/ (~ (k ∈ parameters /\ default VNone (args !! k) <> VNone)
            /\ actual !! k = Some x).
Proof.
  induction parameters as [|p parameters IH]; intros actual k x; cbn [foldl].
  - split.
    + intros H. right. split; [|exact H]. intros [Hin _]. inversion Hin.
    + intros [(Hin & _)|[_ H]]; [inversion Hin | exact H].
  - rewrite IH. unfold take_flag. rewrite elem_of_cons. split.
    + intros [(Hin & Hk & Hx)|(Hnot & Hact)]; [left; auto|].
      destruct (decide (default VNone (args !! p) = VNone)) as [Hnone|Hsome].
      * right. split; [|exact Hact]. intros [[->|Hin] Hk]; [contradiction|].
        apply Hnot. auto.
      * destruct (decide (k = p)) as [->|Hne].
        -- rewrite lookup_insert_eq in Hact. injection Hact as <-.
           left. split; [now left|].
           destruct (args !! p); [split; [reflexivity | exact Hsome]|].
           now contradiction Hsome.
        -- rewrite lookup_insert_ne in Hact by congruence.
           right. split; [|exact Hact]. intros [[->|Hin] Hk]; [now apply Hne|].
           apply Hnot. auto.
    + intros [([->|Hin] & Hk & Hx)|(Hnot & Hact)].
      * destruct (decide (p ∈ parameters)) as [Hin|Hout]; [left; auto|].
        right. split; [intros [Hin _]; contradiction|].
        rewrite Hk. cbn [default from_option id]. rewrite decide_False by exact Hx.
        apply lookup_insert_eq.
      * left. auto.
      * right. split; [intros [Hin Hk]; apply Hnot; auto|].
        destruct (decide (default VNone (args !! p) = VNone)) as [Hnone|Hsome];
          [exact Hact|].
        destruct (decide (k = p)) as [->|Hne].
        -- exfalso. apply Hnot. auto.
        -- rewrite lookup_insert_ne by congruence. exact Hact.
Qed.

Lemma take_flags_supplied :
  foldl (take_flag args) ∅ Update.required_parameters_to_prompt = supplied_flags args.
Proof.
  apply map_eq. intros k. apply option_eq. intros x.
  rewrite take_flags_lookup. unfold supplied_flags.
  rewrite map_lookup_filter_Some. cbn [fst snd]. split.
  - intros [(Hin & Hk & Hx)|[_ Hempty]]; [auto|].
    rewrite lookup_empty in Hempty. discriminate.
  - intros (Hk & Hin & Hx). left. auto.
Qed.

Lemma missing_flags_sorted :
  Update.sorted_by_index (missing_flags args) = missing_flags args.
Proof.
  unfold missing_flags, Update.required_parameters_to_prompt.
  rewrite !filter_cons, filter_nil.
  repeat case_decide; reflexivity.
Qed.

(** X30.  When every value given on the command line passes the
    validator of its prompter, [update.main] prompts for the required
    parameters that have no value, in the fixed order credentials,
    database password, directory whichever of them are missing, numbers
    the steps from 1 to the number of missing parameters, and starts
    from the mapping of the values given; with nothing missing it shows
    nothing and prompts for nothing. *)
Theorem update_main_prompts_for_missing_flags
    (deploy : gmap string Value -> M unit) (w : World) :
  (forall name v, name ∈ Update.required_parameters_to_prompt ->
                  args !! name = Some v -> v <> VNone ->
                  validate name v = Ok tt) ->
  Update.main validate class_prompt deploy args w
  = (let* actual_parameters :=
       if PyStr.nonempty_list (missing_flags args) then
         console_tell ("<b>" +:+ PyStr.str_of_nat (length (missing_flags args))
                       +:+ " steps to update your project</b>") >>
         console_tell "" >>
         Update.prompt_remaining class_prompt (length (missing_flags args)) 0
           (missing_flags args) (supplied_flags args)
       else ret (supplied_flags args) in
     deploy actual_parameters) w.
Proof.
  intros Hvalid. unfold Update.main. unfold bind at 1.
  rewrite (check_flags_all_valid _ Hvalid). cbn [app].
  fold (missing_flags args). rewrite take_flags_supplied, missing_flags_sorted.
  reflexivity.
Qed.

End UpdateFlags.

Lemma update_main_prompts_for_missing_flags_witness :
  let args : gmap string Value := {[ "database_password" := VStr "s3cret" ]} in
  let class_prompt := fun (name step : string) (_ : gmap string Value) =>
    console_tell (step +:+ " " +:+ name) >> ret (VStr name) in
  let w := demo_world [] ∅ [] [] in
  Update.main demo_update_validate class_prompt demo_deploy args w
  = (let* actual_parameters :=
       if PyStr.nonempty_list (missing_flags args) then
         console_tell ("<b>" +:+ PyStr.str_of_nat (length (missing_flags args))
                       +:+ " steps to update your project</b>") >>
         console_tell "" >>
         Update.prompt_remaining class_prompt (length (missing_flags args)) 0
           (missing_flags args) (supplied_flags args)
       else ret (supplied_flags args) in
     demo_deploy actual_parameters) w.
Proof.
  intros args class_prompt w.
  apply (update_main_prompts_for_missing_flags demo_update_validate class_prompt
           args demo_deploy w).
  intros name v Hin Hv Hnone. unfold demo_update_validate.
  case_bool_decide as Hname; [|reflexivity]. subst name.
  vm_compute in Hv. injection Hv as <-. vm_compute. reflexivity.
Defined.

Example update_main_two_steps :
  let class_prompt := fun (name step : string) (_ : gmap string Value) =>
    console_tell (step +:+ " " +:+ name) >> ret (VStr name) in
  trace (snd (Update.main demo_update_validate class_prompt demo_deploy
                {[ "database_password" := VStr "s3cret" ]}
                (demo_world [] ∅ [] [])))
  = [ Tell "<b>2 steps to update your project</b>"; Tell "";
      Tell "<b>[1/2]</b> credentials";
      Tell "<b>[2/2]</b> django_directory_path" ].
Proof. vm_compute. reflexivity. Qed.
